(** * second-brain-ai: the RAG chat pipeline

    A shallow embedding of the TypeScript services behind [POST /api/chat]:

    - [ChromaService.search] and [ChromaService.ensureInitialized]
      (src/services/chroma-service.ts),
    - [DeepSeekAgent.stream] (src/agents/deepseek-agent.ts),
    - [LLMService.retrieveContext], [LLMService.buildRagPrompt] and
      [LLMService.streamChat] (src/services/llm-service.ts),
    - the [chatRoutes] handler of [POST /api/chat] wrapped in [asyncHandler]
      (src/routes/chat-routes.ts, src/middleware/async-handler.ts).

    src/services/llm-service.ts holds two revisions of [LLMService]; the
    model follows the later one, which has the retrieval step and is the one
    the route of [POST /api/chat] is written against.

    JavaScript strings are modelled by [string], integers by [Z], the
    distances reported by the vector store by [Q].  Effects (console output,
    calls to the hosted model and to the vector store, writes on the HTTP
    response) are recorded, in program order, in an explicit event trace that
    is threaded through a small state-and-exception monad. *)

From Stdlib Require Import String Ascii List ZArith QArith Lia Bool Arith.
From Stdlib Require Import DecimalString.
Import ListNotations.

Local Open Scope list_scope.
Local Open Scope string_scope.

(* ================================================================== *)
(** ** JavaScript values used by the services *)

Module Js.

(** The line feed and the double quote, which the template literals of the
    source contain. *)
Definition nl : string := String "010"%char EmptyString.
Definition dq : string := String "034"%char EmptyString.

(** [`${n}`] for an integer [n]. *)
Definition num_to_string (z : Z) : string :=
  NilEmpty.string_of_int (Z.to_int z).

(** [`${n}`] for an array index. *)
Definition index_to_string (n : nat) : string :=
  NilEmpty.string_of_uint (Nat.to_uint n).

(** Truthiness of a string: only [''] is falsy. *)
Definition truthy_string (s : string) : bool :=
  match s with
  | EmptyString => false
  | String _ _ => true
  end.

(** [s || d] on an optional string. *)
Definition or_string (s : option string) (d : string) : string :=
  match s with
  | Some v => if truthy_string v then v else d
  | None => d
  end.

(** [n || d] on an optional integer: [undefined] and [0] are falsy. *)
Definition or_num (n : option Z) (d : Z) : Z :=
  match n with
  | Some v => if (v =? 0)%Z then d else v
  | None => d
  end.

(** [q || d] on an optional number taken from an array of distances:
    a hole, [null] and [0] are falsy. *)
Definition or_Q (q : option Q) (d : Q) : Q :=
  match q with
  | Some v => if Qeq_bool v 0 then d else v
  | None => d
  end.

(** What a [catch (error)] clause may receive: an [Error] object with its
    message, or any other value. *)
Inductive Thrown : Type :=
| ErrorObj (message : string)
| NonError.

(** [error instanceof Error ? error.message : 'Unknown error'] *)
Definition message_of (t : Thrown) : string :=
  match t with
  | ErrorObj m => m
  | NonError => "Unknown error"
  end.

(** [xs.map((x, index) => f(x, index))], indices starting at [k]. *)
Fixpoint mapi_from {A B : Type} (f : A -> nat -> B) (k : nat) (xs : list A)
  : list B :=
  match xs with
  | [] => []
  | x :: rest => f x k :: mapi_from f (S k) rest
  end.

Definition mapi {A B : Type} (f : A -> nat -> B) (xs : list A) : list B :=
  mapi_from f 0 xs.

(** [parts.join(sep)] *)
Definition join (sep : string) (parts : list string) : string :=
  String.concat sep parts.

(** [s] occurs in [t] as a contiguous run of characters. *)
Definition occurs_in (s t : string) : Prop :=
  exists before after, t = before ++ s ++ after.

(** [s1] occurs in [t], and [s2] occurs after the end of that occurrence. *)
Definition occurs_before (s1 s2 t : string) : Prop :=
  exists before between after, t = before ++ s1 ++ between ++ s2 ++ after.

End Js.

(* ================================================================== *)
(** ** Data model (src/types/chat.ts, src/services/chroma-service.ts) *)

Module Types.

Inductive Role : Type := user | assistant | system.

Record ChatMessage : Type := {
  role : Role;
  content : string;
}.

(** The body of [POST /api/chat].  [temperature] and [maxTokens] are part of
    the schema but are never read by the service. *)
Record ChatRequest : Type := {
  messages : list ChatMessage;
  model : option string;
  temperature : option Q;
  maxTokens : option Z;
  useRag : option bool;
  ragLimit : option Z;
}.

Record ResponseMessage : Type := {
  resp_role : string;
  resp_content : string;
}.

Record Choice : Type := {
  index : Z;
  message : ResponseMessage;
  finishReason : string;
}.

Record ChatResponse : Type := {
  id : string;
  object : string;
  created : Z;
  response_model : string;
  choices : list Choice;
}.

(** [Record<string, any>], kept as an association list. *)
Definition Metadata : Type := list (string * string).

Record VectorDocument : Type := {
  doc_id : string;
  doc_content : string;
  doc_metadata : Metadata;
}.

Record SearchResult : Type := {
  document : VectorDocument;
  score : Q;
}.

End Types.

(* ================================================================== *)
(** ** [JSON.stringify] on the values the service serialises *)

Module Json.

#[local] Set Warnings "-register-all".

Inductive value : Type :=
| Str (s : string)
| Num (z : Z)
| Arr (items : list value)
| Obj (members : list (string * value)).

Definition backslash : string := String "092"%char EmptyString.

Definition hex_digit (n : nat) : string :=
  String (nth n (list_ascii_of_string "0123456789abcdef") "0"%char)
         EmptyString.

(** One character inside a JSON string literal: the quote, the backslash
    and the control characters below U+0020 are escaped. *)
Definition escape_char (c : ascii) : string :=
  let n := nat_of_ascii c in
  if (n =? 34)%nat then backslash ++ Js.dq
  else if (n =? 92)%nat then backslash ++ backslash
  else if (n =? 8)%nat then backslash ++ "b"
  else if (n =? 9)%nat then backslash ++ "t"
  else if (n =? 10)%nat then backslash ++ "n"
  else if (n =? 12)%nat then backslash ++ "f"
  else if (n =? 13)%nat then backslash ++ "r"
  else if (n <? 32)%nat
       then backslash ++ "u00" ++ hex_digit (n / 16) ++ hex_digit (n mod 16)
  else String c EmptyString.

Fixpoint escape (s : string) : string :=
  match s with
  | EmptyString => EmptyString
  | String c rest => escape_char c ++ escape rest
  end.

Definition quote (s : string) : string := Js.dq ++ escape s ++ Js.dq.

Fixpoint stringify (v : value) : string :=
  match v with
  | Str s => quote s
  | Num z => Js.num_to_string z
  | Arr items => "[" ++ Js.join "," (map stringify items) ++ "]"
  | Obj members =>
      "{" ++ Js.join ","
               (map (fun kv => quote (fst kv) ++ ":" ++ stringify (snd kv))
                    members)
          ++ "}"
  end.

(** The object layout of a [ChatResponse], members in the order of the
    object literal in [streamChat]. *)
Definition of_choice (c : Types.Choice) : value :=
  Obj [ ("index", Num (Types.index c));
        ("message",
          Obj [ ("role", Str (Types.resp_role (Types.message c)));
                ("content", Str (Types.resp_content (Types.message c))) ]);
        ("finishReason", Str (Types.finishReason c)) ].

Definition of_response (r : Types.ChatResponse) : value :=
  Obj [ ("id", Str (Types.id r));
        ("object", Str (Types.object r));
        ("created", Num (Types.created r));
        ("model", Str (Types.response_model r));
        ("choices", Arr (map of_choice (Types.choices r))) ].

End Json.

(* ================================================================== *)
(** ** Effects: the event trace and the state-and-exception monad *)

Module Effects.

Import Js.

(** Everything a request does to the outside world, in program order. *)
Inductive Event : Type :=
| ConsoleLog (line : string)
| ConsoleError (label : string) (error : Thrown)
| RequestLogError (error : Thrown)
| StoreHeartbeat
| StoreListCollections
| StoreCreateCollection (name : string)
| StoreGetCollection (name : string)
| StoreQuery (query : string) (nResults : Z)
| ModelStream (systemPrompt prompt : string)
| ChunkArrived (chunk : string)
| WriteHead (status : Z)
| Write (data : string)
| EndResponse.

(** Process state shared by the services: the [initialized] flag of the
    [ChromaService] instance, the number of [Date.now()] readings taken so
    far and the trace of events. *)
Record World : Type := {
  initialized : bool;
  clock_reads : nat;
  trace : list Event;
}.

Definition fresh : World :=
  {| initialized := false; clock_reads := 0; trace := [] |}.

Inductive Outcome (A : Type) : Type :=
| Returned (a : A)
| Threw (t : Thrown).
Arguments Returned {A} a.
Arguments Threw {A} t.

Definition M (A : Type) : Type := World -> Outcome A * World.

Definition ret {A : Type} (a : A) : M A := fun w => (Returned a, w).

Definition bind {A B : Type} (m : M A) (k : A -> M B) : M B :=
  fun w =>
    match m w with
    | (Returned a, w') => k a w'
    | (Threw t, w') => (Threw t, w')
    end.

Definition throw {A : Type} (t : Thrown) : M A := fun w => (Threw t, w).

(** [try { body } catch (error) { handler(error) }] *)
Definition try_catch {A : Type} (body : M A) (handler : Thrown -> M A)
  : M A :=
  fun w =>
    match body w with
    | (Returned a, w') => (Returned a, w')
    | (Threw t, w') => handler t w'
    end.

Definition record (e : Event) (w : World) : World :=
  {| initialized := initialized w;
     clock_reads := clock_reads w;
     trace := (trace w ++ [e])%list |}.

Definition emit (e : Event) : M unit := fun w => (Returned tt, record e w).

Definition set_initialized (b : bool) : M unit :=
  fun w => (Returned tt, {| initialized := b;
                            clock_reads := clock_reads w;
                            trace := trace w |}).

Definition get_initialized : M bool :=
  fun w => (Returned (initialized w), w).

(** [Date.now()]: the [n]-th reading of the process is [clock n]. *)
Definition date_now (clock : nat -> Z) : M Z :=
  fun w => (Returned (clock (clock_reads w)),
            {| initialized := initialized w;
               clock_reads := S (clock_reads w);
               trace := trace w |}).

(** [yield chunk] inside an async generator whose consumer handles each
    chunk with [sink] (the body of its [for await] loop) before the
    generator is resumed. *)
Definition yield_to (sink : string -> World -> World) (chunk : string)
  : M unit :=
  fun w => (Returned tt, sink chunk w).

(** The world after further events. *)
Definition extend (events : list Event) (w : World) : World :=
  {| initialized := initialized w;
     clock_reads := clock_reads w;
     trace := (trace w ++ events)%list |}.

(** The world after one more reading of the clock. *)
Definition tick (w : World) : World :=
  {| initialized := initialized w;
     clock_reads := S (clock_reads w);
     trace := trace w |}.

(** What an observer who only sees the events selected by [obs] has seen
    of a world. *)
Definition observe {X : Type} (obs : Event -> list X) (w : World) : list X :=
  flat_map obs (trace w).

(** A computation that adds nothing to what the observer sees. *)
Definition unseen {X A : Type} (obs : Event -> list X) (m : M A) : Prop :=
  forall w, observe obs (snd (m w)) = observe obs w.

(** An external call that either completes or throws. *)
Definition attempt (failure : option Thrown) : M unit :=
  match failure with
  | None => ret tt
  | Some t => throw t
  end.

Definition of_sum {A : Type} (r : Thrown + A) : M A :=
  match r with
  | inl t => throw t
  | inr a => ret a
  end.

End Effects.

Declare Scope js_scope.
Delimit Scope js_scope with js.
Notation "x <- m ;; k" := (Effects.bind m (fun x => k))
(at level 61, m at next level, right associativity) : js_scope.
Notation "m ;; k" := (Effects.bind m (fun _ => k))
(at level 61, right associativity) : js_scope.

Local Open Scope js_scope.

(* ================================================================== *)
(** ** [DeepSeekAgent] (src/agents/deepseek-agent.ts) *)

Module Agent.

Import Js Effects.

(** What the hosted model does once [model.stream] is called: the chunks it
    delivers, in order, and whether the stream then ends normally or with
    an error.  A call that fails before any chunk has no chunks. *)
Record Upstream : Type := {
  chunks : list string;
  ending : option Thrown;
}.

(** The hosted chat backend, as a function of the system message and the
    human message it is sent. *)
Definition Backend : Type := string -> string -> Upstream.

Record DeepSeekAgent : Type := {
  systemPrompt : string;
}.

(** The full text the backend generates on one call. *)
Definition generated_text (u : Upstream) : string :=
  fold_right append "" (chunks u).

(** The calls of [model.stream] among the events: system message and
    human message of each. *)
Definition model_call (e : Event) : list (string * string) :=
  match e with
  | ModelStream sys prompt => [(sys, prompt)]
  | _ => []
  end.

(** [constructor(config)]: only the system prompt is state of the agent. *)
Definition new_agent (config_systemPrompt : option string) : DeepSeekAgent :=
  {| systemPrompt :=
       or_string config_systemPrompt "You are a helpful AI assistant." |}.

(** The body of [for await (const chunk of stream)]: every chunk that
    arrives is offered to [onToken] unless its content is falsy. *)
Fixpoint consume {S : Type} (onToken : string -> S -> S)
         (incoming : list string) (acc : S) : M S :=
  match incoming with
  | [] => ret acc
  | chunk :: rest =>
      emit (ChunkArrived chunk) ;;
      consume onToken rest
              (if truthy_string chunk then onToken chunk acc else acc)
  end.

(** [stream(prompt, onToken)].  The callback updates state of its caller,
    which is passed explicitly as [acc]. *)
Definition stream {S : Type} (backend : Backend) (agent : DeepSeekAgent)
           (prompt : string) (onToken : string -> S -> S) (acc : S) : M S :=
  try_catch
    (emit (ModelStream (systemPrompt agent) prompt) ;;
     let upstream := backend (systemPrompt agent) prompt in
     acc' <- consume onToken (chunks upstream) acc ;;
     attempt (ending upstream) ;;
     ret acc')
    (fun error =>
       emit (ConsoleError "Error in DeepSeek agent stream:" error) ;;
       throw (ErrorObj ("DeepSeek API error: " ++ message_of error))).

End Agent.

(* ================================================================== *)
(** ** [ChromaService] (src/services/chroma-service.ts) *)

Module Chroma.

Import Js Effects Types.

Definition SEARCH_FAILED : string := "Search failed".
Definition INITIALIZATION_FAILED : string := "ChromaDB initialization failed".
Definition DEFAULT_COLLECTION_NAME : string := "documents".

(** The answer of [collection.query]; [None] stands for a field the store
    left out, and for a [null] entry inside an array. *)
Record QueryResult : Type := {
  documents : option (list (list (option string)));
  metadatas : option (list (list (option Metadata)));
  distances : option (list (list (option Q)));
  ids : list (list string);
}.

(** The networked vector database.  The query embedding is a function of
    the query text alone, so the answer is indexed by the text. *)
Record VectorStore : Type := {
  heartbeat : option Thrown;
  listCollections : Thrown + list string;
  createCollection : option Thrown;
  getCollection : option Thrown;
  query : string -> Z -> option Metadata -> Thrown + QueryResult;
}.

Record ChromaService : Type := {
  client : VectorStore;
  collectionName : string;
}.

(** [initialize()] *)
Definition initialize (svc : ChromaService) : M unit :=
  try_catch
    (emit StoreHeartbeat ;;
     attempt (heartbeat (client svc)) ;;
     emit (ConsoleLog "ChromaDB connection successful") ;;
     emit StoreListCollections ;;
     collections <- of_sum (listCollections (client svc)) ;;
     (if existsb (String.eqb (collectionName svc)) collections
      then emit (ConsoleLog ("Using existing collection: "
                               ++ collectionName svc))
      else
        emit (StoreCreateCollection (collectionName svc)) ;;
        attempt (createCollection (client svc)) ;;
        emit (ConsoleLog ("Created collection: " ++ collectionName svc))) ;;
     set_initialized true)
    (fun error =>
       emit (ConsoleError "Failed to initialize ChromaDB:" error) ;;
       throw (ErrorObj (INITIALIZATION_FAILED ++ ": " ++ message_of error))).

(** [ensureInitialized()] as run by a single request at a time; the
    pending-promise field that matters when several requests overlap is the
    subject of [LazyInit] below. *)
Definition ensureInitialized (svc : ChromaService) : M unit :=
  ready <- get_initialized ;;
  if ready then ret tt
  else initialize svc ;; set_initialized true.

(** [results.documents[0] || []] *)
Definition first_row {A : Type} (rows : list (list A)) : list A :=
  match rows with
  | [] => []
  | row :: _ => row
  end.

(** [xs[index]] on an array with [null] entries. *)
Definition at_index {A : Type} (xs : list (option A)) (i : nat) : option A :=
  match nth_error xs i with
  | Some (Some x) => Some x
  | _ => None
  end.

(** The callback of [documents.map] in [search]. *)
Definition to_result (ids_row : list string)
           (metadatas_row : list (option Metadata))
           (distances_row : list (option Q))
           (content : option string) (i : nat) : option SearchResult :=
  match content with
  | None => None
  | Some c =>
      if truthy_string c then
        Some {| document :=
                  {| doc_id := or_string (nth_error ids_row i)
                                         ("unknown_" ++ index_to_string i);
                     doc_content := c;
                     doc_metadata :=
                       match at_index metadatas_row i with
                       | Some m => m
                       | None => []
                       end |};
                score := 1 - or_Q (at_index distances_row i) 0 |}
      else None
  end.

(** [.filter(result => result !== null)] *)
Fixpoint drop_null {A : Type} (xs : list (option A)) : list A :=
  match xs with
  | [] => []
  | Some x :: rest => x :: drop_null rest
  | None :: rest => drop_null rest
  end.

(** The part of [search] after [collection.query] has answered. *)
Definition results_of (r : QueryResult) : list SearchResult :=
  match documents r, metadatas r, distances r with
  | Some docs, Some metas, Some dists =>
      drop_null
        (mapi (to_result (first_row (ids r)) (first_row metas)
                         (first_row dists))
              (first_row docs))
  | _, _, _ => []
  end.

(** [filter && Object.keys(filter).length > 0] *)
Definition where_clause (filter : option Metadata) : option Metadata :=
  match filter with
  | Some (_ :: _ as f) => Some f
  | _ => None
  end.

(** The calls of [collection.query] among the events: query text and
    [nResults] of each. *)
Definition query_call (e : Event) : list (string * Z) :=
  match e with
  | StoreQuery q n => [(q, n)]
  | _ => []
  end.

(** [search(query, limit, filter)] *)
Definition search (svc : ChromaService) (q : string) (limit : Z)
           (filter : option Metadata) : M (list SearchResult) :=
  try_catch
    (ensureInitialized svc ;;
     emit (StoreGetCollection (collectionName svc)) ;;
     attempt (getCollection (client svc)) ;;
     emit (StoreQuery q limit) ;;
     results <- of_sum (query (client svc) q limit (where_clause filter)) ;;
     ret (results_of results))
    (fun error =>
       emit (ConsoleError "Failed to search documents:" error) ;;
       throw (ErrorObj (SEARCH_FAILED ++ ": " ++ message_of error))).

End Chroma.

(* ================================================================== *)
(** ** [LLMService] (src/services/llm-service.ts) *)

Module LLM.

Import Js Effects Types.

Record LLMService : Type := {
  agent : Agent.DeepSeekAgent;
  chromaService : Chroma.ChromaService;
}.

(** The collaborators outside the process that are not reached through the
    [ChromaService]: the hosted model and the system clock. *)
Record Env : Type := {
  backend : Agent.Backend;
  clock : nat -> Z;
}.

(** [constructor(apiKey, chromaService)] with a non-empty key. *)
Definition new_service (chroma : Chroma.ChromaService) : LLMService :=
  {| agent := Agent.new_agent None; chromaService := chroma |}.

Definition SEPARATOR : string := nl ++ nl ++ "---" ++ nl ++ nl.

(** [`[Document ${index + 1}]\n${result.document.content}`] *)
Definition context_part (result : SearchResult) (i : nat) : string :=
  "[Document " ++ index_to_string (i + 1) ++ "]" ++ nl
    ++ doc_content (document result).

(** The value [retrieveContext] computes from the results of the search. *)
Definition format_context (results : list SearchResult) : string :=
  match results with
  | [] => ""
  | _ :: _ => join SEPARATOR (mapi context_part results)
  end.

(** [retrieveContext(query, limit)] *)
Definition retrieveContext (svc : LLMService) (q : string) (limit : Z)
  : M string :=
  try_catch
    (results <- Chroma.search (chromaService svc) q limit None ;;
     ret (format_context results))
    (fun error =>
       emit (ConsoleError "Failed to retrieve context from ChromaDB:" error) ;;
       ret "").

Definition FALLBACK_SENTENCE : string :=
  "I don't have enough information in your documents to answer this question.".

Definition PROMPT_HEAD : string :=
  "Context information from documents:" ++ nl.

Definition PROMPT_INSTRUCTION : string :=
  nl ++ nl ++ "---" ++ nl ++ nl
    ++ "Based on the context above, please answer the following question. "
    ++ "If the context doesn't contain relevant information, say "
    ++ dq ++ FALLBACK_SENTENCE ++ dq ++ nl ++ nl ++ "Question: ".

(** [buildRagPrompt(userMessage, context)] *)
Definition buildRagPrompt (userMessage context : string) : string :=
  if truthy_string context
  then PROMPT_HEAD ++ context ++ PROMPT_INSTRUCTION ++ userMessage
  else userMessage.

(** [request.messages[request.messages.length - 1]!.content]; reading
    [content] of [undefined] throws a [TypeError]. *)
Definition last_content (msgs : list ChatMessage) : M string :=
  match rev msgs with
  | [] => throw (ErrorObj
                   "Cannot read properties of undefined (reading 'content')")
  | m :: _ => ret (content m)
  end.

(** [request.useRag] as a condition. *)
Definition rag_enabled (request : ChatRequest) : bool :=
  match useRag request with
  | Some b => b
  | None => false
  end.

(** The limit [streamChat] hands to [retrieveContext]. *)
Definition rag_limit (request : ChatRequest) : Z :=
  or_num (ragLimit request) 3.

(** The prompt [streamChat] sends to the agent. *)
Definition resolve_prompt (svc : LLMService) (request : ChatRequest)
  : M string :=
  userMessage <- last_content (messages request) ;;
  if rag_enabled request
  then context <- retrieveContext svc userMessage (rag_limit request) ;;
       ret (buildRagPrompt userMessage context)
  else ret userMessage.

(** The object literal [response] of [streamChat]. *)
Definition envelope (request : ChatRequest) (now_id now_created : Z)
           (fullResponse : string) : ChatResponse :=
  {| id := "chatcmpl-" ++ num_to_string now_id;
     object := "chat.completion";
     created := (now_created / 1000)%Z;
     response_model := or_string (model request) "deepseek-chat";
     choices := [ {| index := 0;
                     message := {| resp_role := "assistant";
                                   resp_content := fullResponse |};
                     finishReason := "stop" |} ] |}.

(** The callback [streamChat] gives to the agent:
    [fullResponse += token]. *)
Definition accumulate (token fullResponse : string) : string :=
  fullResponse ++ token.

(** [streamChat(request)], an async generator; [sink] is what its consumer
    does with every chunk it yields. *)
Definition streamChat (env : Env) (svc : LLMService) (request : ChatRequest)
           (sink : string -> World -> World) : M unit :=
  try_catch
    (prompt <- resolve_prompt svc request ;;
     fullResponse <-
       Agent.stream (backend env) (agent svc) prompt accumulate "" ;;
     now_id <- date_now (clock env) ;;
     now_created <- date_now (clock env) ;;
     yield_to sink
       (Json.stringify
          (Json.of_response
             (envelope request now_id now_created fullResponse))))
    (fun error =>
       emit (ConsoleError "LLM Service streaming error:" error) ;;
       throw (ErrorObj ("LLM streaming error: " ++ message_of error))).

End LLM.

(* ================================================================== *)
(** ** [POST /api/chat] (src/routes/chat-routes.ts) *)

Module Routes.

Import Js Effects.

Definition DONE_FRAME : string := "data: [DONE]" ++ nl ++ nl.

(** [`data: ${chunk}\n\n`] *)
Definition data_frame (chunk : string) : string :=
  "data: " ++ chunk ++ nl ++ nl.

(** [asyncHandler(handler)] *)
Definition asyncHandler {A : Type} (handler : M A) : M A :=
  try_catch handler
            (fun error => emit (RequestLogError error) ;; throw error).

(** The handler registered for [POST /api/chat]. *)
Definition chat_handler (env : LLM.Env) (svc : LLM.LLMService)
           (request : Types.ChatRequest) : M unit :=
  emit (WriteHead 200) ;;
  LLM.streamChat env svc request
                 (fun chunk => record (Write (data_frame chunk))) ;;
  emit (Write DONE_FRAME) ;;
  emit EndResponse.

Definition post_api_chat (env : LLM.Env) (svc : LLM.LLMService)
           (request : Types.ChatRequest) : M unit :=
  asyncHandler (chat_handler env svc request).

(** What the client receives on the response body: the data of the
    [reply.raw.write] calls, in order. *)
Definition write_data (e : Event) : list string :=
  match e with
  | Write data => [data]
  | _ => []
  end.

Definition written (w : World) : list string := observe write_data w.

End Routes.

(* ================================================================== *)
(** ** [ChromaService.ensureInitialized] under overlapping requests *)

(** Node runs one piece of JavaScript at a time and switches between
  requests only where one of them awaits.  A request that calls
  [ensureInitialized] therefore runs the two tests and, if both fail, the
  call of [initialize()] and the assignment of [initializationPromise] in
  one uninterrupted step; it is resumed in a later step, once the promise
  it awaits has settled.  Besides [ensureInitialized] and [initialize()],
  only [clearCollection] writes the two fields: after its own
  [ensureInitialized] and after the store has deleted and created the
  collection, it is resumed and resets both.  Every order of these steps
  is a schedule. *)

Module LazyInit.

(** The promise returned by one call of [initialize()]. *)
Inductive Promise : Type := Pending | Fulfilled | Rejected.

(** Where a request stands inside [ensureInitialized]. *)
Inductive Task : Type :=
| Calling                       (* has not entered the function yet *)
| AwaitingOwn (p : nat)         (* at [await this.initializationPromise] *)
| AwaitingShared (p : nat)      (* returned [this.initializationPromise] *)
| Succeeded                     (* [ensureInitialized] has returned *)
| Failed
| Cleared.                      (* a [clearCollection] that has reset *)

Record State : Type := {
  initialized : bool;
  initializationPromise : option nat;
  promises : list Promise;       (* one per call of [initialize()] *)
  tasks : list Task;
}.

Inductive Action : Type :=
| Enter (i : nat)                (* request [i] calls [ensureInitialized] *)
| Settle (p : nat) (ok : bool)   (* [initialize()] number [p] finishes *)
| Resume (i : nat)               (* request [i] continues after its await *)
| Clear (i : nat) (ok : bool).   (* request [i], a [clearCollection] past its
                                    [ensureInitialized], continues after
                                    [createCollection], or after the store
                                    call of it that failed *)

Fixpoint update {A : Type} (l : list A) (i : nat) (x : A) : list A :=
  match l, i with
  | [], _ => []
  | _ :: rest, O => x :: rest
  | y :: rest, S j => y :: update rest j x
  end.

Definition set_task (st : State) (i : nat) (t : Task) : State :=
  {| initialized := initialized st;
     initializationPromise := initializationPromise st;
     promises := promises st;
     tasks := update (tasks st) i t |}.

Definition step (a : Action) (st : State) : option State :=
  match a with
  | Enter i =>
      match nth_error (tasks st) i with
      | Some Calling =>
          if initialized st then Some (set_task st i Succeeded)
          else
            match initializationPromise st with
            | Some p => Some (set_task st i (AwaitingShared p))
            | None =>
                let p := List.length (promises st) in
                Some {| initialized := initialized st;
                        initializationPromise := Some p;
                        promises := (promises st ++ [Pending])%list;
                        tasks := update (tasks st) i (AwaitingOwn p) |}
            end
      | _ => None
      end
  | Settle p ok =>
      match nth_error (promises st) p with
      | Some Pending =>
          Some {| initialized := if ok then true else initialized st;
                  initializationPromise := initializationPromise st;
                  promises := update (promises st) p
                                     (if ok then Fulfilled else Rejected);
                  tasks := tasks st |}
      | _ => None
      end
  | Resume i =>
      match nth_error (tasks st) i with
      | Some (AwaitingOwn p) =>
          match nth_error (promises st) p with
          | Some Fulfilled =>
              Some {| initialized := true;
                      initializationPromise := initializationPromise st;
                      promises := promises st;
                      tasks := update (tasks st) i Succeeded |}
          | Some Rejected =>
              Some {| initialized := initialized st;
                      initializationPromise := None;
                      promises := promises st;
                      tasks := update (tasks st) i Failed |}
          | _ => None
          end
      | Some (AwaitingShared p) =>
          match nth_error (promises st) p with
          | Some Fulfilled => Some (set_task st i Succeeded)
          | Some Rejected => Some (set_task st i Failed)
          | _ => None
          end
      | _ => None
      end
  | Clear i ok =>
      match nth_error (tasks st) i with
      | Some Succeeded =>
          if ok
          then Some {| initialized := false;
                       initializationPromise := None;
                       promises := promises st;
                       tasks := update (tasks st) i Cleared |}
          else Some (set_task st i Failed)
      | _ => None
      end
  end.

Fixpoint run (schedule : list Action) (st : State) : option State :=
  match schedule with
  | [] => Some st
  | a :: rest =>
      match step a st with
      | Some st' => run rest st'
      | None => None
      end
  end.

(** [n] requests in flight and a service that nobody has used yet. *)
Definition start (n : nat) : State :=
  {| initialized := false;
     initializationPromise := None;
     promises := [];
     tasks := repeat Calling n |}.

Definition initialize_calls (st : State) : nat := List.length (promises st).



(** The store answers every call: no step is a failed one. *)
Definition store_up (a : Action) : bool :=
  match a with
  | Settle _ false | Clear _ false => false
  | _ => true
  end.

(** A step of a [clearCollection] after its [ensureInitialized]. *)
Definition clear_step (a : Action) : bool :=
  match a with
  | Clear _ _ => true
  | _ => false
  end.


(** The resets among the steps of a schedule. *)
Definition resets (schedule : list Action) : nat :=
  List.length (filter (fun a => match a with
                                | Clear _ true => true
                                | _ => false
                                end) schedule).






End LazyInit.

(* ================================================================== *)
(** ** Sample collaborators and requests *)

Module Sample.

Import Types.

Definition hello : ChatMessage := {| role := user; content := "Hello!" |}.

Definition request_of (msgs : list ChatMessage) (rag : option bool)
           (limit : option Z) : ChatRequest :=
  {| messages := msgs; model := None; temperature := None;
     maxTokens := None; useRag := rag; ragLimit := limit |}.

(** A store holding two documents, the first at distance 3/2 from every
    query. *)
Definition two_documents : Chroma.QueryResult :=
  {| Chroma.documents := Some [[Some "alpha"; Some "beta"]];
     Chroma.metadatas := Some [[None; None]];
     Chroma.distances := Some [[Some (3 # 2); Some (1 # 4)]];
     Chroma.ids := [["a"; "b"]] |}.

Definition store_with (answer : Js.Thrown + Chroma.QueryResult)
  : Chroma.VectorStore :=
  {| Chroma.heartbeat := None;
     Chroma.listCollections := inr ["documents"];
     Chroma.createCollection := None;
     Chroma.getCollection := None;
     Chroma.query := fun _ _ _ => answer |}.

Definition service_with (answer : Js.Thrown + Chroma.QueryResult)
  : LLM.LLMService :=
  LLM.new_service {| Chroma.client := store_with answer;
                     Chroma.collectionName := Chroma.DEFAULT_COLLECTION_NAME |}.

Definition service : LLM.LLMService := service_with (inr two_documents).

Definition broken_service : LLM.LLMService :=
  service_with (inl (Js.ErrorObj "ECONNRESET")).

Definition env_with (upstream : Agent.Upstream) : LLM.Env :=
  {| LLM.backend := fun _ _ => upstream;
     LLM.clock := fun n => (1700000000123 + Z.of_nat n)%Z |}.

(** A backend that answers in two tokens. *)
Definition env : LLM.Env :=
  env_with {| Agent.chunks := ["Hel"; "lo!"]; Agent.ending := None |}.

(** A backend whose stream breaks after the first token. *)
Definition failing_env : LLM.Env :=
  env_with {| Agent.chunks := ["Hel"];
              Agent.ending := Some (Js.ErrorObj "boom") |}.

Definition results : list SearchResult :=
  Chroma.results_of two_documents.

(** A process whose collection has been initialised already. *)
Definition ready : Effects.World :=
  {| Effects.initialized := true;
     Effects.clock_reads := 0;
     Effects.trace := [] |}.

Definition plain_request : ChatRequest :=
  request_of [hello] (Some false) None.

Definition rag_request (limit : option Z) : ChatRequest :=
  request_of [hello] (Some true) limit.


(** The same question at the end of a longer conversation. *)
Definition long_request : ChatRequest :=
  request_of [ {| role := user; content := "My name is Ada." |};
               {| role := assistant; content := "Nice to meet you, Ada." |};
               hello ]
             (Some false) None.

End Sample.

(* ================================================================== *)
(** ** [LocalEmbeddings.hashString] (src/services/local-embeddings.ts) *)

Module Embeddings.

(** [ToInt32]: the signed 32-bit integer congruent to [z]. *)
Definition to_int32 (z : Z) : Z := ((z + 2 ^ 31) mod 2 ^ 32 - 2 ^ 31)%Z.

(** One turn of the loop on the code unit [char]:
    [hash = ((hash << 5) - hash) + char; hash = hash & hash].  The shift and
    the bitwise and work on 32-bit integers; the subtraction and the addition
    in between are exact. *)
Definition hash_step (hash char : Z) : Z :=
  to_int32 ((to_int32 (Z.shiftl (to_int32 hash) 5) - hash) + char).

(** [hashString(str)] on the UTF-16 code units of [str]. *)
Definition hashString (str : list Z) : Z :=
  Z.abs (fold_left hash_step str 0%Z).

(** The code units of a string of ASCII characters. *)
Definition code_units (s : string) : list Z :=
  map (fun c => Z.of_nat (nat_of_ascii c)) (list_ascii_of_string s).

(** [31 * h + c] over all code units, without any wrap-around. *)
Definition polynomial (str : list Z) : Z :=
  fold_left (fun h c => (31 * h + c)%Z) str 0%Z.

(** [(hash + i) % this.dimensions] in [generateEmbedding]. *)
Definition position (hash i dimensions : Z) : Z :=
  Z.rem (hash + i) dimensions.

End Embeddings.

(* ================================================================== *)
(** ** The document operations of [ChromaService]
       (src/services/chroma-service.ts) *)

Module Documents.

Import Js Effects Types.

(** The answer of [collection.get]. *)
Record GetResult : Type := {
  got_documents : option (list (option string));
  got_metadatas : option (list (option Metadata));
  got_ids : list string;
}.

(** The operations on the collection handle and on the client that [search]
    does not use.  Embeddings are a function of the texts, so [add] and
    [update] are indexed by the texts.  Only what the source prints on the
    console is recorded of these calls. *)
Record Collection : Type := {
  add : list string -> list Metadata -> list string -> option Thrown;
  get_by_ids : list string -> Thrown + GetResult;
  get_page : Z -> Z -> Thrown + GetResult;
  update : string -> Metadata -> string -> option Thrown;
  delete : list string -> option Thrown;
  count : Thrown + Z;
  collection_metadata : option Metadata;
  deleteCollection : option Thrown;
}.

Definition GET_DOCUMENT_FAILED : string := "Failed to get document".
Definition ADD_DOCUMENTS_FAILED : string := "Failed to add documents".
Definition UPDATE_DOCUMENT_FAILED : string := "Failed to update document".
Definition DELETE_DOCUMENT_FAILED : string := "Failed to delete document".
Definition DELETE_DOCUMENTS_FAILED : string := "Failed to delete documents".
Definition LIST_DOCUMENTS_FAILED : string := "Failed to list documents".
Definition GET_STATS_FAILED : string := "Failed to get collection stats".
Definition CLEAR_COLLECTION_FAILED : string := "Failed to clear collection".

(** [catch (error) { console.error(label, error);
                     throw new Error(`${failed}: ${...}`) }] *)
Definition rethrow_as {A : Type} (label failed : string) (error : Thrown)
  : M A :=
  emit (ConsoleError label error) ;;
  throw (ErrorObj (failed ++ ": " ++ message_of error)).

(** [await this.ensureInitialized();
     const collection = await this.client.getCollection({...})] *)
Definition open_collection (svc : Chroma.ChromaService) : M unit :=
  Chroma.ensureInitialized svc ;;
  emit (StoreGetCollection (Chroma.collectionName svc)) ;;
  attempt (Chroma.getCollection (Chroma.client svc)).

(** [xs?.[index] || {}] on the metadatas of a [get]. *)
Definition metadata_at (metas : option (list (option Metadata))) (i : nat)
  : Metadata :=
  match metas with
  | Some row =>
      match Chroma.at_index row i with
      | Some m => m
      | None => []
      end
  | None => []
  end.

(** [getDocument(id)] *)
Definition getDocument (svc : Chroma.ChromaService) (col : Collection)
           (id : string) : M (option VectorDocument) :=
  try_catch
    (open_collection svc ;;
     result <- of_sum (get_by_ids col [id]) ;;
     match got_documents result with
     | None | Some [] => ret None
     | Some (first :: _) =>
         match first with
         | None => ret None
         | Some c =>
             if truthy_string c
             then ret (Some {| doc_id := id;
                               doc_content := c;
                               doc_metadata :=
                                 metadata_at (got_metadatas result) 0 |})
             else ret None
         end
     end)
    (rethrow_as "Failed to get document:" GET_DOCUMENT_FAILED).

(** The callback of [result.documents.map] in [listDocuments]. *)
Definition to_document (result : GetResult) (content : option string)
           (i : nat) : option VectorDocument :=
  match content with
  | None => None
  | Some c =>
      if truthy_string c then
        Some {| doc_id := or_string (nth_error (got_ids result) i)
                                    ("unknown_" ++ index_to_string i);
                doc_content := c;
                doc_metadata := metadata_at (got_metadatas result) i |}
      else None
  end.

(** The part of [listDocuments] after [collection.get] has answered. *)
Definition documents_of (result : GetResult) : list VectorDocument :=
  match got_documents result with
  | None => []
  | Some docs => Chroma.drop_null (mapi (to_document result) docs)
  end.

(** [listDocuments(limit, offset)] *)
Definition listDocuments (svc : Chroma.ChromaService) (col : Collection)
           (limit offset : Z) : M (list VectorDocument) :=
  try_catch
    (open_collection svc ;;
     result <- of_sum (get_page col limit offset) ;;
     ret (documents_of result))
    (rethrow_as "Failed to list documents:" LIST_DOCUMENTS_FAILED).

(** [`${n}`] for the length of an array. *)
Definition length_to_string {A : Type} (xs : list A) : string :=
  index_to_string (List.length xs).

(** [addDocuments(documents)] *)
Definition addDocuments (svc : Chroma.ChromaService) (col : Collection)
           (documents : list VectorDocument) : M (list string) :=
  try_catch
    (open_collection svc ;;
     let contents := map doc_content documents in
     let ids := map doc_id documents in
     let metadatas := map doc_metadata documents in
     attempt (add col ids metadatas contents) ;;
     emit (ConsoleLog ("Added " ++ length_to_string documents
                         ++ " documents to collection")) ;;
     ret ids)
    (rethrow_as "Failed to add documents:" ADD_DOCUMENTS_FAILED).

(** [{ ...m, [key]: value }]: the value of [key] is replaced when [m] has
    the key, and the key is added otherwise. *)
Fixpoint with_key (m : Metadata) (key value : string) : Metadata :=
  match m with
  | [] => [(key, value)]
  | (k, v) :: rest =>
      if String.eqb k key then (k, value) :: rest
      else (k, v) :: with_key rest key value
  end.

(** [{ ...m, ...extra }] *)
Definition spread (m extra : Metadata) : Metadata :=
  fold_left (fun acc kv => with_key acc (fst kv) (snd kv)) extra m.

(** [m[key]] *)
Fixpoint lookup (m : Metadata) (key : string) : option string :=
  match m with
  | [] => None
  | (k, v) :: rest => if String.eqb k key then Some v else lookup rest key
  end.

(** What the runtime supplies besides the clock: the text of
    [new Date(t).toISOString()] and the digits of
    [Math.random().toString(36).substr(2, 9)] at this call. *)
Record Runtime : Type := {
  now : nat -> Z;
  toISOString : Z -> string;
  random_suffix : string;
}.

(** [new Date().toISOString()] *)
Definition iso_now (rt : Runtime) : M string :=
  t <- date_now (now rt) ;; ret (toISOString rt t).

(** [addDocument(content, metadata)] *)
Definition addDocument (rt : Runtime) (svc : Chroma.ChromaService)
           (col : Collection) (content : string) (metadata : Metadata)
  : M string :=
  t <- date_now (now rt) ;;
  let id := "doc_" ++ num_to_string t ++ "_" ++ random_suffix rt in
  stamp <- iso_now rt ;;
  addDocuments svc col
               [ {| doc_id := id;
                    doc_content := content;
                    doc_metadata := with_key metadata "timestamp" stamp |} ] ;;
  ret id.

(** [updateDocument(id, content, metadata)] *)
Definition updateDocument (svc : Chroma.ChromaService) (col : Collection)
           (id content : string) (metadata : Metadata) : M unit :=
  try_catch
    (open_collection svc ;;
     attempt (update col id metadata content) ;;
     emit (ConsoleLog ("Updated document: " ++ id)))
    (rethrow_as "Failed to update document:" UPDATE_DOCUMENT_FAILED).

(** [deleteDocument(id)] *)
Definition deleteDocument (svc : Chroma.ChromaService) (col : Collection)
           (id : string) : M unit :=
  try_catch
    (open_collection svc ;;
     attempt (delete col [id]) ;;
     emit (ConsoleLog ("Deleted document: " ++ id)))
    (rethrow_as "Failed to delete document:" DELETE_DOCUMENT_FAILED).

(** [deleteDocuments(ids)] *)
Definition deleteDocuments (svc : Chroma.ChromaService) (col : Collection)
           (ids : list string) : M unit :=
  try_catch
    (open_collection svc ;;
     attempt (delete col ids) ;;
     emit (ConsoleLog ("Deleted " ++ length_to_string ids ++ " documents")))
    (rethrow_as "Failed to delete documents:" DELETE_DOCUMENTS_FAILED).

Record CollectionStats : Type := {
  stats_name : string;
  stats_count : Z;
  stats_metadata : Metadata;
}.

(** [getCollectionStats()] *)
Definition getCollectionStats (svc : Chroma.ChromaService) (col : Collection)
  : M CollectionStats :=
  try_catch
    (open_collection svc ;;
     n <- of_sum (count col) ;;
     ret {| stats_name := Chroma.collectionName svc;
            stats_count := n;
            stats_metadata := match collection_metadata col with
                              | Some m => m
                              | None => []
                              end |})
    (rethrow_as "Failed to get collection stats:" GET_STATS_FAILED).

(** [clearCollection()] *)
Definition clearCollection (svc : Chroma.ChromaService) (col : Collection)
  : M unit :=
  try_catch
    (Chroma.ensureInitialized svc ;;
     attempt (deleteCollection col) ;;
     emit (ConsoleLog ("Cleared collection: " ++ Chroma.collectionName svc)) ;;
     emit (StoreCreateCollection (Chroma.collectionName svc)) ;;
     attempt (Chroma.createCollection (Chroma.client svc)) ;;
     set_initialized false)
    (rethrow_as "Failed to clear collection:" CLEAR_COLLECTION_FAILED).

(** [healthCheck()] *)
Definition healthCheck (svc : Chroma.ChromaService) : M bool :=
  try_catch
    (emit StoreHeartbeat ;;
     attempt (Chroma.heartbeat (Chroma.client svc)) ;;
     ret true)
    (fun error =>
       emit (ConsoleError "ChromaDB health check failed:" error) ;;
       ret false).

(** [isInitialized()] *)
Definition isInitialized : M bool := get_initialized.

(** The non-empty texts among the documents of an answer of the store. *)
Fixpoint present (row : list (option string)) : list string :=
  match row with
  | [] => []
  | Some c :: rest => if truthy_string c then c :: present rest
                      else present rest
  | None :: rest => present rest
  end.

(** The names given to [client.createCollection], among the events. *)
Definition create_call (e : Event) : list string :=
  match e with
  | StoreCreateCollection name => [name]
  | _ => []
  end.

(** The calls that [initialize()] makes on the client, among the events. *)
Definition setup_call (e : Event) : list Event :=
  match e with
  | StoreHeartbeat | StoreListCollections | StoreCreateCollection _ => [e]
  | _ => []
  end.

End Documents.

(* ================================================================== *)
(** ** [DeepSeekAgent.chat], [generate] and the health probe
       (src/agents/deepseek-agent.ts, src/services/llm-service.ts) *)

Module Generation.

Import Js Effects Types.

(** The LangChain messages the agent sends. *)
Inductive LcMessage : Type :=
| SystemMessage (text : string)
| HumanMessage (text : string)
| AIMessage (text : string).

(** [this.model.invoke(messages)]: the content of the completion, or the
    error of the transport or of the API. *)
Definition Invoker : Type := list LcMessage -> Thrown + string.

(** [chat(messages)] *)
Definition chat (invoke : Invoker) (agent : Agent.DeepSeekAgent)
           (messages : list LcMessage) : M string :=
  try_catch
    (of_sum (invoke (SystemMessage (Agent.systemPrompt agent) :: messages)))
    (fun error =>
       emit (ConsoleError "Error in DeepSeek agent chat:" error) ;;
       throw (ErrorObj ("DeepSeek API error: " ++ message_of error))).

(** [generate(prompt)] *)
Definition generate (invoke : Invoker) (agent : Agent.DeepSeekAgent)
           (prompt : string) : M string :=
  chat invoke agent [HumanMessage prompt].

(** [updateSystemPrompt(newPrompt)] and [getSystemPrompt()] *)
Definition updateSystemPrompt (agent : Agent.DeepSeekAgent)
           (newPrompt : string) : Agent.DeepSeekAgent :=
  {| Agent.systemPrompt := newPrompt |}.

Definition getSystemPrompt (agent : Agent.DeepSeekAgent) : string :=
  Agent.systemPrompt agent.

Definition R1_SYSTEM_PROMPT : string :=
  "You are DeepSeek-R1, a reasoning-focused AI assistant. Think step by step and provide detailed reasoning before giving your final answer.".

(** The constructor of [DeepSeekR1Agent]. *)
Definition new_r1_agent (config_systemPrompt : option string)
  : Agent.DeepSeekAgent :=
  Agent.new_agent (Some (or_string config_systemPrompt R1_SYSTEM_PROMPT)).

(** [reason(prompt, steps)] and [chainOfThought(prompt)] *)
Definition reason (invoke : Invoker) (agent : Agent.DeepSeekAgent)
           (prompt : string) (steps : Z) : M string :=
  generate invoke agent
           ("Please reason through this problem in " ++ num_to_string steps
              ++ " steps before giving your final answer:" ++ nl ++ nl
              ++ prompt).

Definition chainOfThought (invoke : Invoker) (agent : Agent.DeepSeekAgent)
           (prompt : string) : M string :=
  generate invoke agent ("Let's think step by step. " ++ prompt).

(** [LLMService.healthCheck()] *)
Definition healthCheck (invoke : Invoker) (svc : LLM.LLMService) : M bool :=
  try_catch
    (generate invoke (LLM.agent svc) "Hello" ;; ret true)
    (fun error =>
       emit (ConsoleError "LLM health check failed:" error) ;;
       ret false).

End Generation.

(* ================================================================== *)
(** ** The first revision of [LLMService] (src/services/llm-service.ts) *)

Module LLMv1.

Import Js Effects Types.

(** [haystack.includes(needle)] *)
Fixpoint includes (needle haystack : string) : bool :=
  if String.prefix needle haystack then true
  else match haystack with
       | EmptyString => false
       | String _ rest => includes needle rest
       end.

(** The two agents of the service; their system prompts are the state that
    [chat] changes. *)
Record Agents : Type := {
  agent : Agent.DeepSeekAgent;
  r1Agent : Agent.DeepSeekAgent;
}.

Definition new_agents : Agents :=
  {| agent := Agent.new_agent None;
     r1Agent := Generation.new_r1_agent None |}.

(** The hosted models behind the two agents. *)
Record Backends : Type := {
  chat_model : Generation.Invoker;
  reasoner_model : Generation.Invoker;
}.

(** [mapToLangChainMessages(messages)] *)
Definition mapToLangChainMessages (msgs : list ChatMessage)
  : list Generation.LcMessage :=
  map (fun msg =>
         match role msg with
         | user => Generation.HumanMessage (content msg)
         | assistant => Generation.AIMessage (content msg)
         | system => Generation.SystemMessage (content msg)
         end)
      msgs.

(** [request.model?.includes('reasoner')] as a condition. *)
Definition wants_reasoner (request : ChatRequest) : bool :=
  match model request with
  | Some m => includes "reasoner" m
  | None => false
  end.

(** [request.model && request.model !== 'deepseek-chat'
     && request.model !== 'deepseek-reasoner'] *)
Definition custom_model (request : ChatRequest) : option string :=
  match model request with
  | Some m =>
      if truthy_string m
         && negb (String.eqb m "deepseek-chat")
         && negb (String.eqb m "deepseek-reasoner")
      then Some m else None
  | None => None
  end.

(** The agent [chat] talks to. *)
Definition selected (agents : Agents) (request : ChatRequest)
  : Agent.DeepSeekAgent :=
  if wants_reasoner request then r1Agent agents else agent agents.

(** The agents after the [updateSystemPrompt] of [chat]: for a model name
    of the caller's own, the selected agent's system prompt is prefixed
    with a sentence naming the model. *)
Definition primed (agents : Agents) (request : ChatRequest) : Agents :=
  match custom_model request with
  | None => agents
  | Some m =>
      let renamed a :=
        Generation.updateSystemPrompt
          a ("You are using model: " ++ m ++ ". "
               ++ Generation.getSystemPrompt a) in
      if wants_reasoner request
      then {| agent := agent agents; r1Agent := renamed (r1Agent agents) |}
      else {| agent := renamed (agent agents); r1Agent := r1Agent agents |}
  end.

(** The agents after a sequence of requests, oldest first. *)
Definition served (agents : Agents) (requests : list ChatRequest) : Agents :=
  fold_left primed requests agents.

(** [chat(request)] on the agents as the earlier requests left them. *)
Definition chat (backends : Backends) (clock : nat -> Z) (agents : Agents)
           (request : ChatRequest) : M ChatResponse :=
  try_catch
    (let langChainMessages := mapToLangChainMessages (messages request) in
     let invoke := if wants_reasoner request then reasoner_model backends
                   else chat_model backends in
     text <- Generation.chat invoke (selected (primed agents request) request)
                             langChainMessages ;;
     now_id <- date_now clock ;;
     now_created <- date_now clock ;;
     ret (LLM.envelope request now_id now_created text))
    (fun error =>
       emit (ConsoleError "LLM Service error:" error) ;;
       throw (ErrorObj ("LLM service error: " ++ message_of error))).

End LLMv1.

(* ================================================================== *)
(** ** Errors and the error handler
       (src/utils/errors.ts, src/middleware/error-handler.ts) *)

Module Errors.

Import Js Effects Types.

(** An [Error] with the optional members of [AppError]. *)
Record AppError : Type := {
  message : option string;
  name : option string;
  statusCode : option Z;
  code : option string;
  details : option string;
}.

(** The value a [catch] of the services' errors sees as an [AppError]. *)
Definition of_thrown (t : Thrown) : AppError :=
  match t with
  | ErrorObj m => {| message := Some m; name := Some "Error";
                     statusCode := None; code := None; details := None |}
  | NonError => {| message := None; name := None;
                   statusCode := None; code := None; details := None |}
  end.

Definition as_thrown (e : AppError) : Thrown :=
  match message e with
  | Some m => ErrorObj m
  | None => NonError
  end.

(** [new DocumentNotFoundError(id)] *)
Definition documentNotFound (id : string) : AppError :=
  {| message := Some ("Document with id " ++ id ++ " not found");
     name := Some "DocumentNotFoundError";
     statusCode := Some 404%Z;
     code := Some "DOCUMENT_NOT_FOUND";
     details := None |}.

(** [new ValidationError(message, details)] *)
Definition validation (msg : string) (detail : option string) : AppError :=
  {| message := Some msg;
     name := Some "ValidationError";
     statusCode := Some 400%Z;
     code := Some "VALIDATION_ERROR";
     details := detail |}.

(** [new ServiceError(message, code = 'SERVICE_ERROR')] *)
Definition service (msg : string) (error_code : option string) : AppError :=
  {| message := Some msg;
     name := Some "ServiceError";
     statusCode := Some 500%Z;
     code := Some (match error_code with
                   | Some c => c
                   | None => "SERVICE_ERROR"
                   end);
     details := None |}.

End Errors.

(* ================================================================== *)
(** ** The document routes and the health routes
       (src/routes/document-routes.ts, src/routes/chat-routes.ts) *)

Module Api.

Import Js Effects Types.

(** [mapToResponse(document)] *)
Record DocumentResponse : Type := {
  res_id : string;
  res_content : string;
  res_metadata : Metadata;
  res_created : option string;
  res_updated : option string;
}.

Definition mapToResponse (d : VectorDocument) : DocumentResponse :=
  {| res_id := doc_id d;
     res_content := doc_content d;
     res_metadata := doc_metadata d;
     res_created := Documents.lookup (doc_metadata d) "timestamp";
     res_updated := Documents.lookup (doc_metadata d) "updated" |}.

(** The bodies the routes send. *)
Inductive Body : Type :=
| ErrorBody (message : option string) (code : string)
            (details : option string) (timestamp : string)
| DocumentBody (d : DocumentResponse)
| SearchBody (results : list (DocumentResponse * Q)) (query : string)
             (total : Z)
| ListBody (documents : list DocumentResponse) (total limit offset : Z)
| HealthBody (status timestamp service : string) (error : option string)
| NoBody.

Record Reply : Type := {
  status : Z;
  body : Body;
}.

(** The error handler installed by [setupErrorHandler]; its own log line is
    not recorded. *)
Definition errorHandler (rt : Documents.Runtime) (error : Errors.AppError)
  : M Reply :=
  let statusCode := or_num (Errors.statusCode error) 500 in
  let code := or_string (Errors.code error) "INTERNAL_ERROR" in
  stamp <- Documents.iso_now rt ;;
  ret {| status := statusCode;
         body := ErrorBody (Errors.message error) code
                           (Errors.details error) stamp |}.

(** A route handler wrapped in [asyncHandler] and registered on a server
    with the error handler: a handler that returns [inr e] has thrown the
    [AppError] [e]; every error is logged on the request and handed to the
    error handler. *)
Definition serve (rt : Documents.Runtime) (handler : M (Reply + Errors.AppError))
  : M Reply :=
  fun w =>
    match handler w with
    | (Returned (inl reply), w') => (Returned reply, w')
    | (Returned (inr e), w') =>
        errorHandler rt e (record (RequestLogError (Errors.as_thrown e)) w')
    | (Threw t, w') =>
        errorHandler rt (Errors.of_thrown t) (record (RequestLogError t) w')
    end.

Definition reply {E : Type} (code : Z) (b : Body) : M (Reply + E) :=
  ret (inl {| status := code; body := b |}).

Definition raise {R : Type} (e : Errors.AppError) : M (R + Errors.AppError) :=
  ret (inr e).

Section Routes.

Variables (rt : Documents.Runtime) (svc : Chroma.ChromaService)
          (col : Documents.Collection).

(** [GET /api/documents/:id] *)
Definition get_document (id : string) : M Reply :=
  serve rt
    (document <- Documents.getDocument svc col id ;;
     match document with
     | None => raise (Errors.documentNotFound id)
     | Some d => reply 200 (DocumentBody (mapToResponse d))
     end).

(** [DELETE /api/documents/:id] *)
Definition delete_document (id : string) : M Reply :=
  serve rt
    (existing <- Documents.getDocument svc col id ;;
     match existing with
     | None => raise (Errors.documentNotFound id)
     | Some _ =>
         Documents.deleteDocument svc col id ;;
         reply 204 NoBody
     end).

(** [POST /api/documents] *)
Definition create_document (content : string) (metadata : option Metadata)
  : M Reply :=
  serve rt
    (id <- Documents.addDocument rt svc col content
                                 (match metadata with
                                  | Some m => m
                                  | None => []
                                  end) ;;
     created <- Documents.getDocument svc col id ;;
     match created with
     | None => raise (Errors.service "Failed to retrieve created document"
                                     (Some "DOCUMENT_RETRIEVAL_ERROR"))
     | Some d => reply 201 (DocumentBody (mapToResponse d))
     end).

(** [DocumentSearchSchema], the body schema of [POST /api/documents/search]
    (src/types/document.ts): a [query] of at least one character and, when
    present, a [limit] from 1 to 100.  The server calls the handler only
    with a body the schema admits. *)
Definition DocumentSearchSchema (q : string) (limit : option Z) : bool :=
  (1 <=? String.length q)%nat
  && match limit with
     | Some n => (1 <=? n)%Z && (n <=? 100)%Z
     | None => true
     end.

(** [POST /api/documents/search] *)
Definition search_documents (q : string) (limit : option Z)
           (filter : option Metadata) : M Reply :=
  serve rt
    (results <- Chroma.search svc q (or_num limit 5) filter ;;
     reply 200
           (SearchBody
              (map (fun r => (mapToResponse (document r), score r)) results)
              q (Z.of_nat (List.length results)))).

(** [GET /api/documents] *)
Definition list_documents (limit offset : option Z) : M Reply :=
  serve rt
    (let limit' := match limit with Some l => l | None => 100%Z end in
     let offset' := match offset with Some o => o | None => 0%Z end in
     documents <- Documents.listDocuments svc col limit' offset' ;;
     stats <- Documents.getCollectionStats svc col ;;
     reply 200 (ListBody (map mapToResponse documents)
                         (Documents.stats_count stats) limit' offset')).

(** [DELETE /api/documents] *)
Definition clear_documents : M Reply :=
  serve rt (Documents.clearCollection svc col ;; reply 204 NoBody).

(** [GET /api/documents/health] *)
Definition documents_health : M Reply :=
  serve rt
    (isHealthy <- Documents.healthCheck svc ;;
     if isHealthy
     then stamp <- Documents.iso_now rt ;;
          reply 200 (HealthBody "healthy" stamp "chromadb" None)
     else raise (Errors.service "ChromaDB health check failed"
                                (Some "CHROMADB_HEALTH_CHECK_ERROR"))).

(** [GET /api/chat/health] *)
Definition chat_health (invoke : Generation.Invoker) (llm : LLM.LLMService)
  : M Reply :=
  serve rt
    (isHealthy <- Generation.healthCheck invoke llm ;;
     if isHealthy
     then stamp <- Documents.iso_now rt ;;
          reply 200 (HealthBody "healthy" stamp "llm" None)
     else stamp <- Documents.iso_now rt ;;
          reply 503 (HealthBody "unhealthy" stamp "llm"
                                (Some "LLM service health check failed"))).

(** What the handler of [PUT /api/documents/:id] hands to
    [updateDocument] for an existing document: the new content when the
    update has one, and the existing metadata overlaid with the update's
    and stamped with [updated]. *)
Definition update_payload (existing : VectorDocument)
           (new_content : option string) (new_metadata : option Metadata)
           (stamp : string) : string * Metadata :=
  (or_string new_content (doc_content existing),
   Documents.with_key
     (Documents.spread (doc_metadata existing)
                       (match new_metadata with
                        | Some m => m
                        | None => []
                        end))
     "updated" stamp).

End Routes.

End Api.

(* ================================================================== *)
(** ** Initialisations in flight, with a store that may fail and
       collections that are cleared *)

Module InFlight.

Import LazyInit.

(** What [ensureInitialized] keeps true as long as no [clearCollection]
    resets the service: a pending initialisation is the one the service
    holds, the request that started an initialisation and still awaits it
    finds it in the service, and there is at most one such request. *)
Definition orderly (st : State) : Prop :=
  (forall p,
      nth_error (promises st) p = Some Pending ->
      initializationPromise st = Some p)
  /\ (forall i p,
         nth_error (tasks st) i = Some (AwaitingOwn p) ->
         initializationPromise st = Some p)
  /\ (forall i j p q,
         nth_error (tasks st) i = Some (AwaitingOwn p) ->
         nth_error (tasks st) j = Some (AwaitingOwn q) ->
         i = j).

(** What holds while the store answers: no initialisation is rejected and
    no request fails. *)
Definition unharmed (st : State) : Prop :=
  Forall (fun p => p <> Rejected) (promises st)
  /\ Forall (fun t => t <> Failed) (tasks st).

(** 1 when the next request to enter would call [initialize()]. *)
Definition armed (st : State) : nat :=
  if initialized st then 0%nat
  else match initializationPromise st with
       | Some _ => 0%nat
       | None => 1%nat
       end.

End InFlight.

(* ================================================================== *)
(** ** Lines of a server-sent event *)

Module Sse.

(** No character of [s] has a code below 32; in particular [s] has no
    line feed and no carriage return.  (DEL, code 127, is allowed.) *)
Definition one_line (s : string) : bool :=
  forallb (fun c => (32 <=? nat_of_ascii c)%nat) (list_ascii_of_string s).

(** The chunks among the events, in the order of their arrival. *)
Definition arrival (e : Effects.Event) : list string :=
  match e with
  | Effects.ChunkArrived chunk => [chunk]
  | _ => []
  end.

End Sse.

(* ================================================================== *)
(** ** More sample collaborators *)

Module Fixtures.

Import Types.

Definition chroma : Chroma.ChromaService := LLM.chromaService Sample.service.

(** A store that cannot be reached. *)
Definition down : Chroma.ChromaService :=
  {| Chroma.client :=
       {| Chroma.heartbeat := Some (Js.ErrorObj "ECONNREFUSED");
          Chroma.listCollections := inr [];
          Chroma.createCollection := None;
          Chroma.getCollection := None;
          Chroma.query := fun _ _ _ => inl (Js.ErrorObj "ECONNREFUSED") |};
     Chroma.collectionName := Chroma.DEFAULT_COLLECTION_NAME |}.

(** A store that refuses to create collections. *)
Definition full : Chroma.ChromaService :=
  {| Chroma.client :=
       {| Chroma.heartbeat := None;
          Chroma.listCollections := inr ["documents"];
          Chroma.createCollection := Some (Js.ErrorObj "quota exceeded");
          Chroma.getCollection := None;
          Chroma.query := fun _ _ _ => inr Sample.two_documents |};
     Chroma.collectionName := Chroma.DEFAULT_COLLECTION_NAME |}.

Definition page : Documents.GetResult :=
  {| Documents.got_documents := Some [Some "alpha"; None; Some "beta"];
     Documents.got_metadatas := None;
     Documents.got_ids := ["a"] |}.

Definition collection : Documents.Collection :=
  {| Documents.add := fun _ _ _ => None;
     Documents.get_by_ids :=
       fun ids =>
         inr {| Documents.got_documents := Some [Some "alpha"];
                Documents.got_metadatas := Some [Some [("lang", "en")]];
                Documents.got_ids := ids |};
     Documents.get_page := fun _ _ => inr page;
     Documents.update := fun _ _ _ => None;
     Documents.delete := fun _ => None;
     Documents.count := inr 7%Z;
     Documents.collection_metadata := None;
     Documents.deleteCollection := None |}.

Definition runtime : Documents.Runtime :=
  {| Documents.now := fun n => (1700000000123 + Z.of_nat n)%Z;
     Documents.toISOString := fun _ => "2023-11-14T22:13:20.123Z";
     Documents.random_suffix := "k3j9x0q1z" |}.

Definition alpha : VectorDocument :=
  {| doc_id := "a"; doc_content := "alpha";
     doc_metadata := [("lang", "en"); ("topic", "notes")] |}.

(** A request that names a model of the caller's own. *)
Definition custom_request : ChatRequest :=
  {| messages := [Sample.hello]; model := Some "gpt-4o";
     temperature := None; maxTokens := None;
     useRag := None; ragLimit := None |}.

(** The first initialisation fails while a second request waits for it;
    the third request starts another one. *)
Definition retry : list LazyInit.Action :=
  [ LazyInit.Enter 0; LazyInit.Enter 1; LazyInit.Settle 0 false;
    LazyInit.Resume 0; LazyInit.Enter 2 ].

(** Requests 0 and 1 clear the collection, requests 2 and 3 search: both
    clears get through [ensureInitialized] before either resets, the first
    search enters after the first reset and the second one after the second
    reset. *)
Definition overlapping_clears : list LazyInit.Action :=
  [ LazyInit.Enter 0; LazyInit.Enter 1; LazyInit.Settle 0 true;
    LazyInit.Resume 0; LazyInit.Resume 1;
    LazyInit.Clear 0 true; LazyInit.Enter 2;
    LazyInit.Clear 1 true; LazyInit.Enter 3 ].

(** A request whose model name is the caller's own and selects the
    reasoning agent. *)
Definition custom_reasoner_request : ChatRequest :=
  {| messages := [Sample.hello]; model := Some "my-reasoner-v2";
     temperature := None; maxTokens := None;
     useRag := None; ragLimit := None |}.

End Fixtures.

(* ================================================================== *)
(** * Properties *)

(** ** Strings, joins and indexed maps *)

Section StringFacts.

Import Js.

Lemma append_assoc (a b c : string) : (a ++ b) ++ c = a ++ b ++ c.
Proof.
  induction a as [|ch a IH]; simpl; [reflexivity | now rewrite IH].
Qed.

Lemma append_nil_r (a : string) : a ++ "" = a.
Proof.
  induction a as [|ch a IH]; simpl; [reflexivity | now rewrite IH].
Qed.

Lemma occurs_in_refl (s : string) : occurs_in s s.
Proof. exists "", "". simpl. now rewrite append_nil_r. Qed.

Lemma occurs_in_trans (s t u : string) :
  occurs_in s t -> occurs_in t u -> occurs_in s u.
Proof.
  intros (a & b & ->) (c & d & ->).
  exists (c ++ a), (b ++ d).
  now rewrite !append_assoc.
Qed.

Lemma occurs_in_wrap (s t before after : string) :
  occurs_in s t -> occurs_in s (before ++ t ++ after).
Proof.
  intros H. apply occurs_in_trans with (t := t); [exact H|].
  now exists before, after.
Qed.

Lemma occurs_before_wrap (s1 s2 t before after : string) :
  occurs_before s1 s2 t -> occurs_before s1 s2 (before ++ t ++ after).
Proof.
  intros (a & b & c & ->).
  exists (before ++ a), b, (c ++ after).
  now rewrite !append_assoc.
Qed.

Lemma join_cons (sep x y : string) (rest : list string) :
  join sep (x :: y :: rest) = x ++ sep ++ join sep (y :: rest).
Proof. reflexivity. Qed.

(** Whatever precedes an element of a joined list is a prefix of the
    join. *)
Lemma join_app (sep : string) (front back : list string) (x : string) :
  exists before,
    join sep (front ++ x :: back)%list = before ++ join sep (x :: back).
Proof.
  induction front as [|y front [before IH]].
  - now exists "".
  - destruct front as [|z front].
    + exists (y ++ sep). simpl app. rewrite join_cons.
      now rewrite append_assoc.
    + exists (y ++ sep ++ before).
      change ((y :: z :: front) ++ x :: back)%list
        with (y :: z :: (front ++ x :: back)%list).
      rewrite join_cons.
      change (z :: (front ++ x :: back)%list)
        with ((z :: front) ++ x :: back)%list.
      rewrite IH. now rewrite !append_assoc.
Qed.

Lemma join_head (sep x : string) (back : list string) :
  exists after, join sep (x :: back) = x ++ after.
Proof.
  destruct back as [|y back].
  - exists "". simpl. now rewrite append_nil_r.
  - exists (sep ++ join sep (y :: back)). apply join_cons.
Qed.

Lemma join_occurs (sep : string) (front back : list string) (x : string) :
  occurs_in x (join sep (front ++ x :: back)%list).
Proof.
  destruct (join_app sep front back x) as [before ->].
  destruct (join_head sep x back) as [after ->].
  now exists before, after.
Qed.

Lemma join_adjacent (sep : string) (front back : list string)
      (x y : string) :
  occurs_in (x ++ sep ++ y) (join sep (front ++ x :: y :: back)%list).
Proof.
  destruct (join_app sep front (y :: back) x) as [before ->].
  rewrite join_cons.
  destruct (join_head sep y back) as [after ->].
  exists before, after. now rewrite !append_assoc.
Qed.

Lemma join_ordered (sep : string) (front middle back : list string)
      (x y : string) :
  occurs_before x y
    (join sep (front ++ x :: middle ++ y :: back)%list).
Proof.
  destruct (join_app sep front (middle ++ y :: back)%list x)
    as [before ->].
  destruct (middle ++ y :: back)%list as [|z tail] eqn:E.
  - now destruct middle.
  - rewrite join_cons, <- E.
    destruct (join_app sep middle back y) as [between ->].
    destruct (join_head sep y back) as [after ->].
    exists before, (sep ++ between), after.
    now rewrite !append_assoc.
Qed.

Lemma mapi_from_app {A B : Type} (f : A -> nat -> B) (k : nat)
      (xs ys : list A) :
  mapi_from f k (xs ++ ys)%list
  = (mapi_from f k xs ++ mapi_from f (k + List.length xs) ys)%list.
Proof.
  revert k. induction xs as [|x xs IH]; intros k; simpl.
  - now rewrite Nat.add_0_r.
  - rewrite IH. now rewrite Nat.add_succ_r.
Qed.

(** The image of an element sits where the element sat. *)
Lemma mapi_middle {A B : Type} (f : A -> nat -> B) (front back : list A)
      (x : A) :
  mapi f (front ++ x :: back)%list
  = (mapi f front ++ f x (List.length front)
       :: mapi_from f (S (List.length front)) back)%list.
Proof. unfold mapi. now rewrite mapi_from_app. Qed.

End StringFacts.

(* ================================================================== *)
(** ** The prompt assembler *)

Section PromptAssembler.

Import Js Types.

Lemma format_context_nonempty (r : SearchResult)
      (rest : list SearchResult) :
  LLM.format_context (r :: rest)
  = join LLM.SEPARATOR (mapi LLM.context_part (r :: rest))
  /\ truthy_string (LLM.format_context (r :: rest)) = true.
Proof.
  split; [reflexivity|].
  unfold LLM.format_context, mapi. simpl mapi_from.
  destruct (join_head LLM.SEPARATOR (LLM.context_part r 0)
                      (mapi_from LLM.context_part 1 rest)) as [after ->].
  reflexivity.
Qed.

Lemma occurs_before_contents (label1 c1 label2 c2 t : string) :
  occurs_before (label1 ++ c1) (label2 ++ c2) t -> occurs_before c1 c2 t.
Proof.
  intros (a & b & c & ->).
  exists (a ++ label1), (b ++ label2), c.
  now rewrite !append_assoc.
Qed.

(** C4: with an empty retrieved context the prompt is the question itself,
    character for character: both for the empty context string and for the
    context computed from an empty sequence of results. *)
Theorem C4_empty_context_returns_question (q : string) :
  LLM.buildRagPrompt q "" = q
  /\ LLM.buildRagPrompt q (LLM.format_context []) = q.
Proof. split; reflexivity. Qed.

(** The prompt built from the context of a non-empty sequence of results:
    the fixed head, the [[Document N]] blocks joined by the separator, the
    instruction and the question. *)
Lemma prompt_on_results (q : string) (results : list SearchResult) :
  results <> [] ->
  let prompt := LLM.buildRagPrompt q (LLM.format_context results) in
  prompt = "Context information from documents:" ++ nl
             ++ join (nl ++ nl ++ "---" ++ nl ++ nl)
                     (mapi LLM.context_part results)
             ++ LLM.PROMPT_INSTRUCTION ++ q
  /\ (forall i r,
         nth_error results i = Some r ->
         occurs_in ("[Document " ++ index_to_string (i + 1) ++ "]" ++ nl
                      ++ doc_content (document r)) prompt
         /\ occurs_in (doc_content (document r)) prompt)
  /\ (forall i r r',
         nth_error results i = Some r ->
         nth_error results (S i) = Some r' ->
         occurs_in (LLM.context_part r i ++ (nl ++ nl ++ "---" ++ nl ++ nl)
                      ++ LLM.context_part r' (S i)) prompt)
  /\ (forall i j r r',
         (i < j)%nat ->
         nth_error results i = Some r ->
         nth_error results j = Some r' ->
         occurs_before (LLM.context_part r i) (LLM.context_part r' j) prompt
         /\ occurs_before (doc_content (document r))
                          (doc_content (document r')) prompt)
  /\ occurs_in
       "I don't have enough information in your documents to answer this question."
       prompt
  /\ (forall q' results',
         q' = q -> results' = results ->
         LLM.buildRagPrompt q' (LLM.format_context results') = prompt).
Proof.
  intros Hne prompt.
  destruct results as [|r0 rest]; [congruence|].
  destruct (format_context_nonempty r0 rest) as [Hctx Htruthy].
  assert (Hprompt :
            prompt = LLM.PROMPT_HEAD
                       ++ join LLM.SEPARATOR
                               (mapi LLM.context_part (r0 :: rest))
                       ++ LLM.PROMPT_INSTRUCTION ++ q).
  { unfold prompt, LLM.buildRagPrompt. rewrite Htruthy. now rewrite Hctx. }
  clear Hne Hctx Htruthy.
  set (results := r0 :: rest) in *.
  assert (Hblock : forall i r,
             nth_error results i = Some r ->
             occurs_in (LLM.context_part r i) prompt).
  { intros i r H.
    destruct (nth_error_split results i H) as (l1 & l2 & E & Hlen).
    rewrite Hprompt, E, mapi_middle, Hlen.
    apply occurs_in_wrap with (after := LLM.PROMPT_INSTRUCTION ++ q).
    apply join_occurs. }
  split; [exact Hprompt|].
  split.
  { intros i r H. split.
    - exact (Hblock i r H).
    - apply occurs_in_trans with (t := LLM.context_part r i);
        [|exact (Hblock i r H)].
      exists ("[Document " ++ index_to_string (i + 1) ++ "]" ++ nl), "".
      unfold LLM.context_part.
      now rewrite append_nil_r, !append_assoc. }
  split.
  { intros i r r' H H'.
    destruct (nth_error_split results i H) as (l1 & l2 & E & Hlen).
    assert (E2 : l2 = r' :: tl l2).
    { rewrite E in H'. subst i.
      rewrite nth_error_app2 in H' by lia.
      replace (S (List.length l1) - List.length l1)%nat with 1%nat in H'
        by lia.
      destruct l2; simpl in H'; [discriminate|]. now inversion H'. }
    rewrite Hprompt, E, mapi_middle, Hlen, E2. simpl mapi_from.
    apply occurs_in_wrap with (after := LLM.PROMPT_INSTRUCTION ++ q).
    apply join_adjacent. }
  split.
  { intros i j r r' Hij H H'.
    assert (Hblocks :
              occurs_before (LLM.context_part r i) (LLM.context_part r' j)
                            prompt).
    { destruct (nth_error_split results i H) as (l1 & l2 & E & Hlen).
      assert (H2 : nth_error l2 (j - S i) = Some r').
      { rewrite E in H'. subst i.
        rewrite nth_error_app2 in H' by lia.
        replace (j - List.length l1)%nat
          with (S (j - S (List.length l1))) in H' by lia.
        exact H'. }
      destruct (nth_error_split l2 _ H2) as (m1 & m2 & E2 & Hlen2).
      rewrite Hprompt, E, mapi_middle, Hlen, E2.
      rewrite mapi_from_app. simpl mapi_from.
      replace (S (i + List.length m1))%nat with j by lia.
      apply occurs_before_wrap with (after := LLM.PROMPT_INSTRUCTION ++ q).
      apply join_ordered. }
    split; [exact Hblocks|].
    apply occurs_before_contents
      with (label1 := "[Document " ++ index_to_string (i + 1) ++ "]" ++ nl)
           (label2 := "[Document " ++ index_to_string (j + 1) ++ "]" ++ nl).
    rewrite !append_assoc. exact Hblocks. }
  split.
  { rewrite Hprompt.
    exists (LLM.PROMPT_HEAD
              ++ join LLM.SEPARATOR (mapi LLM.context_part results)
              ++ nl ++ nl ++ "---" ++ nl ++ nl
              ++ "Based on the context above, please answer the following question. "
              ++ "If the context doesn't contain relevant information, say "
              ++ dq),
           (dq ++ nl ++ nl ++ "Question: " ++ q).
    unfold LLM.PROMPT_INSTRUCTION, LLM.FALLBACK_SENTENCE.
    now rewrite !append_assoc. }
  intros q' results' -> ->. reflexivity.
Qed.

End PromptAssembler.

(* ================================================================== *)
(** ** Reasoning about effects *)

Section EffectFacts.

Import Js Effects.

Lemma record_extend (e : Event) (w : World) : record e w = extend [e] w.
Proof. reflexivity. Qed.

Lemma extend_extend (es1 es2 : list Event) (w : World) :
  extend es2 (extend es1 w) = extend (es1 ++ es2) w.
Proof. unfold extend. simpl. now rewrite app_assoc. Qed.

Lemma observe_extend {X : Type} (obs : Event -> list X) (es : list Event)
      (w : World) :
  observe obs (extend es w) = (observe obs w ++ flat_map obs es)%list.
Proof. unfold observe. simpl. apply flat_map_app. Qed.

Lemma observe_tick {X : Type} (obs : Event -> list X) (w : World) :
  observe obs (tick w) = observe obs w.
Proof. reflexivity. Qed.

Context {X : Type} (obs : Event -> list X).

Lemma unseen_ret {A : Type} (a : A) : unseen obs (ret a).
Proof. now intros w. Qed.

Lemma unseen_throw {A : Type} (t : Thrown) : unseen obs (@throw A t).
Proof. now intros w. Qed.

Lemma unseen_bind {A B : Type} (m : M A) (k : A -> M B) :
  unseen obs m -> (forall a, unseen obs (k a)) -> unseen obs (bind m k).
Proof.
  intros Hm Hk w. unfold bind. specialize (Hm w).
  destruct (m w) as [[a|t] w']; simpl in *.
  - now rewrite Hk.
  - exact Hm.
Qed.

Lemma unseen_try_catch {A : Type} (body : M A) (handler : Thrown -> M A) :
  unseen obs body -> (forall t, unseen obs (handler t)) ->
  unseen obs (try_catch body handler).
Proof.
  intros Hm Hk w. unfold try_catch. specialize (Hm w).
  destruct (body w) as [[a|t] w']; simpl in *.
  - exact Hm.
  - now rewrite Hk.
Qed.

Lemma unseen_emit (e : Event) : obs e = [] -> unseen obs (emit e).
Proof.
  intros He w. unfold emit. simpl. rewrite record_extend, observe_extend.
  simpl. rewrite He. now rewrite app_nil_r.
Qed.

Lemma unseen_set_initialized (b : bool) : unseen obs (set_initialized b).
Proof. now intros w. Qed.

Lemma unseen_get_initialized : unseen obs get_initialized.
Proof. now intros w. Qed.

Lemma unseen_attempt (failure : option Thrown) : unseen obs (attempt failure).
Proof. destruct failure; [apply unseen_throw | apply unseen_ret]. Qed.

Lemma unseen_of_sum {A : Type} (r : Thrown + A) : unseen obs (of_sum r).
Proof. destruct r; [apply unseen_throw | apply unseen_ret]. Qed.

End EffectFacts.

Section StoreFacts.

Import Js Effects.

Context {X : Type} (obs : Event -> list X).

(** The observer sees neither the console nor the traffic with the
    vector store. *)
Hypothesis blind :
  forall e,
    match e with
    | ConsoleLog _ | ConsoleError _ _ | StoreHeartbeat
    | StoreListCollections | StoreCreateCollection _
    | StoreGetCollection _ | StoreQuery _ _ => obs e = []
    | _ => True
    end.

Lemma unseen_store_event (e : Event) :
  match e with
  | ConsoleLog _ | ConsoleError _ _ | StoreHeartbeat
  | StoreListCollections | StoreCreateCollection _
  | StoreGetCollection _ | StoreQuery _ _ => unseen obs (emit e)
  | _ => True
  end.
Proof.
  pose proof (blind e) as H.
  destruct e; try exact I; now apply unseen_emit.
Qed.

Ltac store_steps :=
  repeat first
    [ apply unseen_ret
    | apply unseen_throw
    | apply unseen_set_initialized
    | apply unseen_get_initialized
    | apply unseen_attempt
    | apply unseen_of_sum
    | apply (unseen_store_event (ConsoleLog _))
    | apply (unseen_store_event (ConsoleError _ _))
    | apply (unseen_store_event StoreHeartbeat)
    | apply (unseen_store_event StoreListCollections)
    | apply (unseen_store_event (StoreCreateCollection _))
    | apply (unseen_store_event (StoreGetCollection _))
    | apply (unseen_store_event (StoreQuery _ _))
    | apply unseen_bind; [|intro]
    | apply unseen_try_catch; [|intro]
    | match goal with
      | |- unseen _ (if ?c then _ else _) => destruct c
      | |- unseen _ (match ?x with _ => _ end) => destruct x
      end ].

Lemma unseen_initialize (svc : Chroma.ChromaService) :
  unseen obs (Chroma.initialize svc).
Proof. unfold Chroma.initialize. store_steps. Qed.

Lemma unseen_search (svc : Chroma.ChromaService) (q : string) (limit : Z)
      (filter : option Types.Metadata) :
  unseen obs (Chroma.search svc q limit filter).
Proof.
  unfold Chroma.search, Chroma.ensureInitialized. store_steps.
Qed.

Lemma unseen_retrieveContext (svc : LLM.LLMService) (q : string)
      (limit : Z) :
  unseen obs (LLM.retrieveContext svc q limit).
Proof.
  unfold LLM.retrieveContext. store_steps.
Qed.

Lemma unseen_resolve_prompt (svc : LLM.LLMService)
      (request : Types.ChatRequest) :
  unseen obs (LLM.resolve_prompt svc request).
Proof.
  unfold LLM.resolve_prompt, LLM.last_content. store_steps.
Qed.

End StoreFacts.

(* ================================================================== *)
(** ** The chat agent and the orchestrator *)

Section AgentFacts.

Import Js Effects.

Lemma consume_accumulate (incoming : list string) (acc : string)
      (w : World) :
  Agent.consume LLM.accumulate incoming acc w
  = (Returned (acc ++ fold_right append "" incoming),
     extend (map ChunkArrived incoming) w).
Proof.
  revert acc w. induction incoming as [|chunk rest IH]; intros acc w.
  - simpl. rewrite append_nil_r. unfold ret, extend. simpl.
    rewrite app_nil_r. now destruct w.
  - simpl. unfold bind, emit. rewrite IH.
    rewrite record_extend, extend_extend. simpl. f_equal. f_equal.
    destruct chunk as [|c chunk]; simpl.
    + reflexivity.
    + unfold LLM.accumulate. now rewrite append_assoc.
Qed.

(** [stream] in full: the call, the chunks, and then either the
    accumulated text or the wrapped error. *)
Lemma stream_accumulate (backend : Agent.Backend)
      (agent : Agent.DeepSeekAgent) (prompt : string) (w : World) :
  let sys := Agent.systemPrompt agent in
  let upstream := backend sys prompt in
  let arrived := ModelStream sys prompt
                   :: map ChunkArrived (Agent.chunks upstream) in
  Agent.stream backend agent prompt LLM.accumulate "" w
  = match Agent.ending upstream with
    | None => (Returned (Agent.generated_text upstream), extend arrived w)
    | Some t =>
        (Threw (ErrorObj ("DeepSeek API error: " ++ message_of t)),
         extend (arrived
                   ++ [ConsoleError "Error in DeepSeek agent stream:" t])
                w)
    end.
Proof.
  intros sys upstream arrived.
  unfold Agent.stream, try_catch, bind, emit.
  rewrite consume_accumulate. fold sys. fold upstream.
  rewrite record_extend, extend_extend. simpl app. fold arrived.
  destruct (Agent.ending upstream) as [t|]; simpl.
  - rewrite record_extend, extend_extend. reflexivity.
  - reflexivity.
Qed.

Variables (env : LLM.Env) (svc : LLM.LLMService)
          (request : Types.ChatRequest).

(** [streamChat] once the prompt is known. *)
Lemma streamChat_with_prompt (sink : string -> World -> World)
      (w w1 : World) (prompt : string) :
  LLM.resolve_prompt svc request w = (Returned prompt, w1) ->
  let sys := Agent.systemPrompt (LLM.agent svc) in
  let upstream := LLM.backend env sys prompt in
  let arrived := ModelStream sys prompt
                   :: map ChunkArrived (Agent.chunks upstream) in
  LLM.streamChat env svc request sink w
  = match Agent.ending upstream with
    | None =>
        (Returned tt,
         sink (Json.stringify
                 (Json.of_response
                    (LLM.envelope request
                                  (LLM.clock env (clock_reads w1))
                                  (LLM.clock env (S (clock_reads w1)))
                                  (Agent.generated_text upstream))))
              (tick (tick (extend arrived w1))))
    | Some t =>
        let wrapped := ErrorObj ("DeepSeek API error: " ++ message_of t) in
        (Threw (ErrorObj ("LLM streaming error: " ++ message_of wrapped)),
         extend (arrived
                   ++ [ConsoleError "Error in DeepSeek agent stream:" t;
                       ConsoleError "LLM Service streaming error:" wrapped])
                w1)
    end.
Proof.
  intros H sys upstream arrived.
  unfold LLM.streamChat, try_catch, bind. rewrite H.
  rewrite stream_accumulate. fold sys. fold upstream. fold arrived.
  destruct (Agent.ending upstream) as [t|]; cbv beta iota zeta.
  - unfold emit, throw. rewrite record_extend, extend_extend.
    change (ModelStream sys prompt :: map ChunkArrived (Agent.chunks upstream)
              ++ [ConsoleError "Error in DeepSeek agent stream:" t])%list
      with (arrived ++ [ConsoleError "Error in DeepSeek agent stream:" t])%list.
    rewrite <- app_assoc. reflexivity.
  - reflexivity.
Qed.

(** [streamChat] when the prompt cannot be built. *)
Lemma streamChat_without_prompt (sink : string -> World -> World)
      (w w1 : World) (t : Thrown) :
  LLM.resolve_prompt svc request w = (Threw t, w1) ->
  LLM.streamChat env svc request sink w
  = (Threw (ErrorObj ("LLM streaming error: " ++ message_of t)),
     record (ConsoleError "LLM Service streaming error:" t) w1).
Proof.
  intros H. unfold LLM.streamChat, try_catch, bind. rewrite H. reflexivity.
Qed.

End AgentFacts.

Section Orchestrator.

Import Js Effects Types.

Variables (env : LLM.Env) (svc : LLM.LLMService).

Lemma last_content_snoc (front : list ChatMessage) (m : ChatMessage) :
  LLM.last_content (front ++ [m])%list = ret (content m).
Proof. unfold LLM.last_content. now rewrite rev_unit. Qed.

Lemma writes_blind (e : Event) :
  match e with
  | ConsoleLog _ | ConsoleError _ _ | StoreHeartbeat
  | StoreListCollections | StoreCreateCollection _
  | StoreGetCollection _ | StoreQuery _ _ => Routes.write_data e = []
  | _ => True
  end.
Proof. now destruct e. Qed.

Lemma model_calls_blind (e : Event) :
  match e with
  | ConsoleLog _ | ConsoleError _ _ | StoreHeartbeat
  | StoreListCollections | StoreCreateCollection _
  | StoreGetCollection _ | StoreQuery _ _ => Agent.model_call e = []
  | _ => True
  end.
Proof. now destruct e. Qed.

(** The three ways a request to [POST /api/chat] can go. *)
Lemma post_api_chat_cases (request : ChatRequest) (w : World) :
  let sys := Agent.systemPrompt (LLM.agent svc) in
  match LLM.resolve_prompt svc request (record (WriteHead 200) w) with
  | (Returned prompt, w1) =>
      let upstream := LLM.backend env sys prompt in
      let arrived := ModelStream sys prompt
                       :: map ChunkArrived (Agent.chunks upstream) in
      match Agent.ending upstream with
      | None =>
          Routes.post_api_chat env svc request w
          = (Returned tt,
             extend
               [Write (Routes.data_frame
                         (Json.stringify
                            (Json.of_response
                               (LLM.envelope
                                  request
                                  (LLM.clock env (clock_reads w1))
                                  (LLM.clock env (S (clock_reads w1)))
                                  (Agent.generated_text upstream)))));
                Write Routes.DONE_FRAME;
                EndResponse]
               (tick (tick (extend arrived w1))))
      | Some t =>
          let wrapped :=
            ErrorObj ("DeepSeek API error: " ++ message_of t) in
          let surfaced :=
            ErrorObj ("LLM streaming error: " ++ message_of wrapped) in
          Routes.post_api_chat env svc request w
          = (Threw surfaced,
             extend
               (arrived
                  ++ [ConsoleError "Error in DeepSeek agent stream:" t;
                      ConsoleError "LLM Service streaming error:" wrapped;
                      RequestLogError surfaced])
               w1)
      end
  | (Threw t, w1) =>
      let surfaced := ErrorObj ("LLM streaming error: " ++ message_of t) in
      Routes.post_api_chat env svc request w
      = (Threw surfaced,
         extend [ConsoleError "LLM Service streaming error:" t;
                 RequestLogError surfaced] w1)
  end.
Proof.
  intros sys.
  destruct (LLM.resolve_prompt svc request (record (WriteHead 200) w))
    as [[prompt|t] w1] eqn:Hprompt.
  - pose proof (streamChat_with_prompt
                  env svc request
                  (fun chunk => record (Write (Routes.data_frame chunk)))
                  _ _ _ Hprompt) as Hstream.
    cbv zeta in Hstream. fold sys in Hstream. cbv zeta.
    destruct (Agent.ending (LLM.backend env sys prompt)) as [t|];
      unfold Routes.post_api_chat, Routes.asyncHandler, Routes.chat_handler,
        try_catch, bind;
      unfold emit at 1; rewrite Hstream; cbv beta iota zeta.
    + unfold emit, throw. cbv beta iota zeta. rewrite record_extend.
      f_equal. rewrite extend_extend, <- app_assoc. reflexivity.
    + unfold emit. cbv beta iota zeta. rewrite !record_extend.
      f_equal. rewrite !extend_extend. reflexivity.
  - pose proof (streamChat_without_prompt
                  env svc request
                  (fun chunk => record (Write (Routes.data_frame chunk)))
                  _ _ _ Hprompt) as Hstream.
    unfold Routes.post_api_chat, Routes.asyncHandler, Routes.chat_handler,
      try_catch, bind.
    unfold emit at 1. rewrite Hstream. cbv beta iota zeta.
    unfold emit, throw. cbv beta iota zeta. rewrite !record_extend.
    f_equal. rewrite !extend_extend. reflexivity.
Qed.

Lemma resolve_prompt_writes_nothing (request : ChatRequest) (w : World) :
  Routes.written (snd (LLM.resolve_prompt svc request w)) = Routes.written w.
Proof. apply (unseen_resolve_prompt Routes.write_data writes_blind). Qed.

Lemma resolve_prompt_calls_no_model (request : ChatRequest) (w : World) :
  observe Agent.model_call (snd (LLM.resolve_prompt svc request w))
  = observe Agent.model_call w.
Proof.
  apply (unseen_resolve_prompt Agent.model_call model_calls_blind).
Qed.

End Orchestrator.

(* ================================================================== *)
(** ** What a chat request puts on the wire *)

Section Streaming.

Import Js Effects Types.

Lemma chunks_unseen {X : Type} (obs : Event -> list X)
      (incoming : list string) :
  (forall c, obs (ChunkArrived c) = []) ->
  flat_map obs (map ChunkArrived incoming) = [].
Proof.
  intros H. induction incoming as [|c rest IH]; simpl;
    [reflexivity | now rewrite H, IH].
Qed.

(** The text of the serialised envelope. *)
Lemma envelope_json (request : ChatRequest) (now_id now_created : Z)
      (text : string) :
  Json.stringify
    (Json.of_response (LLM.envelope request now_id now_created text))
  = "{" ++ Json.quote "id" ++ ":"
        ++ Json.quote ("chatcmpl-" ++ num_to_string now_id) ++ ","
        ++ Json.quote "object" ++ ":" ++ Json.quote "chat.completion" ++ ","
        ++ Json.quote "created" ++ ":"
        ++ num_to_string (now_created / 1000) ++ ","
        ++ Json.quote "model" ++ ":"
        ++ Json.quote (or_string (model request) "deepseek-chat") ++ ","
        ++ Json.quote "choices" ++ ":[{"
        ++ Json.quote "index" ++ ":0,"
        ++ Json.quote "message" ++ ":{"
        ++ Json.quote "role" ++ ":" ++ Json.quote "assistant" ++ ","
        ++ Json.quote "content" ++ ":" ++ Json.quote text ++ "},"
        ++ Json.quote "finishReason" ++ ":" ++ Json.quote "stop" ++ "}]}".
Proof.
  unfold LLM.envelope, Json.of_response, Json.of_choice.
  cbn [Json.stringify map Types.id Types.object Types.created
       Types.response_model Types.choices Types.index Types.message
       Types.resp_role Types.resp_content Types.finishReason fst snd].
  unfold join. cbn [String.concat].
  rewrite !append_assoc. reflexivity.
Qed.

Variables (env : LLM.Env) (svc : LLM.LLMService).

(** C7: when the request is streamed successfully, the handler writes one
    record and then the termination marker.  The record is the JSON text
    of the envelope with the members [id], [object], [created] (a reading
    of the clock in milliseconds, divided by 1000 and rounded down),
    [model] and [choices]; [choices] has the single element with [index]
    0, the message of role [assistant] whose content is the accumulated
    text of the stream, and [finishReason] [stop]. *)
Theorem C7_final_record_is_the_envelope (request : ChatRequest) (w : World) :
  fst (Routes.post_api_chat env svc request w) = Returned tt ->
  exists prompt n response,
    let upstream :=
      LLM.backend env (Agent.systemPrompt (LLM.agent svc)) prompt in
    response
    = {| id := "chatcmpl-" ++ num_to_string (LLM.clock env n);
         object := "chat.completion";
         created := (LLM.clock env (S n) / 1000)%Z;
         response_model := or_string (model request) "deepseek-chat";
         choices :=
           [ {| index := 0;
                message :=
                  {| resp_role := "assistant";
                     resp_content := fold_right append ""
                                                (Agent.chunks upstream) |};
                finishReason := "stop" |} ] |}
    /\ fst (LLM.resolve_prompt svc request (record (WriteHead 200) w))
       = Returned prompt
    /\ Agent.ending upstream = None
    /\ Routes.written (snd (Routes.post_api_chat env svc request w))
       = app (Routes.written w)
             [ "data: " ++ Json.stringify (Json.of_response response)
                 ++ nl ++ nl;
               "data: [DONE]" ++ nl ++ nl ]
    /\ Json.stringify (Json.of_response response)
       = "{" ++ Json.quote "id" ++ ":" ++ Json.quote (id response) ++ ","
             ++ Json.quote "object" ++ ":"
             ++ Json.quote "chat.completion" ++ ","
             ++ Json.quote "created" ++ ":"
             ++ num_to_string (created response) ++ ","
             ++ Json.quote "model" ++ ":"
             ++ Json.quote (response_model response) ++ ","
             ++ Json.quote "choices" ++ ":[{"
             ++ Json.quote "index" ++ ":0,"
             ++ Json.quote "message" ++ ":{"
             ++ Json.quote "role" ++ ":" ++ Json.quote "assistant" ++ ","
             ++ Json.quote "content" ++ ":"
             ++ Json.quote (fold_right append "" (Agent.chunks upstream))
             ++ "},"
             ++ Json.quote "finishReason" ++ ":" ++ Json.quote "stop"
             ++ "}]}".
Proof.
  intros Hok.
  pose proof (post_api_chat_cases env svc request w) as Hcases.
  pose proof (resolve_prompt_writes_nothing
                svc request (record (WriteHead 200) w)) as Hquiet.
  cbv zeta in Hcases.
  destruct (LLM.resolve_prompt svc request (record (WriteHead 200) w))
    as [[prompt|t] w1]; simpl in Hquiet.
  - destruct (Agent.ending
                (LLM.backend env (Agent.systemPrompt (LLM.agent svc))
                             prompt)) as [t|] eqn:Hend.
    + rewrite Hcases in Hok. discriminate Hok.
    + exists prompt, (clock_reads w1).
      eexists. cbv zeta.
      split; [reflexivity|].
      split; [reflexivity|].
      split; [exact Hend|].
      split.
      * rewrite Hcases. simpl snd. unfold Routes.written in *.
        rewrite observe_extend, !observe_tick, observe_extend, Hquiet.
        rewrite record_extend, observe_extend. simpl flat_map.
        rewrite chunks_unseen by reflexivity.
        now rewrite !app_nil_r.
      * apply (envelope_json request).
  - rewrite Hcases in Hok. discriminate Hok.
Qed.

(** C8: when the hosted model fails, before or after it has delivered
    chunks, the agent wraps the error as [DeepSeek API error: <detail>],
    [streamChat] wraps that as [LLM streaming error: ...] and rethrows it,
    and the handler passes it on to the framework.  Nothing is written on
    the response body, and the model has been called exactly once. *)
Theorem C8_backend_errors_are_surfaced
        (request : ChatRequest) (w : World) (prompt : string) (t : Thrown) :
  fst (LLM.resolve_prompt svc request (record (WriteHead 200) w))
  = Returned prompt ->
  Agent.ending (LLM.backend env (Agent.systemPrompt (LLM.agent svc)) prompt)
  = Some t ->
  let surfaced :=
    ErrorObj ("LLM streaming error: DeepSeek API error: " ++ message_of t) in
  fst (Routes.post_api_chat env svc request w) = Threw surfaced
  /\ (forall sink,
         fst (LLM.streamChat env svc request sink (record (WriteHead 200) w))
         = Threw surfaced)
  /\ Routes.written (snd (Routes.post_api_chat env svc request w))
     = Routes.written w
  /\ observe Agent.model_call
             (snd (Routes.post_api_chat env svc request w))
     = (observe Agent.model_call w
          ++ [(Agent.systemPrompt (LLM.agent svc), prompt)])%list.
Proof.
  intros Hprompt Hend surfaced.
  pose proof (post_api_chat_cases env svc request w) as Hcases.
  pose proof (resolve_prompt_writes_nothing
                svc request (record (WriteHead 200) w)) as Hquiet.
  pose proof (resolve_prompt_calls_no_model
                svc request (record (WriteHead 200) w)) as Hnocall.
  cbv zeta in Hcases.
  destruct (LLM.resolve_prompt svc request (record (WriteHead 200) w))
    as [[prompt'|t'] w1] eqn:Hres; simpl in Hprompt, Hquiet, Hnocall;
    [|discriminate Hprompt].
  injection Hprompt as ->.
  rewrite Hend in Hcases.
  split; [now rewrite Hcases|].
  split.
  { intros sink.
    pose proof (streamChat_with_prompt env svc request sink _ _ _ Hres)
      as Hstream.
    cbv zeta in Hstream. rewrite Hend in Hstream. now rewrite Hstream. }
  rewrite Hcases. simpl snd. unfold Routes.written in *.
  rewrite !observe_extend, Hquiet, Hnocall.
  rewrite record_extend, !observe_extend.
  cbn [flat_map Routes.write_data Agent.model_call app].
  rewrite !flat_map_app.
  cbn [flat_map Routes.write_data Agent.model_call app].
  rewrite !chunks_unseen by reflexivity.
  split; now rewrite ?app_nil_r.
Qed.

(** C1: a backend that answers [Hello!] in the two tokens [Hel] and [lo!].
    Both tokens have arrived before the handler writes anything; it then
    writes a single data frame, which carries the whole text inside the
    envelope, and the termination marker.  No token is forwarded when it
    arrives. *)
Theorem C1_tokens_are_written_only_after_the_stream_ends :
  let request := Sample.request_of [Sample.hello] (Some false) None in
  Routes.post_api_chat Sample.env Sample.service request fresh
  = (Returned tt,
     {| initialized := false;
        clock_reads := 2;
        trace :=
          [ WriteHead 200;
            ModelStream "You are a helpful AI assistant." "Hello!";
            ChunkArrived "Hel";
            ChunkArrived "lo!";
            Write ("data: "
                     ++ Json.stringify
                          (Json.of_response
                             (LLM.envelope request 1700000000123
                                           1700000000124 "Hello!"))
                     ++ nl ++ nl);
            Write ("data: [DONE]" ++ nl ++ nl);
            EndResponse ] |})
  /\ List.length
       (Routes.written
          (snd (Routes.post_api_chat Sample.env Sample.service request
                                     fresh)))
     = 2%nat.
Proof. split; vm_compute; reflexivity. Qed.

End Streaming.

(* ================================================================== *)
(** ** Retrieval *)

Section Retrieval.

Import Js Effects Types.

Variable svc : LLM.LLMService.

Lemma retrieveContext_returns (q : string) (limit : Z) (w : World) :
  exists context w',
    LLM.retrieveContext svc q limit w = (Returned context, w').
Proof.
  unfold LLM.retrieveContext, try_catch, bind.
  destruct (Chroma.search (LLM.chromaService svc) q limit None w)
    as [[results|t] w']; eexists; eexists; reflexivity.
Qed.

Lemma retrieveContext_degrades (q : string) (limit : Z) (w w' : World)
      (t : Thrown) :
  Chroma.search (LLM.chromaService svc) q limit None w = (Threw t, w') ->
  LLM.retrieveContext svc q limit w
  = (Returned "",
     record (ConsoleError "Failed to retrieve context from ChromaDB:" t) w').
Proof.
  intros H. unfold LLM.retrieveContext, try_catch, bind. rewrite H.
  reflexivity.
Qed.

(** What [retrieveContext] returns when the search succeeds. *)
Lemma retrieveContext_formats (q : string) (limit : Z) (w w' : World)
      (results : list SearchResult) :
  Chroma.search (LLM.chromaService svc) q limit None w
  = (Returned results, w') ->
  LLM.retrieveContext svc q limit w
  = (Returned (LLM.format_context results), w').
Proof.
  intros H. unfold LLM.retrieveContext, try_catch, bind. rewrite H.
  reflexivity.
Qed.

(** [resolve_prompt] on a request with retrieval switched on. *)
Lemma resolve_prompt_rag (request : ChatRequest)
      (front : list ChatMessage) (m : ChatMessage) (w : World) :
  messages request = (front ++ [m])%list ->
  LLM.rag_enabled request = true ->
  LLM.resolve_prompt svc request w
  = match LLM.retrieveContext svc (content m) (LLM.rag_limit request) w with
    | (Returned context, w') =>
        (Returned (LLM.buildRagPrompt (content m) context), w')
    | (Threw t, w') => (Threw t, w')
    end.
Proof.
  intros Hm Hrag. unfold LLM.resolve_prompt.
  rewrite Hm, last_content_snoc, Hrag. reflexivity.
Qed.

(** A store without a matching document leaves the question as it is. *)
Lemma no_match_keeps_question (request : ChatRequest)
      (front : list ChatMessage) (m : ChatMessage) (w w' : World) :
  messages request = (front ++ [m])%list ->
  LLM.rag_enabled request = true ->
  Chroma.search (LLM.chromaService svc) (content m) (LLM.rag_limit request)
                None w
  = (Returned [], w') ->
  LLM.resolve_prompt svc request w = (Returned (content m), w').
Proof.
  intros Hm Hrag Hsearch.
  rewrite (resolve_prompt_rag request front m _ Hm Hrag).
  now rewrite (retrieveContext_formats _ _ _ _ _ Hsearch).
Qed.

(** C6: [retrieveContext] returns for every query, limit and state of the
    world.  When the search of the vector store throws, it logs the error
    and returns the empty context; the prompt is then the question itself,
    and a request whose model stream ends normally is answered with the
    envelope and the termination marker, as if retrieval had been off. *)
Theorem C6_retrieval_failure_is_absorbed
        (env : LLM.Env) (request : ChatRequest)
        (front : list ChatMessage) (m : ChatMessage)
        (w w' : World) (t : Thrown) :
  messages request = (front ++ [m])%list ->
  LLM.rag_enabled request = true ->
  Chroma.search (LLM.chromaService svc) (content m) (LLM.rag_limit request)
                None (record (WriteHead 200) w)
  = (Threw t, w') ->
  (forall q limit w0,
      exists context w1,
        LLM.retrieveContext svc q limit w0 = (Returned context, w1))
  /\ LLM.retrieveContext svc (content m) (LLM.rag_limit request)
                         (record (WriteHead 200) w)
     = (Returned "",
        record (ConsoleError "Failed to retrieve context from ChromaDB:" t)
               w')
  /\ fst (LLM.resolve_prompt svc request (record (WriteHead 200) w))
     = Returned (content m)
  /\ (Agent.ending
        (LLM.backend env (Agent.systemPrompt (LLM.agent svc)) (content m))
      = None ->
      fst (Routes.post_api_chat env svc request w) = Returned tt
      /\ observe Agent.model_call
                 (snd (Routes.post_api_chat env svc request w))
         = (observe Agent.model_call w
              ++ [(Agent.systemPrompt (LLM.agent svc), content m)])%list).
Proof.
  intros Hm Hrag Hsearch.
  pose proof (retrieveContext_degrades _ _ _ _ _ Hsearch) as Hctx.
  assert (Hres :
            LLM.resolve_prompt svc request (record (WriteHead 200) w)
            = (Returned (content m),
               record (ConsoleError
                         "Failed to retrieve context from ChromaDB:" t) w')).
  { rewrite (resolve_prompt_rag request front m _ Hm Hrag), Hctx.
    reflexivity. }
  split; [apply retrieveContext_returns|].
  split; [exact Hctx|].
  split; [now rewrite Hres|].
  intros Hend.
  pose proof (post_api_chat_cases env svc request w) as Hcases.
  pose proof (resolve_prompt_calls_no_model
                svc request (record (WriteHead 200) w)) as Hnocall.
  cbv zeta in Hcases. rewrite Hres in Hcases, Hnocall.
  rewrite Hend in Hcases. simpl snd in Hnocall.
  rewrite Hcases. split; [reflexivity|]. simpl snd.
  rewrite observe_extend, !observe_tick, observe_extend, Hnocall.
  rewrite record_extend, observe_extend.
  cbn [flat_map Agent.model_call app].
  rewrite chunks_unseen by reflexivity.
  now rewrite !app_nil_r.
Qed.

(** [search] once the collection is ready: one query, with the limit it
    was given. *)
Lemma search_queries_once (q : string) (limit : Z)
      (filter : option Metadata) (w : World) :
  initialized w = true ->
  Chroma.getCollection (Chroma.client (LLM.chromaService svc)) = None ->
  observe Chroma.query_call
          (snd (Chroma.search (LLM.chromaService svc) q limit filter w))
  = (observe Chroma.query_call w ++ [(q, limit)])%list.
Proof.
  intros Hready Hget.
  unfold Chroma.search, Chroma.ensureInitialized, try_catch, bind,
    get_initialized.
  rewrite Hready. unfold ret at 1. unfold emit at 1. unfold attempt.
  rewrite Hget. unfold ret at 1. unfold emit at 1.
  destruct (Chroma.query (Chroma.client (LLM.chromaService svc)) q limit
                         (Chroma.where_clause filter)) as [t|r];
    unfold of_sum, ret, throw, emit; cbv beta iota zeta; simpl snd;
    rewrite !record_extend, !observe_extend;
    cbn [flat_map Chroma.query_call app];
    now rewrite ?app_nil_r.
Qed.

(** C10: two requests that agree on the content of the last message and
    on [useRag], [ragLimit] and [model] are indistinguishable: the prompt,
    every event of [streamChat] and the whole response of the handler are
    the same, whatever the earlier messages are.  Without retrieval the
    prompt is the content of the last message alone. *)
Theorem C10_earlier_messages_are_ignored
        (env : LLM.Env) (r1 r2 : ChatRequest)
        (front1 front2 : list ChatMessage) (m1 m2 : ChatMessage) :
  messages r1 = (front1 ++ [m1])%list ->
  messages r2 = (front2 ++ [m2])%list ->
  content m1 = content m2 ->
  useRag r1 = useRag r2 ->
  ragLimit r1 = ragLimit r2 ->
  model r1 = model r2 ->
  (forall w, LLM.resolve_prompt svc r1 w = LLM.resolve_prompt svc r2 w)
  /\ (forall sink w,
         LLM.streamChat env svc r1 sink w = LLM.streamChat env svc r2 sink w)
  /\ (forall w,
         Routes.post_api_chat env svc r1 w
         = Routes.post_api_chat env svc r2 w)
  /\ (LLM.rag_enabled r1 = false ->
      forall w, LLM.resolve_prompt svc r1 w = (Returned (content m1), w)).
Proof.
  intros H1 H2 Hc Hrag Hlimit Hmodel.
  assert (Hresolve :
            forall w, LLM.resolve_prompt svc r1 w
                      = LLM.resolve_prompt svc r2 w).
  { intros w. unfold LLM.resolve_prompt, LLM.rag_enabled, LLM.rag_limit.
    now rewrite H1, H2, !last_content_snoc, Hc, Hrag, Hlimit. }
  assert (Hstream :
            forall sink w, LLM.streamChat env svc r1 sink w
                           = LLM.streamChat env svc r2 sink w).
  { intros sink w. unfold LLM.streamChat, try_catch, bind.
    rewrite Hresolve.
    destruct (LLM.resolve_prompt svc r2 w) as [[prompt|t] w1];
      [|reflexivity].
    destruct (Agent.stream (LLM.backend env) (LLM.agent svc) prompt
                           LLM.accumulate "" w1) as [[full|t] w2];
      [|reflexivity].
    unfold LLM.envelope. now rewrite Hmodel. }
  split; [exact Hresolve|].
  split; [exact Hstream|].
  split.
  - intros w.
    unfold Routes.post_api_chat, Routes.asyncHandler, Routes.chat_handler,
      try_catch, bind.
    destruct (emit (WriteHead 200) w) as [[[]|t] w0]; [|reflexivity].
    now rewrite Hstream.
  - intros Hoff w. unfold LLM.resolve_prompt.
    now rewrite H1, last_content_snoc, Hoff.
Qed.

End Retrieval.

(* ================================================================== *)
(** ** The pipeline on the sample collaborators *)

Section Samples.

Import Js Effects Types.

(** C3: the sample store reports the distance 3/2 for its first document.
    [search] returns that document with the score 1 - 3/2 = -1/2, which
    lies outside the interval from 0 to 1: the score is not clamped.  The
    second document, at distance 1/4, has the score 3/4. *)
Theorem C3_score_is_one_minus_distance_unclamped :
  exists first second,
    fst (Chroma.search (LLM.chromaService Sample.service) "notes" 3 None
                       fresh)
    = Returned [first; second]
    /\ doc_content (document first) = "alpha"
    /\ score first = 1 - (3 # 2)
    /\ score first == - (1 # 2)
    /\ ~ (0 <= score first /\ score first <= 1)
    /\ score second = 1 - (1 # 4)
    /\ (0 <= score second /\ score second <= 1).
Proof.
  eexists. eexists.
  split; [vm_compute; reflexivity|]. simpl.
  repeat split; try (vm_compute; congruence).
  intros [H _]. vm_compute in H. congruence.
Qed.

Lemma C2_counterexample :
  observe Chroma.query_call
          (snd (Routes.post_api_chat Sample.env Sample.service
                                     (Sample.rag_request (Some 50%Z)) fresh))
  = [("Hello!", 50%Z)]
  /\ observe Chroma.query_call
             (snd (Routes.post_api_chat Sample.env Sample.service
                                        (Sample.rag_request (Some 50%Z))
                                        fresh))
     <> [("Hello!", 10%Z)].
Proof. split; vm_compute; [reflexivity | congruence]. Qed.

Lemma C6_witness :
  LLM.rag_enabled (Sample.rag_request None) = true
  /\ fst (Chroma.search (LLM.chromaService Sample.broken_service)
                        "Hello!" 3 None (record (WriteHead 200) fresh))
     = Threw (ErrorObj "Search failed: ECONNRESET")
  /\ fst (Routes.post_api_chat Sample.env Sample.broken_service
                               (Sample.rag_request None) fresh)
     = Returned tt.
Proof.
  split; [reflexivity|]. split; [reflexivity|].
  exact (proj1 (proj2 (proj2 (proj2
           (C6_retrieval_failure_is_absorbed
              Sample.broken_service Sample.env (Sample.rag_request None)
              [] Sample.hello fresh
              (snd (Chroma.search (LLM.chromaService Sample.broken_service)
                                  "Hello!" 3 None
                                  (record (WriteHead 200) fresh)))
              (ErrorObj "Search failed: ECONNRESET")
              eq_refl eq_refl eq_refl))) eq_refl)).
Defined.

Lemma C7_witness :
  fst (Routes.post_api_chat Sample.env Sample.service Sample.plain_request
                            fresh)
  = Returned tt
  /\ exists record,
       Routes.written
         (snd (Routes.post_api_chat Sample.env Sample.service
                                    Sample.plain_request fresh))
       = [record; "data: [DONE]" ++ nl ++ nl].
Proof.
  split; [reflexivity|].
  destruct (C7_final_record_is_the_envelope
              Sample.env Sample.service Sample.plain_request fresh eq_refl)
    as (prompt & n & response & _ & _ & _ & Hwire & _).
  eexists. exact Hwire.
Defined.

Lemma C8_counterexample :
  ~ exists detail,
      fst (Routes.post_api_chat Sample.failing_env Sample.service
                                Sample.plain_request fresh)
      = Threw (ErrorObj ("LLM service error: " ++ detail)).
Proof. intros [detail H]. vm_compute in H. congruence. Qed.

Lemma C8_witness :
  Agent.ending (LLM.backend Sample.failing_env
                            "You are a helpful AI assistant." "Hello!")
  = Some (ErrorObj "boom")
  /\ fst (Routes.post_api_chat Sample.failing_env Sample.service
                               Sample.plain_request fresh)
     = Threw (ErrorObj "LLM streaming error: DeepSeek API error: boom").
Proof.
  split; [reflexivity|].
  exact (proj1 (C8_backend_errors_are_surfaced
                  Sample.failing_env Sample.service Sample.plain_request
                  fresh "Hello!" (ErrorObj "boom") eq_refl eq_refl)).
Defined.

Lemma C10_witness :
  content Sample.hello = content Sample.hello
  /\ Routes.post_api_chat Sample.env Sample.service Sample.long_request fresh
     = Routes.post_api_chat Sample.env Sample.service Sample.plain_request
                            fresh.
Proof.
  split; [reflexivity|].
  exact (proj1 (proj2 (proj2
           (C10_earlier_messages_are_ignored
              Sample.service Sample.env
              Sample.long_request Sample.plain_request
              [ {| role := user; content := "My name is Ada." |};
                {| role := assistant;
                   content := "Nice to meet you, Ada." |} ]
              [] Sample.hello Sample.hello
              eq_refl eq_refl eq_refl eq_refl eq_refl eq_refl))) fresh).
Defined.

End Samples.

(* ================================================================== *)
(** ** Lazy initialisation under overlapping requests *)

Section LazyInitFacts.

Import LazyInit.

Lemma update_Forall {A : Type} (P : A -> Prop) (l : list A) (i : nat)
      (x : A) :
  Forall P l -> P x -> Forall P (update l i x).
Proof.
  intros Hl Hx. revert i.
  induction Hl as [|y l Hy Hl IH]; intros [|i]; simpl; auto.
Qed.

Lemma update_length {A : Type} (l : list A) (i : nat) (x : A) :
  List.length (update l i x) = List.length l.
Proof.
  revert i. induction l as [|y l IH]; intros [|i]; simpl; auto.
Qed.

Lemma update_same {A : Type} (l : list A) (i : nat) (x y : A) :
  nth_error l i = Some y -> nth_error (update l i x) i = Some x.
Proof.
  revert i. induction l as [|z l IH]; intros [|i] H; simpl in *;
    try discriminate; auto.
Qed.

Lemma Forall_at {A : Type} (P : A -> Prop) (l : list A) (i : nat) (x : A) :
  Forall P l -> nth_error l i = Some x -> P x.
Proof.
  intros Hl Hi. rewrite Forall_forall in Hl.
  apply Hl. eapply nth_error_In, Hi.
Qed.















End LazyInitFacts.

(* ================================================================== *)
(** ** Initialisations in flight *)

Section InFlightFacts.

Import LazyInit InFlight.

Lemma update_at {A : Type} (l : list A) (i j : nat) (x y : A) :
  nth_error (update l i x) j = Some y ->
  (j = i /\ y = x) \/ (j <> i /\ nth_error l j = Some y).
Proof.
  revert i j. induction l as [|z l IH]; intros [|i] [|j] H; simpl in H;
    try discriminate.
  - injection H as <-. now left.
  - right. split; [discriminate|exact H].
  - right. split; [discriminate|exact H].
  - destruct (IH i j H) as [[-> ->]|[Hne Hj]]; [now left|].
    right. split; [congruence|exact Hj].
Qed.

Lemma snoc_at {A : Type} (l : list A) (j : nat) (x y : A) :
  nth_error (l ++ [x])%list j = Some y ->
  nth_error l j = Some y \/ (j = List.length l /\ y = x).
Proof.
  intros H. destruct (Nat.lt_ge_cases j (List.length l)) as [Hlt|Hge].
  - left. now rewrite nth_error_app1 in H.
  - right. rewrite nth_error_app2 in H by exact Hge.
    destruct (j - List.length l)%nat as [|k] eqn:E; simpl in H.
    + injection H as <-. split; [lia|reflexivity].
    + destruct k; discriminate.
Qed.

Lemma start_orderly (n : nat) : orderly (start n).
Proof.
  unfold orderly, start. simpl. repeat split.
  - intros [|p] H; discriminate.
  - intros i p H. apply nth_error_In, repeat_spec in H. discriminate.
  - intros i j p q H. apply nth_error_In, repeat_spec in H. discriminate.
Qed.

(** A change of one request that does not make it the awaiting starter of
    an initialisation keeps the order. *)
Lemma set_task_orderly (st : State) (i : nat) (t : Task) :
  (forall p, t <> AwaitingOwn p) ->
  orderly st ->
  orderly {| initialized := initialized st;
             initializationPromise := initializationPromise st;
             promises := promises st;
             tasks := update (tasks st) i t |}.
Proof.
  intros Ht (HA & HB & HC). unfold orderly. simpl. repeat split.
  - exact HA.
  - intros j p H. destruct (update_at _ _ _ _ _ H) as [[_ E]|[_ Hj]].
    + symmetry in E. now apply Ht in E.
    + exact (HB j p Hj).
  - intros j k p q Hj Hk.
    destruct (update_at _ _ _ _ _ Hj) as [[_ E]|[_ Hj']];
      [symmetry in E; now apply Ht in E|].
    destruct (update_at _ _ _ _ _ Hk) as [[_ E]|[_ Hk']];
      [symmetry in E; now apply Ht in E|].
    exact (HC j k p q Hj' Hk').
Qed.

Lemma step_keeps_order (a : Action) (st st' : State) :
  clear_step a = false ->
  step a st = Some st' -> orderly st -> orderly st'.
Proof.
  intros Hquiet Hstep Hord.
  destruct a as [i|p ok|i|i ok]; try discriminate Hquiet; simpl in Hstep.
  - destruct (nth_error (tasks st) i) as [[]|] eqn:Ei; try discriminate.
    destruct (initialized st).
    { injection Hstep as <-. apply set_task_orderly; [discriminate|exact Hord]. }
    destruct (initializationPromise st) as [p|] eqn:Ep.
    { injection Hstep as <-. unfold set_task.
      apply set_task_orderly; [discriminate|exact Hord]. }
    injection Hstep as <-. destruct Hord as (HA & HB & HC).
    unfold orderly. simpl. repeat split.
    + intros q H. destruct (snoc_at _ _ _ _ H) as [Hq|[-> _]];
        [|reflexivity].
      specialize (HA q Hq). congruence.
    + intros j q H. destruct (update_at _ _ _ _ _ H) as [[_ E]|[_ Hj]].
      * now injection E as ->.
      * specialize (HB j q Hj). congruence.
    + intros j k q r Hj Hk.
      destruct (update_at _ _ _ _ _ Hj) as [[-> _]|[_ Hj']];
        destruct (update_at _ _ _ _ _ Hk) as [[-> _]|[_ Hk']];
        try reflexivity.
      * specialize (HB k r Hk'). congruence.
      * specialize (HB j q Hj'). congruence.
      * specialize (HB j q Hj'). congruence.
  - destruct (nth_error (promises st) p) as [[]|] eqn:Ep; try discriminate.
    injection Hstep as <-. destruct Hord as (HA & HB & HC).
    unfold orderly. simpl. repeat split; [|exact HB|exact HC].
    intros q H. destruct (update_at _ _ _ _ _ H) as [[_ E]|[_ Hq]].
    + destruct ok; discriminate.
    + exact (HA q Hq).
  - destruct (nth_error (tasks st) i) as [[|p|p| | |]|] eqn:Ei;
      try discriminate;
      destruct (nth_error (promises st) p) as [[]|] eqn:Ep;
      try discriminate; injection Hstep as <-.
    + destruct Hord as (HA & HB & HC). unfold orderly. simpl. repeat split.
      * exact HA.
      * intros j q H. destruct (update_at _ _ _ _ _ H) as [[_ E]|[_ Hj]];
          [discriminate|exact (HB j q Hj)].
      * intros j k q r Hj Hk.
        destruct (update_at _ _ _ _ _ Hj) as [[_ E]|[_ Hj']];
          [discriminate|].
        destruct (update_at _ _ _ _ _ Hk) as [[_ E]|[_ Hk']];
          [discriminate|].
        exact (HC j k q r Hj' Hk').
    + destruct Hord as (HA & HB & HC). unfold orderly. simpl. repeat split.
      * intros q H. pose proof (HA q H) as Hq. pose proof (HB i p Ei) as Hp.
        assert (q = p) by congruence. subst q. congruence.
      * intros j q H. destruct (update_at _ _ _ _ _ H) as [[_ E]|[Hne Hj]];
          [discriminate|].
        exfalso. apply Hne. exact (HC j i q p Hj Ei).
      * intros j k q r Hj Hk.
        destruct (update_at _ _ _ _ _ Hj) as [[_ E]|[Hne Hj']];
          [discriminate|].
        exfalso. apply Hne. exact (HC j i q p Hj' Ei).
    + unfold set_task. apply set_task_orderly; [discriminate|exact Hord].
    + unfold set_task. apply set_task_orderly; [discriminate|exact Hord].
Qed.

Lemma run_keeps_order (schedule : list Action) (st st' : State) :
  forallb (fun a => negb (clear_step a)) schedule = true ->
  run schedule st = Some st' -> orderly st -> orderly st'.
Proof.
  revert st. induction schedule as [|a rest IH]; intros st Hquiet Hrun Hord;
    simpl in *.
  - now injection Hrun as <-.
  - apply andb_prop in Hquiet as [Ha Hrest].
    apply negb_true_iff in Ha.
    destruct (step a st) as [st1|] eqn:E; [|discriminate].
    exact (IH st1 Hrest Hrun (step_keeps_order a st st1 Ha E Hord)).
Qed.

Lemma start_unharmed (n : nat) : unharmed (start n).
Proof.
  split; simpl; [constructor|].
  induction n as [|n IH]; simpl; constructor; auto. discriminate.
Qed.

(** A step on which the store answers calls [initialize()] only when the
    service is armed, and only a reset arms it again. *)
Lemma step_bound (a : Action) (st st' : State) :
  store_up a = true ->
  step a st = Some st' ->
  unharmed st ->
  unharmed st'
  /\ (initialize_calls st' + armed st'
      <= initialize_calls st + armed st + resets [a])%nat.
Proof.
  intros Hup Hstep [Hp Ht]. unfold unharmed, initialize_calls, armed, resets.
  destruct a as [i|p ok|i|i ok]; simpl in Hstep.
  - destruct (nth_error (tasks st) i) as [[]|] eqn:Ei; try discriminate.
    destruct (initialized st) eqn:Hflag.
    { injection Hstep as <-. simpl. rewrite ?Hflag.
      split; [split; [exact Hp|]|lia].
      apply update_Forall; [exact Ht|discriminate]. }
    destruct (initializationPromise st) as [p|] eqn:Ep.
    { injection Hstep as <-. simpl. rewrite ?Hflag, ?Ep.
      split; [split; [exact Hp|]|lia].
      apply update_Forall; [exact Ht|discriminate]. }
    injection Hstep as <-. simpl. rewrite ?Hflag, length_app. simpl.
    split; [split|lia].
    + apply Forall_app. split; [exact Hp|]. constructor; [discriminate|auto].
    + apply update_Forall; [exact Ht|discriminate].
  - destruct (nth_error (promises st) p) as [[]|] eqn:Ep; try discriminate.
    destruct ok; [|discriminate Hup].
    injection Hstep as <-. simpl. rewrite update_length.
    split; [split; [|exact Ht]|lia].
    apply update_Forall; [exact Hp|discriminate].
  - destruct (nth_error (tasks st) i) as [[|p|p| | |]|] eqn:Ei;
      try discriminate;
      destruct (nth_error (promises st) p) as [[]|] eqn:Ep;
      try discriminate;
      try (exfalso; exact (Forall_at _ _ _ _ Hp Ep eq_refl));
      injection Hstep as <-; simpl.
    + split; [split; [exact Hp|]|lia].
      apply update_Forall; [exact Ht|discriminate].
    + split; [split; [exact Hp|]|lia].
      apply update_Forall; [exact Ht|discriminate].
  - destruct (nth_error (tasks st) i) as [[]|] eqn:Ei; try discriminate.
    destruct ok; [|discriminate Hup].
    injection Hstep as <-. simpl.
    split; [split; [exact Hp|]|].
    + apply update_Forall; [exact Ht|discriminate].
    + destruct (initialized st); [lia|].
      destruct (initializationPromise st); lia.
Qed.

Lemma resets_cons (a : Action) (rest : list Action) :
  resets (a :: rest) = (resets [a] + resets rest)%nat.
Proof.
  unfold resets. simpl.
  destruct a as [i|p ok|i|i [|]]; reflexivity.
Qed.

Lemma run_bound (schedule : list Action) (st st' : State) :
  forallb store_up schedule = true ->
  run schedule st = Some st' ->
  unharmed st ->
  unharmed st'
  /\ (initialize_calls st' + armed st'
      <= initialize_calls st + armed st + resets schedule)%nat.
Proof.
  revert st. induction schedule as [|a rest IH]; intros st Hup Hrun Hst.
  - simpl in Hrun. injection Hrun as <-. split; [exact Hst|].
    unfold resets. simpl. lia.
  - simpl in Hup, Hrun. apply andb_prop in Hup as [Ha Hrest].
    destruct (step a st) as [st1|] eqn:E; [|discriminate].
    destruct (step_bound a st st1 Ha E Hst) as [Hst1 Hone].
    destruct (IH st1 Hrest Hrun Hst1) as [Hst' Hmany].
    split; [exact Hst'|]. rewrite resets_cons. lia.
Qed.

End InFlightFacts.

Section LazyInitClaims.

Import LazyInit InFlight.



(** As long as no [clearCollection] has reset the service, at most one
    initialisation is in flight on every schedule, also when
    initialisations fail and are started again: a pending one is the one
    the service holds, and a retry is only started after the failed one has
    been cleared by the request that started it, which fails.  A reset arms
    the service again, whatever is in flight: while the store answers, [initialize()]
    is called at most once more for every reset, and no request fails.
    Two overlapping clears around two searches leave two initialisations
    pending at once. *)
Theorem initializations_in_flight_follow_the_resets
        (n : nat) (schedule : list Action) (st : State) :
  run schedule (start n) = Some st ->
  (forallb (fun a => negb (clear_step a)) schedule = true ->
   (forall p q,
       nth_error (promises st) p = Some Pending ->
       nth_error (promises st) q = Some Pending ->
       p = q)
   /\ (forall p,
          nth_error (promises st) p = Some Pending ->
          initializationPromise st = Some p)
   /\ (forall i j p q,
          nth_error (tasks st) i = Some (AwaitingOwn p) ->
          nth_error (tasks st) j = Some (AwaitingOwn q) ->
          i = j /\ initializationPromise st = Some p)
   /\ (forall i st',
          step (Enter i) st = Some st' ->
          initialize_calls st' = S (initialize_calls st) ->
          initializationPromise st = None
          /\ forall p, nth_error (promises st) p <> Some Pending))
  /\ (forallb store_up schedule = true ->
      (initialize_calls st + armed st <= 1 + resets schedule)%nat
      /\ (forall i, nth_error (tasks st) i <> Some Failed)
      /\ (forall p, nth_error (promises st) p <> Some Rejected))
  /\ (forall i st',
         step (Clear i true) st = Some st' ->
         nth_error (tasks st) i = Some Succeeded
         /\ initialized st' = false
         /\ initializationPromise st' = None
         /\ promises st' = promises st
         /\ armed st' = 1%nat)
  /\ (forall i p,
         nth_error (tasks st) i = Some (AwaitingOwn p) ->
         nth_error (promises st) p = Some Rejected ->
         exists st',
           step (Resume i) st = Some st'
           /\ initializationPromise st' = None
           /\ initialized st' = initialized st
           /\ nth_error (tasks st') i = Some Failed)
  /\ exists st2,
       run Fixtures.overlapping_clears (start 4) = Some st2
       /\ forallb store_up Fixtures.overlapping_clears = true
       /\ resets Fixtures.overlapping_clears = 2%nat
       /\ promises st2 = [Fulfilled; Pending; Pending]
       /\ initializationPromise st2 = Some 2%nat.
Proof.
  intros Hrun. split; [|split; [|split; [|split]]].
  - intros Hquiet.
    destruct (run_keeps_order schedule _ _ Hquiet Hrun (start_orderly n))
      as (HA & HB & HC).
    split.
    { intros p q Hp Hq. pose proof (HA p Hp). pose proof (HA q Hq).
      congruence. }
    split; [exact HA|].
    split.
    { intros i j p q Hi Hj.
      split; [exact (HC i j p q Hi Hj)|exact (HB i p Hi)]. }
    intros i st' Hstep Hcalls. simpl in Hstep.
    destruct (nth_error (tasks st) i) as [[]|]; try discriminate.
    unfold initialize_calls in Hcalls.
    destruct (initialized st).
    { injection Hstep as <-. simpl in Hcalls. lia. }
    destruct (initializationPromise st) as [p|] eqn:Ep.
    { injection Hstep as <-. simpl in Hcalls. lia. }
    split; [reflexivity|].
    intros p Hp. specialize (HA p Hp). congruence.
  - intros Hup.
    destruct (run_bound schedule _ _ Hup Hrun (start_unharmed n))
      as [[Hp Ht] Hbound].
    split; [exact Hbound|].
    split.
    + intros i Hi. exact (Forall_at _ _ _ _ Ht Hi eq_refl).
    + intros p Hi. exact (Forall_at _ _ _ _ Hp Hi eq_refl).
  - intros i st' Hstep. simpl in Hstep.
    destruct (nth_error (tasks st) i) as [[]|]; try discriminate.
    injection Hstep as <-. now repeat split.
  - intros i p Hi Hp. simpl. rewrite Hi, Hp.
    eexists. split; [reflexivity|]. simpl.
    split; [reflexivity|]. split; [reflexivity|].
    exact (update_same _ _ _ _ Hi).
  - eexists. split; [reflexivity|]. now repeat split.
Qed.

Lemma initializations_in_flight_follow_the_resets_witness :
  exists st,
    run Fixtures.retry (start 3) = Some st
    /\ forall p,
         nth_error (promises st) p = Some Pending ->
         initializationPromise st = Some p.
Proof.
  eexists. split; [reflexivity|].
  exact (proj1 (proj2 (proj1 (initializations_in_flight_follow_the_resets
                                3 Fixtures.retry _ eq_refl) eq_refl))).
Defined.

End LazyInitClaims.

(* ================================================================== *)
(** ** The hash of the embedding provider *)

Section HashFacts.

Import Embeddings.

Local Open Scope Z_scope.

Lemma to_int32_range (z : Z) : - 2 ^ 31 <= to_int32 z < 2 ^ 31.
Proof.
  unfold to_int32.
  pose proof (Z.mod_pos_bound (z + 2 ^ 31) (2 ^ 32) ltac:(lia)). lia.
Qed.

Lemma to_int32_shift (z : Z) : exists k, to_int32 z = z + 2 ^ 32 * k.
Proof.
  unfold to_int32. exists (- ((z + 2 ^ 31) / 2 ^ 32)).
  pose proof (Z.div_mod (z + 2 ^ 31) (2 ^ 32) ltac:(lia)). lia.
Qed.

Lemma to_int32_congruent (a k : Z) : to_int32 (a + 2 ^ 32 * k) = to_int32 a.
Proof.
  unfold to_int32.
  replace (a + 2 ^ 32 * k + 2 ^ 31) with (a + 2 ^ 31 + k * 2 ^ 32) by lia.
  now rewrite Z.mod_add by lia.
Qed.

(** One turn of the loop multiplies by 31 and adds the code unit, modulo
    2^32. *)
Lemma hash_step_polynomial (h c : Z) :
  hash_step (to_int32 h) c = to_int32 (31 * h + c).
Proof.
  unfold hash_step. rewrite Z.shiftl_mul_pow2 by lia.
  destruct (to_int32_shift h) as [k1 E1].
  destruct (to_int32_shift (to_int32 h)) as [k2 E2].
  destruct (to_int32_shift (to_int32 (to_int32 h) * 2 ^ 5)) as [k3 E3].
  rewrite E3, E2, E1.
  replace ((h + 2 ^ 32 * k1 + 2 ^ 32 * k2) * 2 ^ 5 + 2 ^ 32 * k3
           - (h + 2 ^ 32 * k1) + c)
    with (31 * h + c + 2 ^ 32 * (32 * k1 + 32 * k2 + k3 - k1)) by lia.
  apply to_int32_congruent.
Qed.

Lemma fold_hash_polynomial (str : list Z) (h : Z) :
  fold_left hash_step str (to_int32 h)
  = to_int32 (fold_left (fun a c => 31 * a + c) str h).
Proof.
  revert h. induction str as [|c rest IH]; intros h; simpl.
  - reflexivity.
  - rewrite hash_step_polynomial. apply IH.
Qed.

(** [hashString] is the absolute value of the polynomial hash with
    multiplier 31 taken as a signed 32-bit integer; it lies between 0 and
    2^31 inclusive, and the position derived from it and a non-negative
    offset is a valid index into an array of [dimensions] entries. *)
Theorem hashString_is_the_wrapped_polynomial (str : list Z) :
  hashString str = Z.abs (to_int32 (polynomial str))
  /\ 0 <= hashString str <= 2 ^ 31
  /\ (forall i dimensions,
         0 <= i -> 0 < dimensions ->
         0 <= position (hashString str) i dimensions < dimensions).
Proof.
  assert (E : hashString str = Z.abs (to_int32 (polynomial str))).
  { unfold hashString, polynomial.
    change 0 with (to_int32 0) at 1. now rewrite fold_hash_polynomial. }
  split; [exact E|].
  assert (B : 0 <= hashString str <= 2 ^ 31).
  { rewrite E. pose proof (to_int32_range (polynomial str)). lia. }
  split; [exact B|].
  intros i d Hi Hd. unfold position.
  rewrite Z.rem_mod_nonneg by lia.
  apply Z.mod_pos_bound. lia.
Qed.

Lemma hashString_witness :
  0 <= position (hashString (code_units "brain")) 7 384 < 384.
Proof.
  apply (proj2 (proj2 (hashString_is_the_wrapped_polynomial
                         (code_units "brain")))); lia.
Defined.

End HashFacts.

(* ================================================================== *)
(** ** The vector store client *)

Section StoreFacts2.

Import Js Effects Types.

Variable svc : Chroma.ChromaService.

Lemma observe_record {X : Type} (obs : Event -> list X) (e : Event)
      (w : World) :
  observe obs (record e w) = (observe obs w ++ obs e)%list.
Proof.
  rewrite record_extend, observe_extend. simpl. now rewrite app_nil_r.
Qed.

(** Unfold [initialize] down to the answers of the store. *)
Ltac run_initialize :=
  unfold Chroma.initialize, try_catch, bind, emit, attempt, of_sum, ret,
    throw, set_initialized;
  destruct (Chroma.heartbeat (Chroma.client svc)) as [e1|];
  [|destruct (Chroma.listCollections (Chroma.client svc)) as [e2|names];
    [|destruct (existsb (String.eqb (Chroma.collectionName svc)) names);
      [|destruct (Chroma.createCollection (Chroma.client svc)) as [e3|]]]];
  cbv beta iota zeta.

(** [initialize] either marks the service initialised or throws an
    initialisation error and leaves the mark as it was. *)
Lemma initialize_outcome (w : World) :
  (fst (Chroma.initialize svc w) = Returned tt
   /\ initialized (snd (Chroma.initialize svc w)) = true)
  \/ (exists detail,
         fst (Chroma.initialize svc w)
         = Threw (ErrorObj ("ChromaDB initialization failed: " ++ detail))
         /\ initialized (snd (Chroma.initialize svc w)) = initialized w).
Proof.
  run_initialize;
    first [ left; split; reflexivity
          | right; eexists; split; reflexivity ].
Qed.

Lemma initialize_begins_with_heartbeat (w : World) :
  exists rest,
    observe Documents.setup_call (snd (Chroma.initialize svc w))
    = (observe Documents.setup_call w ++ StoreHeartbeat :: rest)%list.
Proof.
  run_initialize; simpl snd; unfold observe; simpl trace;
    rewrite ?flat_map_app; simpl flat_map;
    rewrite <- ?app_assoc; simpl app; eexists; reflexivity.
Qed.

Lemma ensureInitialized_cases (w : World) :
  Chroma.ensureInitialized svc w
  = if initialized w then (Returned tt, w)
    else match Chroma.initialize svc w with
         | (Returned _, w1) =>
             (Returned tt, {| initialized := true;
                              clock_reads := clock_reads w1;
                              trace := trace w1 |})
         | (Threw t, w1) => (Threw t, w1)
         end.
Proof.
  unfold Chroma.ensureInitialized, bind, get_initialized.
  destruct (initialized w); [reflexivity|].
  destruct (Chroma.initialize svc w) as [[[]|t] w1]; reflexivity.
Qed.

Lemma ensureInitialized_outcome (w : World) :
  (fst (Chroma.ensureInitialized svc w) = Returned tt
   /\ initialized (snd (Chroma.ensureInitialized svc w)) = true)
  \/ (exists detail,
         fst (Chroma.ensureInitialized svc w)
         = Threw (ErrorObj ("ChromaDB initialization failed: " ++ detail))
         /\ initialized (snd (Chroma.ensureInitialized svc w)) = false).
Proof.
  rewrite ensureInitialized_cases.
  destruct (initialized w) eqn:Hw; [left; now split|].
  destruct (initialize_outcome w) as [[H1 H2]|(d & H1 & H2)];
    destruct (Chroma.initialize svc w) as [[[]|t] w1]; simpl in *;
    try discriminate.
  - left. now split.
  - right. exists d. split; [exact H1|congruence].
Qed.

Lemma initialize_begins_with_an_event (w : World) :
  exists rest,
    trace (snd (Chroma.initialize svc w))
    = (trace w ++ StoreHeartbeat :: rest)%list.
Proof.
  run_initialize; simpl snd; simpl trace;
    rewrite <- ?app_assoc; simpl app; eexists; reflexivity.
Qed.

(** Getting ready sends no query. *)
Lemma initialize_asks_nothing (w : World) :
  observe Chroma.query_call (snd (Chroma.initialize svc w))
  = observe Chroma.query_call w.
Proof.
  run_initialize; simpl snd; unfold observe; simpl trace;
    rewrite ?flat_map_app; simpl flat_map; now rewrite ?app_nil_r.
Qed.

Lemma ensureInitialized_asks_nothing (w : World) :
  observe Chroma.query_call (snd (Chroma.ensureInitialized svc w))
  = observe Chroma.query_call w.
Proof.
  rewrite ensureInitialized_cases.
  destruct (initialized w); [reflexivity|].
  pose proof (initialize_asks_nothing w) as H.
  destruct (Chroma.initialize svc w) as [[[]|t] w1]; exact H.
Qed.

(** A service that is initialised does not talk to the store to get
    ready. *)
Lemma ensureInitialized_ready (w : World) :
  initialized w = true -> Chroma.ensureInitialized svc w = (Returned tt, w).
Proof. intros H. rewrite ensureInitialized_cases. now rewrite H. Qed.

End StoreFacts2.

Section AnswerFacts.

Import Js Types.

(** Rows of an answer of the store are turned into results by a callback
    that keeps the entries with a non-empty text. *)
Context {B : Type} (f : option string -> nat -> option B)
        (g : string -> nat -> B) (text : B -> string).

Hypothesis f_keeps_texts :
  forall c i,
    f c i = match c with
            | Some s => if truthy_string s then Some (g s i) else None
            | None => None
            end.

Hypothesis text_of_g : forall s i, text (g s i) = s.

Lemma kept_texts (row : list (option string)) (k : nat) :
  map text (Chroma.drop_null (mapi_from f k row)) = Documents.present row.
Proof.
  revert k. induction row as [|c row IH]; intros k; simpl; [reflexivity|].
  rewrite f_keeps_texts. destruct c as [s|]; [|apply IH].
  destruct (truthy_string s); simpl; [|apply IH].
  now rewrite text_of_g, IH.
Qed.

Lemma kept_positions (row : list (option string)) (k : nat) (b : B) :
  In b (Chroma.drop_null (mapi_from f k row))
  <-> exists i s,
        nth_error row i = Some (Some s)
        /\ truthy_string s = true
        /\ b = g s (k + i).
Proof.
  revert k. induction row as [|c row IH]; intros k; simpl.
  - split; [contradiction|]. intros (i & s & H & _). destruct i; discriminate.
  - rewrite f_keeps_texts.
    assert (Hrest :
              (exists i s, nth_error row i = Some (Some s)
                           /\ truthy_string s = true /\ b = g s (S k + i))
              -> exists i s, nth_error (c :: row) i = Some (Some s)
                             /\ truthy_string s = true /\ b = g s (k + i)).
    { intros (i & s & H1 & H2 & H3). exists (S i), s. simpl.
      now rewrite Nat.add_succ_r. }
    assert (Hback :
              forall i s, nth_error (c :: row) (S i) = Some (Some s)
                          -> truthy_string s = true -> b = g s (k + S i)
                          -> exists i' s', nth_error row i' = Some (Some s')
                                           /\ truthy_string s' = true
                                           /\ b = g s' (S k + i')).
    { intros i s H1 H2 H3. exists i, s. simpl in H1.
      now rewrite Nat.add_succ_r in H3. }
    destruct c as [s0|]; [destruct (truthy_string s0) eqn:E0|].
    + simpl. rewrite IH. split.
      * intros [<-|H]; [|now apply Hrest].
        exists 0%nat, s0. now rewrite Nat.add_0_r.
      * intros ([|i] & s & H1 & H2 & H3).
        -- simpl in H1. injection H1 as ->. left.
           now rewrite Nat.add_0_r in H3.
        -- right. now apply (Hback i s).
    + rewrite IH. split; [apply Hrest|].
      intros ([|i] & s & H1 & H2 & H3).
      * simpl in H1. injection H1 as ->. congruence.
      * now apply (Hback i s).
    + rewrite IH. split; [apply Hrest|].
      intros ([|i] & s & H1 & H2 & H3).
      * discriminate.
      * now apply (Hback i s).
Qed.

End AnswerFacts.

Section PresentFacts.

Import Js.

Lemma present_nonempty (row : list (option string)) :
  Forall (fun s => truthy_string s = true) (Documents.present row).
Proof.
  induction row as [|[s|] row IH]; simpl; auto.
  destruct (truthy_string s) eqn:E; auto.
Qed.

Lemma present_length (row : list (option string)) :
  (List.length (Documents.present row) <= List.length row)%nat.
Proof.
  induction row as [|[s|] row IH]; simpl; try lia.
  destruct (truthy_string s); simpl; lia.
Qed.

End PresentFacts.

Section SearchFacts.

Import Js Effects Types.

Variable svc : Chroma.ChromaService.

(** [search] step by step. *)
Lemma search_cases (q : string) (limit : Z) (filter : option Metadata)
      (w : World) :
  Chroma.search svc q limit filter w
  = let failed (t : Thrown) (w' : World)
        : Outcome (list SearchResult) * World :=
      (Threw (ErrorObj ("Search failed: " ++ message_of t)),
       record (ConsoleError "Failed to search documents:" t) w') in
    match Chroma.ensureInitialized svc w with
    | (Threw t, w1) => failed t w1
    | (Returned _, w1) =>
        let w2 := record (StoreGetCollection (Chroma.collectionName svc)) w1 in
        match Chroma.getCollection (Chroma.client svc) with
        | Some t => failed t w2
        | None =>
            let w3 := record (StoreQuery q limit) w2 in
            match Chroma.query (Chroma.client svc) q limit
                               (Chroma.where_clause filter) with
            | inl t => failed t w3
            | inr answer => (Returned (Chroma.results_of answer), w3)
            end
        end
    end.
Proof.
  unfold Chroma.search, try_catch, bind.
  destruct (Chroma.ensureInitialized svc w) as [[[]|t] w1]; [|reflexivity].
  unfold emit at 1. unfold attempt.
  destruct (Chroma.getCollection (Chroma.client svc)) as [t|];
    [reflexivity|].
  unfold ret at 1. unfold emit at 1. unfold of_sum.
  destruct (Chroma.query (Chroma.client svc) q limit
                         (Chroma.where_clause filter)) as [t|answer];
    reflexivity.
Qed.

Lemma results_texts (answer : Chroma.QueryResult)
      (docs : list (list (option string)))
      (metas : list (list (option Metadata)))
      (dists : list (list (option Q))) :
  Chroma.documents answer = Some docs ->
  Chroma.metadatas answer = Some metas ->
  Chroma.distances answer = Some dists ->
  map (fun r => doc_content (document r)) (Chroma.results_of answer)
  = Documents.present (Chroma.first_row docs).
Proof.
  intros Hd Hm Hq. unfold Chroma.results_of, mapi. rewrite Hd, Hm, Hq.
  apply kept_texts
    with (g := fun s i =>
                 {| document :=
                      {| doc_id :=
                           or_string (nth_error (Chroma.first_row
                                                   (Chroma.ids answer)) i)
                                     ("unknown_" ++ index_to_string i);
                         doc_content := s;
                         doc_metadata :=
                           match Chroma.at_index (Chroma.first_row metas) i
                           with
                           | Some m => m
                           | None => []
                           end |};
                    score := 1 - or_Q (Chroma.at_index
                                         (Chroma.first_row dists) i) 0 |});
    reflexivity.
Qed.

(** A search that returns has asked the store once; its results carry
    exactly the non-empty texts of the first row of the answer, in the order
    of the answer, so there are never more results than the store gave and
    none has an empty content. *)
Theorem search_returns_the_nonempty_documents
        (q : string) (limit : Z) (filter : option Metadata) (w : World)
        (results : list SearchResult) :
  fst (Chroma.search svc q limit filter w) = Returned results ->
  exists answer,
    Chroma.query (Chroma.client svc) q limit (Chroma.where_clause filter)
    = inr answer
    /\ results = Chroma.results_of answer
    /\ Forall (fun r => truthy_string (doc_content (document r)) = true)
              results
    /\ (forall docs metas dists,
           Chroma.documents answer = Some docs ->
           Chroma.metadatas answer = Some metas ->
           Chroma.distances answer = Some dists ->
           map (fun r => doc_content (document r)) results
           = Documents.present (Chroma.first_row docs)
           /\ (List.length results
               <= List.length (Chroma.first_row docs))%nat)
    /\ (Chroma.documents answer = None
        \/ Chroma.metadatas answer = None
        \/ Chroma.distances answer = None -> results = []).
Proof.
  intros H. rewrite search_cases in H. cbv zeta in H.
  destruct (Chroma.ensureInitialized svc w) as [[[]|t] w1];
    [|discriminate].
  destruct (Chroma.getCollection (Chroma.client svc)); [discriminate|].
  destruct (Chroma.query (Chroma.client svc) q limit
                         (Chroma.where_clause filter)) as [t|answer];
    [discriminate|].
  simpl in H. injection H as <-.
  exists answer. split; [reflexivity|]. split; [reflexivity|].
  assert (Htexts :
            forall docs metas dists,
              Chroma.documents answer = Some docs ->
              Chroma.metadatas answer = Some metas ->
              Chroma.distances answer = Some dists ->
              map (fun r => doc_content (document r))
                  (Chroma.results_of answer)
              = Documents.present (Chroma.first_row docs)).
  { intros docs metas dists. apply results_texts. }
  split; [|split].
  - destruct (Chroma.documents answer) as [docs|] eqn:Hd;
      [destruct (Chroma.metadatas answer) as [metas|] eqn:Hm;
       [destruct (Chroma.distances answer) as [dists|] eqn:Hq|]|];
      try (unfold Chroma.results_of; rewrite Hd, ?Hm, ?Hq; constructor).
    pose proof (present_nonempty (Chroma.first_row docs)) as Hp.
    rewrite <- (Htexts docs metas dists eq_refl eq_refl eq_refl) in Hp.
    now rewrite Forall_map in Hp.
  - intros docs metas dists Hd Hm Hq.
    pose proof (Htexts docs metas dists Hd Hm Hq) as E.
    split; [exact E|].
    rewrite <- (length_map (fun r => doc_content (document r))), E.
    apply present_length.
  - unfold Chroma.results_of.
    intros [->|[->| ->]]; [reflexivity| |].
    + now destruct (Chroma.documents answer).
    + destruct (Chroma.documents answer); [|reflexivity].
      now destruct (Chroma.metadatas answer).
Qed.

(** Each result takes its id, its metadata and its distance from the
    position its text had in the answer of the store, not from its
    position among the results: the id falls back to [unknown_<position>],
    the metadata to the empty object, the distance to 0. *)
Theorem results_keep_the_positions_of_the_answer
        (answer : Chroma.QueryResult)
        (docs : list (list (option string)))
        (metas : list (list (option Metadata)))
        (dists : list (list (option Q))) (r : SearchResult) :
  Chroma.documents answer = Some docs ->
  Chroma.metadatas answer = Some metas ->
  Chroma.distances answer = Some dists ->
  (In r (Chroma.results_of answer)
   <-> exists i s,
         nth_error (Chroma.first_row docs) i = Some (Some s)
         /\ truthy_string s = true
         /\ r = {| document :=
                     {| doc_id :=
                          or_string (nth_error (Chroma.first_row
                                                  (Chroma.ids answer)) i)
                                    ("unknown_" ++ index_to_string i);
                        doc_content := s;
                        doc_metadata :=
                          match Chroma.at_index (Chroma.first_row metas) i
                          with
                          | Some m => m
                          | None => []
                          end |};
                   score := 1 - or_Q (Chroma.at_index
                                        (Chroma.first_row dists) i) 0 |}).
Proof.
  intros Hd Hm Hq. unfold Chroma.results_of, mapi. rewrite Hd, Hm, Hq.
  apply (kept_positions
           (Chroma.to_result (Chroma.first_row (Chroma.ids answer))
                             (Chroma.first_row metas)
                             (Chroma.first_row dists))
           (fun s i =>
              {| document :=
                   {| doc_id :=
                        or_string (nth_error (Chroma.first_row
                                                (Chroma.ids answer)) i)
                                  ("unknown_" ++ index_to_string i);
                      doc_content := s;
                      doc_metadata :=
                        match Chroma.at_index (Chroma.first_row metas) i with
                        | Some m => m
                        | None => []
                        end |};
                 score := 1 - or_Q (Chroma.at_index
                                      (Chroma.first_row dists) i) 0 |})).
  reflexivity.
Qed.

End SearchFacts.

Section InitializationFacts.

Import Js Effects Types.

Variable svc : Chroma.ChromaService.

(** [initialize] on a store that answers the heartbeat and lists its
    collections. *)
Lemma initialize_listed (w : World) (names : list string) :
  Chroma.heartbeat (Chroma.client svc) = None ->
  Chroma.listCollections (Chroma.client svc) = inr names ->
  Chroma.initialize svc w
  = let name := Chroma.collectionName svc in
    let connected :=
      [StoreHeartbeat; ConsoleLog "ChromaDB connection successful";
       StoreListCollections] in
    if existsb (String.eqb name) names
    then (Returned tt,
          {| initialized := true;
             clock_reads := clock_reads w;
             trace := (trace w
                         ++ connected
                         ++ [ConsoleLog ("Using existing collection: "
                                           ++ name)])%list |})
    else match Chroma.createCollection (Chroma.client svc) with
         | None =>
             (Returned tt,
              {| initialized := true;
                 clock_reads := clock_reads w;
                 trace := (trace w
                             ++ connected
                             ++ [StoreCreateCollection name;
                                 ConsoleLog ("Created collection: "
                                               ++ name)])%list |})
         | Some e =>
             (Threw (ErrorObj (Chroma.INITIALIZATION_FAILED ++ ": "
                                 ++ message_of e)),
              extend (connected
                        ++ [StoreCreateCollection name;
                            ConsoleError "Failed to initialize ChromaDB:" e])
                     w)
         end.
Proof.
  intros Hbeat Hlist.
  unfold Chroma.initialize, try_catch, bind, emit, attempt, of_sum, ret,
    throw, set_initialized.
  rewrite Hbeat, Hlist. cbv beta iota zeta.
  destruct (existsb (String.eqb (Chroma.collectionName svc)) names);
    [|destruct (Chroma.createCollection (Chroma.client svc)) as [e|]];
    cbv beta iota zeta; unfold record, extend; simpl;
    rewrite <- ?app_assoc; reflexivity.
Qed.

Lemma listed (name : string) (names : list string) :
  existsb (String.eqb name) names = true <-> In name names.
Proof.
  rewrite existsb_exists. split.
  - intros (x & Hx & E). apply String.eqb_eq in E. now subst.
  - intros H. exists name. split; [exact H|apply String.eqb_refl].
Qed.

(** [initialize] creates the collection exactly when the store does not
    list it: a listed collection is used as it is, and a missing one is
    created once, the initialisation succeeding when the creation does. *)
Theorem initialize_creates_only_a_missing_collection
        (w : World) (names : list string) :
  Chroma.heartbeat (Chroma.client svc) = None ->
  Chroma.listCollections (Chroma.client svc) = inr names ->
  (In (Chroma.collectionName svc) names ->
   fst (Chroma.initialize svc w) = Returned tt
   /\ observe Documents.create_call (snd (Chroma.initialize svc w))
      = observe Documents.create_call w)
  /\ (~ In (Chroma.collectionName svc) names ->
      observe Documents.create_call (snd (Chroma.initialize svc w))
      = (observe Documents.create_call w ++ [Chroma.collectionName svc])%list
      /\ (fst (Chroma.initialize svc w) = Returned tt
          <-> Chroma.createCollection (Chroma.client svc) = None)).
Proof.
  intros Hbeat Hlist.
  rewrite (initialize_listed w names Hbeat Hlist). cbv zeta.
  pose proof (listed (Chroma.collectionName svc) names) as Hin.
  destruct (existsb (String.eqb (Chroma.collectionName svc)) names).
  - split; [|intros Hno; exfalso; apply Hno; now apply Hin].
    intros _. split; [reflexivity|].
    unfold observe. simpl. rewrite flat_map_app. simpl.
    now rewrite app_nil_r.
  - split; [intros Hyes; apply Hin in Hyes; discriminate|].
    intros _.
    destruct (Chroma.createCollection (Chroma.client svc)) as [e|]; simpl.
    + split; [|split; discriminate].
      unfold observe. simpl. now rewrite flat_map_app.
    + split; [|now split].
      unfold observe. simpl. now rewrite flat_map_app.
Qed.

Lemma search_when_ready (q : string) (limit : Z)
      (filter : option Metadata) (w : World) :
  initialized w = true ->
  observe Documents.setup_call (snd (Chroma.search svc q limit filter w))
  = observe Documents.setup_call w
  /\ initialized (snd (Chroma.search svc q limit filter w)) = true.
Proof.
  intros Hready. rewrite search_cases, (ensureInitialized_ready svc w Hready).
  cbv zeta.
  destruct (Chroma.getCollection (Chroma.client svc)) as [t|];
    [|destruct (Chroma.query (Chroma.client svc) q limit
                             (Chroma.where_clause filter)) as [t|answer]];
    simpl snd; rewrite ?observe_record; simpl;
    rewrite ?app_nil_r; now split.
Qed.

(** Once a search has returned, the service is marked initialised and a
    later search sends no heartbeat, lists no collections and creates none:
    the connection is set up once. *)
Theorem initialization_is_not_repeated
        (q1 : string) (limit1 : Z) (filter1 : option Metadata) (w : World)
        (results : list SearchResult) :
  fst (Chroma.search svc q1 limit1 filter1 w) = Returned results ->
  initialized (snd (Chroma.search svc q1 limit1 filter1 w)) = true
  /\ (forall q2 limit2 filter2,
         observe Documents.setup_call
                 (snd (Chroma.search
                         svc q2 limit2 filter2
                         (snd (Chroma.search svc q1 limit1 filter1 w))))
         = observe Documents.setup_call
                   (snd (Chroma.search svc q1 limit1 filter1 w))).
Proof.
  intros H.
  assert (Hready :
            initialized (snd (Chroma.search svc q1 limit1 filter1 w)) = true).
  { rewrite search_cases in *. cbv zeta in *.
    destruct (ensureInitialized_outcome svc w) as [[H1 H2]|(d & H1 & H2)];
      destruct (Chroma.ensureInitialized svc w) as [[[]|t] w1];
      simpl in H1, H2; try discriminate.
    destruct (Chroma.getCollection (Chroma.client svc)); [discriminate|].
    destruct (Chroma.query (Chroma.client svc) q1 limit1
                           (Chroma.where_clause filter1));
      [discriminate|].
    exact H2. }
  split; [exact Hready|].
  intros q2 limit2 filter2.
  exact (proj1 (search_when_ready q2 limit2 filter2 _ Hready)).
Qed.

(** When the heartbeat of an unused service fails, [search] throws
    [Search failed: ChromaDB initialization failed: <detail>], sends no
    query, and leaves the service uninitialised, so that the next call
    tries again. *)
Theorem search_fails_when_the_store_is_unreachable
        (q : string) (limit : Z) (filter : option Metadata) (w : World)
        (e : Thrown) :
  initialized w = false ->
  Chroma.heartbeat (Chroma.client svc) = Some e ->
  fst (Chroma.search svc q limit filter w)
  = Threw (ErrorObj ("Search failed: ChromaDB initialization failed: "
                       ++ message_of e))
  /\ initialized (snd (Chroma.search svc q limit filter w)) = false
  /\ observe Chroma.query_call (snd (Chroma.search svc q limit filter w))
     = observe Chroma.query_call w
  /\ exists rest,
       observe Documents.setup_call
               (snd (Chroma.search
                       svc q limit filter
                       (snd (Chroma.search svc q limit filter w))))
       = (observe Documents.setup_call
                  (snd (Chroma.search svc q limit filter w))
            ++ StoreHeartbeat :: rest)%list.
Proof.
  intros Hw Hbeat.
  assert (Hinit :
            Chroma.ensureInitialized svc w
            = (Threw (ErrorObj ("ChromaDB initialization failed: "
                                  ++ message_of e)),
               extend [StoreHeartbeat;
                       ConsoleError "Failed to initialize ChromaDB:" e] w)).
  { rewrite ensureInitialized_cases, Hw.
    unfold Chroma.initialize, try_catch, bind, emit, attempt, throw.
    rewrite Hbeat. cbv beta iota zeta. rewrite !record_extend.
    rewrite extend_extend. reflexivity. }
  assert (Hflag :
            initialized (snd (Chroma.search svc q limit filter w)) = false).
  { rewrite search_cases, Hinit. exact Hw. }
  split; [now rewrite search_cases, Hinit|].
  split; [exact Hflag|].
  split.
  { rewrite search_cases, Hinit. cbv zeta. simpl snd.
    rewrite observe_record, observe_extend. simpl. now rewrite !app_nil_r. }
  set (w1 := snd (Chroma.search svc q limit filter w)) in *.
  rewrite search_cases, ensureInitialized_cases, Hflag.
  destruct (initialize_begins_with_heartbeat svc w1) as [rest Hrest].
  destruct (Chroma.initialize svc w1) as [[[]|t] w2]; simpl in Hrest.
  - cbv zeta.
    destruct (Chroma.getCollection (Chroma.client svc)) as [t|];
      [|destruct (Chroma.query (Chroma.client svc) q limit
                               (Chroma.where_clause filter)) as [t|answer]];
      simpl snd; rewrite ?observe_record; simpl; rewrite ?app_nil_r;
      exists rest; exact Hrest.
  - cbv zeta. simpl snd. rewrite observe_record. simpl. rewrite app_nil_r.
    exists rest. exact Hrest.
Qed.

End InitializationFacts.

(* ================================================================== *)
(** ** Retrieval inside the orchestrator *)

Section RetrievalClaims.

Import Js Effects Types.

Variable svc : LLM.LLMService.

(** [search] asks the store once, with the limit it was given, when the
    collection can be opened, and not at all otherwise. *)
Lemma search_asks (chroma : Chroma.ChromaService) (q : string) (limit : Z)
      (filter : option Metadata) (w : World) :
  observe Chroma.query_call (snd (Chroma.search chroma q limit filter w))
  = (observe Chroma.query_call w
       ++ match fst (Chroma.ensureInitialized chroma w),
                Chroma.getCollection (Chroma.client chroma) with
          | Returned _, None => [(q, limit)]
          | _, _ => []
          end)%list.
Proof.
  rewrite search_cases. cbv zeta.
  pose proof (ensureInitialized_asks_nothing chroma w) as Hq.
  destruct (Chroma.ensureInitialized chroma w) as [[[]|t] w1];
    simpl in Hq; simpl fst.
  - destruct (Chroma.getCollection (Chroma.client chroma)) as [t|].
    + simpl snd. rewrite !observe_record, Hq. simpl.
      now rewrite !app_nil_r.
    + destruct (Chroma.query (Chroma.client chroma) q limit
                             (Chroma.where_clause filter)) as [t|answer];
        simpl snd; rewrite !observe_record, Hq; simpl;
        now rewrite ?app_nil_r.
  - simpl snd. rewrite observe_record, Hq. simpl. now rewrite app_nil_r.
Qed.

(** C2: for every request with retrieval switched on and in every state of
    the service, [streamChat] hands [retrieveContext] the limit
    [request.ragLimit || 3], and [retrieveContext] hands it on to [search]:
    the [ragLimit] of the request when that is present and not zero, and 3
    when it is absent or zero.  The store is then queried once, for the last
    message, with that [nResults], when the collection can be opened (on
    the first use of the service after a successful initialisation), and
    not at all otherwise.  Nothing clamps the limit: every [ragLimit] other
    than zero, and so every [ragLimit] between 1 and 10, is passed on
    unchanged. *)
Theorem C2_rag_limit_defaults_to_three
        (request : ChatRequest) (front : list ChatMessage) (m : ChatMessage)
        (w : World) :
  messages request = (front ++ [m])%list ->
  LLM.rag_enabled request = true ->
  let limit :=
    match ragLimit request with
    | Some n => if (n =? 0)%Z then 3%Z else n
    | None => 3%Z
    end in
  let chroma := LLM.chromaService svc in
  let reached :=
    match fst (Chroma.ensureInitialized chroma w),
          Chroma.getCollection (Chroma.client chroma) with
    | Returned _, None => true
    | _, _ => false
    end in
  LLM.rag_limit request = limit
  /\ LLM.resolve_prompt svc request w
     = match LLM.retrieveContext svc (content m) limit w with
       | (Returned context, w') =>
           (Returned (LLM.buildRagPrompt (content m) context), w')
       | (Threw t, w') => (Threw t, w')
       end
  /\ snd (LLM.retrieveContext svc (content m) limit w)
     = match Chroma.search chroma (content m) limit None w with
       | (Returned _, w') => w'
       | (Threw t, w') =>
           record (ConsoleError "Failed to retrieve context from ChromaDB:" t)
                  w'
       end
  /\ observe Chroma.query_call (snd (LLM.resolve_prompt svc request w))
     = (observe Chroma.query_call w
          ++ (if reached then [(content m, limit)] else []))%list
  /\ (initialized w = true ->
      Chroma.getCollection (Chroma.client chroma) = None ->
      reached = true)
  /\ (initialized w = false ->
      reached = match fst (Chroma.initialize chroma w),
                      Chroma.getCollection (Chroma.client chroma) with
                | Returned _, None => true
                | _, _ => false
                end)
  /\ (ragLimit request = None -> LLM.rag_limit request = 3%Z)
  /\ (ragLimit request = Some 0%Z -> LLM.rag_limit request = 3%Z)
  /\ (forall n,
         ragLimit request = Some n -> n <> 0%Z -> LLM.rag_limit request = n)
  /\ (forall n,
         ragLimit request = Some n ->
         (1 <= n <= 10)%Z -> (1 <= LLM.rag_limit request <= 10)%Z).
Proof.
  intros Hm Hrag limit chroma reached.
  assert (Hlimit : LLM.rag_limit request = limit) by reflexivity.
  assert (Hresolve :
            LLM.resolve_prompt svc request w
            = match LLM.retrieveContext svc (content m) limit w with
              | (Returned context, w') =>
                  (Returned (LLM.buildRagPrompt (content m) context), w')
              | (Threw t, w') => (Threw t, w')
              end).
  { rewrite (resolve_prompt_rag svc request front m _ Hm Hrag).
    now rewrite Hlimit. }
  assert (Hworld :
            snd (LLM.retrieveContext svc (content m) limit w)
            = match Chroma.search chroma (content m) limit None w with
              | (Returned _, w') => w'
              | (Threw t, w') =>
                  record (ConsoleError
                            "Failed to retrieve context from ChromaDB:" t) w'
              end).
  { unfold LLM.retrieveContext, try_catch, bind. fold chroma.
    now destruct (Chroma.search chroma (content m) limit None w)
      as [[results|t] w']. }
  split; [exact Hlimit|].
  split; [exact Hresolve|].
  split; [exact Hworld|].
  split.
  { pose proof (search_asks chroma (content m) limit None w) as Hasks.
    fold reached in Hasks.
    assert (Hsame :
              observe Chroma.query_call
                      (snd (LLM.resolve_prompt svc request w))
              = observe Chroma.query_call
                        (snd (Chroma.search chroma (content m) limit None
                                            w))).
    { rewrite Hresolve.
      destruct (LLM.retrieveContext svc (content m) limit w)
        as [[context|t] w1] eqn:E; simpl snd in *; rewrite Hworld;
        destruct (Chroma.search chroma (content m) limit None w)
          as [[results|t'] w2]; simpl snd; rewrite ?observe_record; simpl;
        now rewrite ?app_nil_r. }
    rewrite Hsame, Hasks. unfold reached.
    destruct (fst (Chroma.ensureInitialized chroma w)) as [[]|t];
      [|reflexivity].
    now destruct (Chroma.getCollection (Chroma.client chroma)). }
  split.
  { intros Hready Hget. unfold reached.
    rewrite (ensureInitialized_ready chroma w Hready), Hget. reflexivity. }
  split.
  { intros Hfirst. unfold reached.
    rewrite ensureInitialized_cases, Hfirst.
    now destruct (Chroma.initialize chroma w) as [[[]|t] w1]. }
  unfold LLM.rag_limit, or_num. split; [|split; [|split]].
  - now intros ->.
  - now intros ->.
  - intros n -> Hn. destruct (Z.eqb_spec n 0); [contradiction|reflexivity].
  - intros n -> Hn. destruct (Z.eqb_spec n 0); lia.
Qed.

(** C5: when the search of the store returns a non-empty sequence of
    results, [retrieveContext] returns their [[Document N]] blocks joined by
    the separator, and the prompt [streamChat] sends is the fixed head, that
    context, the instruction and the question.  Every block and every
    document content occurs in the prompt, consecutive blocks are separated
    by exactly the separator, blocks and contents occur in the order of the
    results, the fallback sentence occurs verbatim, and equal inputs give
    equal prompts. *)
Theorem C5_prompt_contains_documents_and_fallback
        (q : string) (results : list SearchResult) :
  results <> [] ->
  let context :=
    join (nl ++ nl ++ "---" ++ nl ++ nl) (mapi LLM.context_part results) in
  let prompt := LLM.buildRagPrompt q (LLM.format_context results) in
  (forall limit w w',
      Chroma.search (LLM.chromaService svc) q limit None w
      = (Returned results, w') ->
      LLM.retrieveContext svc q limit w = (Returned context, w')
      /\ forall request front m,
           messages request = (front ++ [m])%list ->
           content m = q ->
           LLM.rag_enabled request = true ->
           LLM.rag_limit request = limit ->
           LLM.resolve_prompt svc request w = (Returned prompt, w'))
  /\ LLM.buildRagPrompt q context = prompt
  /\ prompt = "Context information from documents:" ++ nl
                ++ context ++ LLM.PROMPT_INSTRUCTION ++ q
  /\ (forall i r,
         nth_error results i = Some r ->
         occurs_in ("[Document " ++ index_to_string (i + 1) ++ "]" ++ nl
                      ++ doc_content (document r)) prompt
         /\ occurs_in (doc_content (document r)) prompt)
  /\ (forall i r r',
         nth_error results i = Some r ->
         nth_error results (S i) = Some r' ->
         occurs_in (LLM.context_part r i ++ (nl ++ nl ++ "---" ++ nl ++ nl)
                      ++ LLM.context_part r' (S i)) prompt)
  /\ (forall i j r r',
         (i < j)%nat ->
         nth_error results i = Some r ->
         nth_error results j = Some r' ->
         occurs_before (LLM.context_part r i) (LLM.context_part r' j) prompt
         /\ occurs_before (doc_content (document r))
                          (doc_content (document r')) prompt)
  /\ occurs_in
       "I don't have enough information in your documents to answer this question."
       prompt
  /\ (forall q' results',
         q' = q -> results' = results ->
         LLM.buildRagPrompt q' (LLM.format_context results') = prompt).
Proof.
  intros Hne context prompt.
  destruct (prompt_on_results q results Hne)
    as (Hprompt & Hblocks & Hadjacent & Horder & Hfallback & Hsame).
  assert (Hcontext : LLM.format_context results = context).
  { destruct results as [|r0 rest]; [congruence|reflexivity]. }
  split.
  { intros limit w w' Hsearch.
    pose proof (retrieveContext_formats svc q limit w w' results Hsearch)
      as Hctx.
    rewrite Hcontext in Hctx.
    split; [exact Hctx|].
    intros request front m Hm Hq Hrag Hlimit.
    rewrite (resolve_prompt_rag svc request front m w Hm Hrag).
    rewrite Hq, Hlimit, Hctx. unfold prompt. now rewrite Hcontext. }
  split; [unfold prompt; now rewrite Hcontext|].
  split; [exact Hprompt|].
  split; [exact Hblocks|].
  split; [exact Hadjacent|].
  split; [exact Horder|].
  split; [exact Hfallback|exact Hsame].
Qed.

End RetrievalClaims.

Section RetrievalSamples.

Import Js Effects Types.

Lemma C2_witness :
  messages (Sample.rag_request (Some 5%Z)) = ([] ++ [Sample.hello])%list
  /\ LLM.rag_enabled (Sample.rag_request (Some 5%Z)) = true
  /\ initialized fresh = false
  /\ observe Chroma.query_call
             (snd (LLM.resolve_prompt Sample.service
                                      (Sample.rag_request (Some 5%Z))
                                      fresh))
     = [("Hello!", 5%Z)].
Proof.
  split; [reflexivity|]. split; [reflexivity|]. split; [reflexivity|].
  exact (proj1 (proj2 (proj2 (proj2
           (C2_rag_limit_defaults_to_three
              Sample.service (Sample.rag_request (Some 5%Z))
              [] Sample.hello fresh eq_refl eq_refl))))).
Defined.

Lemma C5_witness :
  Sample.results <> []
  /\ fst (Chroma.search (LLM.chromaService Sample.service) "Hello!" 3 None
                        fresh)
     = Returned Sample.results
  /\ fst (LLM.resolve_prompt Sample.service (Sample.rag_request None) fresh)
     = Returned (LLM.buildRagPrompt "Hello!"
                                    (LLM.format_context Sample.results))
  /\ occurs_in
       "I don't have enough information in your documents to answer this question."
       (LLM.buildRagPrompt "Hello!" (LLM.format_context Sample.results)).
Proof.
  assert (H : Sample.results <> []) by (vm_compute; congruence).
  split; [exact H|]. split; [reflexivity|].
  pose proof (C5_prompt_contains_documents_and_fallback
                Sample.service "Hello!" Sample.results H) as T.
  cbv zeta in T.
  destruct T as (Hcode & _ & _ & _ & _ & _ & Hfallback & _).
  split; [|exact Hfallback].
  destruct (Hcode 3%Z fresh
                  (snd (Chroma.search (LLM.chromaService Sample.service)
                                      "Hello!" 3 None fresh))
                  eq_refl) as [_ Hprompt].
  now rewrite (Hprompt (Sample.rag_request None) [] Sample.hello
                       eq_refl eq_refl eq_refl eq_refl).
Defined.

End RetrievalSamples.

(* ================================================================== *)
(** ** The document operations *)

Section DocumentFacts.

Import Js Effects Types Documents.

Variables (svc : Chroma.ChromaService) (col : Collection).

Lemma rethrown {A : Type} (body : M A) (label failed : string) (w : World)
      (t : Thrown) :
  fst (try_catch body (rethrow_as label failed) w) = Threw t ->
  exists detail, t = ErrorObj (failed ++ ": " ++ detail).
Proof.
  unfold try_catch. destruct (body w) as [[a|e] w']; simpl; [discriminate|].
  intros H. injection H as <-. now exists (message_of e).
Qed.

Lemma caught {A : Type} (body : M A) (label failed : string) (w w' : World)
      (e : Thrown) :
  body w = (Threw e, w') ->
  try_catch body (rethrow_as label failed) w
  = (Threw (ErrorObj (failed ++ ": " ++ message_of e)),
     record (ConsoleError label e) w').
Proof. intros H. unfold try_catch. now rewrite H. Qed.

Lemma passed {A : Type} (body : M A) (handler : Thrown -> M A) (w w' : World)
      (a : A) :
  body w = (Returned a, w') -> try_catch body handler w = (Returned a, w').
Proof. intros H. unfold try_catch. now rewrite H. Qed.

Lemma bind_threw {A C : Type} (m : M A) (k : A -> M C) (w w' : World)
      (e : Thrown) :
  m w = (Threw e, w') -> bind m k w = (Threw e, w').
Proof. intros H. unfold bind. now rewrite H. Qed.

Lemma open_collection_cases (w : World) :
  open_collection svc w
  = match Chroma.ensureInitialized svc w with
    | (Threw t, w1) => (Threw t, w1)
    | (Returned _, w1) =>
        let w2 := record (StoreGetCollection (Chroma.collectionName svc)) w1 in
        match Chroma.getCollection (Chroma.client svc) with
        | Some t => (Threw t, w2)
        | None => (Returned tt, w2)
        end
    end.
Proof.
  unfold open_collection, bind.
  destruct (Chroma.ensureInitialized svc w) as [[[]|t] w1]; [|reflexivity].
  unfold emit, attempt.
  now destruct (Chroma.getCollection (Chroma.client svc)).
Qed.

(** Every operation of the service that throws, throws an error whose
    message is the operation's own failure text, a colon and the detail. *)
Theorem store_operations_throw_their_own_errors (w : World) (t : Thrown) :
  (forall q limit filter,
      fst (Chroma.search svc q limit filter w) = Threw t ->
      exists detail, t = ErrorObj ("Search failed: " ++ detail))
  /\ (forall id,
         fst (getDocument svc col id w) = Threw t ->
         exists detail, t = ErrorObj ("Failed to get document: " ++ detail))
  /\ (forall limit offset,
         fst (listDocuments svc col limit offset w) = Threw t ->
         exists detail, t = ErrorObj ("Failed to list documents: " ++ detail))
  /\ (forall documents,
         fst (addDocuments svc col documents w) = Threw t ->
         exists detail, t = ErrorObj ("Failed to add documents: " ++ detail))
  /\ (forall id content metadata,
         fst (updateDocument svc col id content metadata w) = Threw t ->
         exists detail,
           t = ErrorObj ("Failed to update document: " ++ detail))
  /\ (forall id,
         fst (deleteDocument svc col id w) = Threw t ->
         exists detail,
           t = ErrorObj ("Failed to delete document: " ++ detail))
  /\ (forall ids,
         fst (deleteDocuments svc col ids w) = Threw t ->
         exists detail,
           t = ErrorObj ("Failed to delete documents: " ++ detail))
  /\ (fst (getCollectionStats svc col w) = Threw t ->
      exists detail,
        t = ErrorObj ("Failed to get collection stats: " ++ detail))
  /\ (fst (clearCollection svc col w) = Threw t ->
      exists detail,
        t = ErrorObj ("Failed to clear collection: " ++ detail)).
Proof.
  split.
  { intros q limit filter H. rewrite search_cases in H. cbv zeta in H.
    destruct (Chroma.ensureInitialized svc w) as [[[]|e] w1].
    - destruct (Chroma.getCollection (Chroma.client svc)) as [e|].
      + injection H as <-. now eexists.
      + destruct (Chroma.query (Chroma.client svc) q limit
                               (Chroma.where_clause filter)) as [e|answer];
          [|discriminate].
        injection H as <-. now eexists.
    - injection H as <-. now eexists. }
  split; [intros id H;
          exact (rethrown _ _ GET_DOCUMENT_FAILED w t H)|].
  split; [intros limit offset H;
          exact (rethrown _ _ LIST_DOCUMENTS_FAILED w t H)|].
  split; [intros documents H;
          exact (rethrown _ _ ADD_DOCUMENTS_FAILED w t H)|].
  split; [intros id content metadata H;
          exact (rethrown _ _ UPDATE_DOCUMENT_FAILED w t H)|].
  split; [intros id H;
          exact (rethrown _ _ DELETE_DOCUMENT_FAILED w t H)|].
  split; [intros ids H;
          exact (rethrown _ _ DELETE_DOCUMENTS_FAILED w t H)|].
  split; [intros H; exact (rethrown _ _ GET_STATS_FAILED w t H)|].
  intros H. exact (rethrown _ _ CLEAR_COLLECTION_FAILED w t H).
Qed.

(** The three outcomes of [getDocument]. *)
Lemma getDocument_outcome (id : string) (w : World) :
  match fst (getDocument svc col id w) with
  | Returned (Some d) =>
      doc_id d = id
      /\ truthy_string (doc_content d) = true
      /\ exists answer rest,
           get_by_ids col [id] = inr answer
           /\ got_documents answer = Some (Some (doc_content d) :: rest)
           /\ doc_metadata d = metadata_at (got_metadatas answer) 0
  | Returned None =>
      exists answer,
        get_by_ids col [id] = inr answer
        /\ present (firstn 1 match got_documents answer with
                             | Some docs => docs
                             | None => []
                             end) = []
  | Threw t => exists detail, t = ErrorObj ("Failed to get document: " ++ detail)
  end.
Proof.
  destruct (fst (getDocument svc col id w)) as [[d|]|t] eqn:H;
    [| |exact (rethrown _ _ GET_DOCUMENT_FAILED w t H)];
    unfold getDocument, try_catch, bind in H;
    rewrite open_collection_cases in H;
    (destruct (Chroma.ensureInitialized svc w) as [[[]|e] w1];
     [|discriminate]);
    cbv zeta in H;
    (destruct (Chroma.getCollection (Chroma.client svc)); [discriminate|]);
    unfold of_sum in H;
    (destruct (get_by_ids col [id]) as [e|answer]; [discriminate|]);
    unfold ret in H;
    destruct (got_documents answer) as [[|[c|] rest]|] eqn:Hdocs;
    try destruct (truthy_string c) eqn:Hc; simpl in H; try discriminate.
  all: try (exists answer; split; [reflexivity|];
            rewrite Hdocs; simpl; rewrite ?Hc; reflexivity).
  injection H as <-. simpl. repeat split; try assumption.
  now exists answer, rest.
Qed.

(** [getDocument] step by step. *)
Lemma getDocument_cases (id : string) (w : World) :
  getDocument svc col id w
  = let failed (t : Thrown) (w' : World)
        : Outcome (option VectorDocument) * World :=
      (Threw (ErrorObj ("Failed to get document: " ++ message_of t)),
       record (ConsoleError "Failed to get document:" t) w') in
    match Chroma.ensureInitialized svc w with
    | (Threw t, w1) => failed t w1
    | (Returned _, w1) =>
        let w2 := record (StoreGetCollection (Chroma.collectionName svc)) w1 in
        match Chroma.getCollection (Chroma.client svc) with
        | Some t => failed t w2
        | None =>
            match get_by_ids col [id] with
            | inl t => failed t w2
            | inr answer =>
                (Returned
                   match got_documents answer with
                   | Some (Some c :: _) =>
                       if truthy_string c
                       then Some {| doc_id := id;
                                    doc_content := c;
                                    doc_metadata :=
                                      metadata_at (got_metadatas answer) 0 |}
                       else None
                   | _ => None
                   end,
                 w2)
            end
        end
    end.
Proof.
  unfold getDocument, try_catch, bind. rewrite open_collection_cases.
  destruct (Chroma.ensureInitialized svc w) as [[[]|t] w1]; [|reflexivity].
  cbv zeta.
  destruct (Chroma.getCollection (Chroma.client svc)) as [t|];
    [reflexivity|].
  unfold of_sum.
  destruct (get_by_ids col [id]) as [t|answer]; [reflexivity|].
  unfold ret.
  destruct (got_documents answer) as [[|[c|] rest]|]; try reflexivity.
  now destruct (truthy_string c).
Qed.

(** [getDocument] is decided by the store.  When the collection can be
    opened and the store answers the lookup of the id, it returns the first
    document of the answer under the id it was asked for, whatever ids the
    store reports, with the first metadata of the answer; it returns [null]
    when the answer has no documents or the first one is [null] or empty.
    When getting ready, opening the collection or the lookup fails, it
    throws [Failed to get document: <detail>].  Conversely a document that
    is returned has the requested id and a non-empty content and is the
    first of the store's answer. *)
Theorem getDocument_answers_with_the_requested_id (id : string) (w : World) :
  (forall w1 answer,
      Chroma.ensureInitialized svc w = (Returned tt, w1) ->
      Chroma.getCollection (Chroma.client svc) = None ->
      get_by_ids col [id] = inr answer ->
      getDocument svc col id w
      = (Returned
           match got_documents answer with
           | Some (Some c :: _) =>
               if truthy_string c
               then Some {| doc_id := id;
                            doc_content := c;
                            doc_metadata :=
                              metadata_at (got_metadatas answer) 0 |}
               else None
           | _ => None
           end,
         record (StoreGetCollection (Chroma.collectionName svc)) w1))
  /\ (forall w1 e,
         Chroma.ensureInitialized svc w = (Returned tt, w1) ->
         Chroma.getCollection (Chroma.client svc) = None ->
         get_by_ids col [id] = inl e ->
         fst (getDocument svc col id w)
         = Threw (ErrorObj ("Failed to get document: " ++ message_of e)))
  /\ (forall w1 e,
         Chroma.ensureInitialized svc w = (Returned tt, w1) ->
         Chroma.getCollection (Chroma.client svc) = Some e ->
         fst (getDocument svc col id w)
         = Threw (ErrorObj ("Failed to get document: " ++ message_of e)))
  /\ (forall w1 e,
         Chroma.ensureInitialized svc w = (Threw e, w1) ->
         fst (getDocument svc col id w)
         = Threw (ErrorObj ("Failed to get document: " ++ message_of e)))
  /\ match fst (getDocument svc col id w) with
     | Returned (Some d) =>
         doc_id d = id
         /\ truthy_string (doc_content d) = true
         /\ exists answer rest,
              get_by_ids col [id] = inr answer
              /\ got_documents answer = Some (Some (doc_content d) :: rest)
              /\ doc_metadata d = metadata_at (got_metadatas answer) 0
     | Returned None =>
         exists answer,
           get_by_ids col [id] = inr answer
           /\ present (firstn 1 match got_documents answer with
                                | Some docs => docs
                                | None => []
                                end) = []
     | Threw t =>
         exists detail, t = ErrorObj ("Failed to get document: " ++ detail)
     end.
Proof.
  split; [|split; [|split; [|split]]].
  - intros w1 answer Hinit Hget Hanswer.
    rewrite getDocument_cases, Hinit. cbv zeta. now rewrite Hget, Hanswer.
  - intros w1 e Hinit Hget Hanswer.
    rewrite getDocument_cases, Hinit. cbv zeta. now rewrite Hget, Hanswer.
  - intros w1 e Hinit Hget.
    rewrite getDocument_cases, Hinit. cbv zeta. now rewrite Hget.
  - intros w1 e Hinit. rewrite getDocument_cases, Hinit. reflexivity.
  - apply getDocument_outcome.
Qed.

(** A listing that returns carries the documents with a non-empty text, in
    the order of the store; each takes its id and its metadata from the
    position of its text in the answer, the id falling back to
    [unknown_<position>] and the metadata to the empty object. *)
Theorem listDocuments_returns_the_nonempty_documents
        (limit offset : Z) (w : World) (listed : list VectorDocument) :
  fst (listDocuments svc col limit offset w) = Returned listed ->
  exists answer,
    get_page col limit offset = inr answer
    /\ (got_documents answer = None -> listed = [])
    /\ (forall row,
           got_documents answer = Some row ->
           map doc_content listed = present row
           /\ (List.length listed <= List.length row)%nat
           /\ forall d,
                In d listed
                <-> exists i s,
                      nth_error row i = Some (Some s)
                      /\ truthy_string s = true
                      /\ d = {| doc_id :=
                                  or_string (nth_error (got_ids answer) i)
                                            ("unknown_" ++ index_to_string i);
                                doc_content := s;
                                doc_metadata :=
                                  metadata_at (got_metadatas answer) i |}).
Proof.
  intros H. unfold listDocuments, try_catch, bind in H.
  rewrite open_collection_cases in H.
  destruct (Chroma.ensureInitialized svc w) as [[[]|e] w1]; [|discriminate].
  cbv zeta in H.
  destruct (Chroma.getCollection (Chroma.client svc)); [discriminate|].
  unfold of_sum in H.
  destruct (get_page col limit offset) as [e|answer]; [discriminate|].
  simpl in H. injection H as <-.
  exists answer. split; [reflexivity|].
  unfold documents_of, mapi.
  split; [now intros ->|].
  intros row ->.
  set (g := fun s i =>
              {| doc_id := or_string (nth_error (got_ids answer) i)
                                     ("unknown_" ++ index_to_string i);
                 doc_content := s;
                 doc_metadata := metadata_at (got_metadatas answer) i |}).
  assert (E : map doc_content
                  (Chroma.drop_null (mapi_from (to_document answer) 0 row))
              = present row).
  { apply kept_texts with (g := g); reflexivity. }
  split; [exact E|].
  split.
  - rewrite <- (length_map doc_content), E. apply present_length.
  - intros d.
    apply (kept_positions (to_document answer) g). reflexivity.
Qed.

Lemma deleteDocument_throws (id : string) (w : World) (t : Thrown) :
  fst (deleteDocument svc col id w) = Threw t ->
  exists detail, t = ErrorObj ("Failed to delete document: " ++ detail).
Proof. exact (rethrown _ _ DELETE_DOCUMENT_FAILED w t). Qed.

Lemma lookup_with_key_same (m : Metadata) (key value : string) :
  lookup (with_key m key value) key = Some value.
Proof.
  induction m as [|[k v] m IH]; simpl.
  - now rewrite String.eqb_refl.
  - destruct (String.eqb k key) eqn:E; simpl; rewrite E; auto.
Qed.

Lemma lookup_with_key_other (m : Metadata) (key value other : string) :
  other <> key ->
  lookup (with_key m key value) other = lookup m other.
Proof.
  intros Hne. induction m as [|[k v] m IH]; simpl.
  - destruct (String.eqb_spec key other); [congruence|reflexivity].
  - destruct (String.eqb_spec k key) as [->|Hk]; simpl.
    + destruct (String.eqb_spec key other); [congruence|reflexivity].
    + destruct (String.eqb k other); [reflexivity|exact IH].
Qed.

(** [addDocument] that returns has stored one document under the id
    [doc_<milliseconds>_<random suffix>] it returns, with the caller's
    content; its metadata is the caller's with [timestamp] set to the
    current time, also when the caller supplied a [timestamp] of its own. *)
Theorem addDocument_stamps_the_document
        (rt : Runtime) (content : string) (metadata : Metadata) (w : World)
        (id : string) :
  fst (addDocument rt svc col content metadata w) = Returned id ->
  exists stored,
    id = "doc_" ++ num_to_string (now rt (clock_reads w)) ++ "_"
                ++ random_suffix rt
    /\ add col [id] [stored] [content] = None
    /\ lookup stored "timestamp"
       = Some (toISOString rt (now rt (S (clock_reads w))))
    /\ (forall key, key <> "timestamp" -> lookup stored key = lookup metadata key).
Proof.
  intros H.
  exists (with_key metadata "timestamp"
                   (toISOString rt (now rt (S (clock_reads w))))).
  unfold addDocument, iso_now, bind, date_now, ret in H.
  cbv beta iota zeta in H. simpl clock_reads in H.
  unfold addDocuments, try_catch, bind in H. cbv beta in H.
  rewrite open_collection_cases in H.
  match type of H with
  | context [Chroma.ensureInitialized svc ?w0] =>
      destruct (Chroma.ensureInitialized svc w0) as [[[]|e] w1];
        [|discriminate]
  end.
  cbv zeta in H.
  destruct (Chroma.getCollection (Chroma.client svc)); [discriminate|].
  unfold attempt in H. simpl map in H.
  destruct (add col _ _ _) as [e|] eqn:Hadd; [discriminate|].
  simpl in H. injection H as <-.
  split; [reflexivity|].
  split; [exact Hadd|].
  split; [apply lookup_with_key_same|].
  intros key Hkey. now apply lookup_with_key_other.
Qed.

End DocumentFacts.

Section ClearFacts.

Import Js Effects Types Documents.

Variables (svc : Chroma.ChromaService) (col : Collection).

Lemma search_sets_up_when_unready (q : string) (limit : Z)
      (filter : option Metadata) (w : World) :
  initialized w = false ->
  exists rest,
    observe setup_call (snd (Chroma.search svc q limit filter w))
    = (observe setup_call w ++ StoreHeartbeat :: rest)%list.
Proof.
  intros Hflag. rewrite search_cases, ensureInitialized_cases, Hflag.
  destruct (initialize_begins_with_heartbeat svc w) as [rest Hrest].
  destruct (Chroma.initialize svc w) as [[[]|t] w2]; simpl in Hrest.
  - cbv zeta.
    destruct (Chroma.getCollection (Chroma.client svc)) as [t|];
      [|destruct (Chroma.query (Chroma.client svc) q limit
                               (Chroma.where_clause filter)) as [t|answer]];
      simpl snd; rewrite ?observe_record; simpl; rewrite ?app_nil_r;
      exists rest; exact Hrest.
  - cbv zeta. simpl snd. rewrite observe_record. simpl. rewrite app_nil_r.
    exists rest. exact Hrest.
Qed.

Lemma clearCollection_cases (w : World) :
  clearCollection svc col w
  = let failed (t : Thrown) (w' : World) : Outcome unit * World :=
      (Threw (ErrorObj ("Failed to clear collection: " ++ message_of t)),
       record (ConsoleError "Failed to clear collection:" t) w') in
    match Chroma.ensureInitialized svc w with
    | (Threw t, w1) => failed t w1
    | (Returned _, w1) =>
        match deleteCollection col with
        | Some t => failed t w1
        | None =>
            let w2 :=
              record (StoreCreateCollection (Chroma.collectionName svc))
                     (record (ConsoleLog ("Cleared collection: "
                                            ++ Chroma.collectionName svc))
                             w1) in
            match Chroma.createCollection (Chroma.client svc) with
            | Some t => failed t w2
            | None => (Returned tt,
                       {| initialized := false;
                          clock_reads := clock_reads w2;
                          trace := trace w2 |})
            end
        end
    end.
Proof.
  unfold clearCollection, try_catch, bind.
  destruct (Chroma.ensureInitialized svc w) as [[[]|t] w1]; [|reflexivity].
  unfold attempt at 1.
  destruct (deleteCollection col) as [t|]; [reflexivity|].
  unfold ret at 1. unfold emit at 1. unfold emit at 1. unfold attempt.
  destruct (Chroma.createCollection (Chroma.client svc)) as [t|];
    reflexivity.
Qed.

(** After [clearCollection] has returned, the service is marked
    uninitialised: the next search starts with a heartbeat and sets the
    connection up again. *)
Theorem clearCollection_forces_a_new_initialization (w : World) :
  fst (clearCollection svc col w) = Returned tt ->
  deleteCollection col = None
  /\ Chroma.createCollection (Chroma.client svc) = None
  /\ initialized (snd (clearCollection svc col w)) = false
  /\ forall q limit filter,
       exists rest,
         observe setup_call
                 (snd (Chroma.search svc q limit filter
                                     (snd (clearCollection svc col w))))
         = (observe setup_call (snd (clearCollection svc col w))
              ++ StoreHeartbeat :: rest)%list.
Proof.
  intros H.
  assert (Hall : deleteCollection col = None
                 /\ Chroma.createCollection (Chroma.client svc) = None
                 /\ initialized (snd (clearCollection svc col w)) = false).
  { rewrite clearCollection_cases in *. cbv zeta in *.
    destruct (Chroma.ensureInitialized svc w) as [[[]|t] w1];
      [|discriminate].
    destruct (deleteCollection col); [discriminate|].
    destruct (Chroma.createCollection (Chroma.client svc)); [discriminate|].
    now repeat split. }
  destruct Hall as (Hd & Hc & Hflag).
  repeat split; try assumption.
  intros q limit filter. now apply search_sets_up_when_unready.
Qed.

(** When [clearCollection] has deleted the collection and creating it anew
    fails, the error is thrown as [Failed to clear collection: <detail>],
    but the service stays marked initialised: later searches do not set the
    connection up again, so nothing recreates the collection. *)
Theorem clearCollection_failure_leaves_the_service_initialised
        (w : World) (e : Thrown) :
  initialized w = true ->
  deleteCollection col = None ->
  Chroma.createCollection (Chroma.client svc) = Some e ->
  fst (clearCollection svc col w)
  = Threw (ErrorObj ("Failed to clear collection: " ++ message_of e))
  /\ initialized (snd (clearCollection svc col w)) = true
  /\ forall q limit filter,
       observe setup_call
               (snd (Chroma.search svc q limit filter
                                   (snd (clearCollection svc col w))))
       = observe setup_call (snd (clearCollection svc col w)).
Proof.
  intros Hready Hd Hc.
  assert (Hflag : initialized (snd (clearCollection svc col w)) = true).
  { rewrite clearCollection_cases, (ensureInitialized_ready svc w Hready).
    cbv zeta. rewrite Hd, Hc. exact Hready. }
  split.
  { rewrite clearCollection_cases, (ensureInitialized_ready svc w Hready).
    cbv zeta. now rewrite Hd, Hc. }
  split; [exact Hflag|].
  intros q limit filter.
  exact (proj1 (search_when_ready svc q limit filter _ Hflag)).
Qed.

End ClearFacts.

(* ================================================================== *)
(** ** The routes *)

Section RouteFacts.

Import Js Effects Types.

Variables (rt : Documents.Runtime) (svc : Chroma.ChromaService)
          (col : Documents.Collection).

Lemma errorHandler_replies (error : Errors.AppError) (w : World) :
  Api.errorHandler rt error w
  = (Returned
       {| Api.status := or_num (Errors.statusCode error) 500;
          Api.body :=
            Api.ErrorBody (Errors.message error)
                          (or_string (Errors.code error) "INTERNAL_ERROR")
                          (Errors.details error)
                          (Documents.toISOString
                             rt (Documents.now rt (clock_reads w))) |},
     tick w).
Proof. reflexivity. Qed.

(** A served route answers the errors of the services with status 500 and
    the code [INTERNAL_ERROR], passing the message on. *)
Lemma serve_service_error (handler : M (Api.Reply + Errors.AppError))
      (w w' : World) (m : string) :
  handler w = (Threw (ErrorObj m), w') ->
  Api.serve rt handler w
  = (Returned
       {| Api.status := 500;
          Api.body :=
            Api.ErrorBody (Some m) "INTERNAL_ERROR" None
                          (Documents.toISOString
                             rt (Documents.now rt (clock_reads w'))) |},
     tick (record (RequestLogError (ErrorObj m)) w')).
Proof. intros H. unfold Api.serve. rewrite H. reflexivity. Qed.

(** [GET /api/documents/:id] always answers: with 200 and the document when
    the store has it, with 404 and [DOCUMENT_NOT_FOUND] when it has not, and
    with 500 and [INTERNAL_ERROR] when the lookup fails. *)
Theorem get_document_answers_200_404_or_500 (id : string) (w : World) :
  exists r w',
    Api.get_document rt svc col id w = (Returned r, w')
    /\ match fst (Documents.getDocument svc col id w) with
       | Returned (Some d) =>
           r = {| Api.status := 200;
                  Api.body := Api.DocumentBody (Api.mapToResponse d) |}
           /\ Api.res_id (Api.mapToResponse d) = id
       | Returned None =>
           Api.status r = 404%Z
           /\ exists stamp,
                Api.body r
                = Api.ErrorBody
                    (Some ("Document with id " ++ id ++ " not found"))
                    "DOCUMENT_NOT_FOUND" None stamp
       | Threw t =>
           Api.status r = 500%Z
           /\ exists detail stamp,
                Api.body r
                = Api.ErrorBody (Some ("Failed to get document: " ++ detail))
                                "INTERNAL_ERROR" None stamp
       end.
Proof.
  pose proof (getDocument_outcome svc col id w) as Hid.
  unfold Api.get_document, Api.serve, bind.
  destruct (Documents.getDocument svc col id w) as [[[d|]|t] w1];
    simpl fst in *.
  - eexists. eexists. split; [reflexivity|].
    split; [reflexivity|]. apply Hid.
  - eexists. eexists. split; [reflexivity|].
    split; [reflexivity|]. eexists. reflexivity.
  - destruct Hid as [detail ->].
    eexists. eexists. split; [reflexivity|].
    split; [reflexivity|]. eexists. eexists. reflexivity.
Qed.

(** Whatever [deleteDocument] meets, it leaves at least one event behind,
    and that event is not an entry of the request log. *)
Lemma deleteDocument_leaves_a_trace (id : string) (w : World) :
  exists e rest,
    trace (snd (Documents.deleteDocument svc col id w))
    = (trace w ++ e :: rest)%list
    /\ forall t, e <> RequestLogError t.
Proof.
  unfold Documents.deleteDocument, try_catch, bind.
  rewrite open_collection_cases, ensureInitialized_cases.
  destruct (initialize_begins_with_an_event svc w) as (rest0 & Hrest).
  destruct (initialized w);
    [|destruct (Chroma.initialize svc w) as [[[]|t0] w1]; simpl in Hrest];
    cbv zeta;
    try (destruct (Chroma.getCollection (Chroma.client svc)) as [t1|];
         [|unfold attempt; destruct (Documents.delete col [id]) as [t2|]]);
    unfold Documents.rethrow_as, bind, emit, throw, ret; simpl;
    rewrite ?Hrest, <- ?app_assoc; simpl;
    (do 2 eexists; split; [reflexivity|intros t; discriminate]).
Qed.

(** [DELETE /api/documents/:id] looks the document up first.  For a
    document the store does not have it answers 404 and does nothing else:
    the world it leaves is the world after the lookup, with the error on
    the request log and the clock read for the time stamp, and not the
    world a call of [deleteDocument] would have led to.  For a document the store has, it
    runs [deleteDocument] and answers 204 when that succeeds and 500 with
    the deletion's error when it fails; when the lookup fails it answers
    500 with the lookup's error. *)
Theorem delete_document_checks_existence_first (id : string) (w : World) :
  exists r w',
    Api.delete_document rt svc col id w = (Returned r, w')
    /\ match Documents.getDocument svc col id w with
       | (Returned (Some d), w1) =>
           match Documents.deleteDocument svc col id w1 with
           | (Returned _, w2) =>
               r = {| Api.status := 204; Api.body := Api.NoBody |}
               /\ w' = w2
           | (Threw t, w2) =>
               Api.status r = 500%Z
               /\ (exists detail stamp,
                      Api.body r
                      = Api.ErrorBody
                          (Some ("Failed to delete document: " ++ detail))
                          "INTERNAL_ERROR" None stamp)
               /\ w' = tick (record (RequestLogError t) w2)
           end
       | (Returned None, w1) =>
           Api.status r = 404%Z
           /\ (exists stamp,
                  Api.body r
                  = Api.ErrorBody
                      (Some ("Document with id " ++ id ++ " not found"))
                      "DOCUMENT_NOT_FOUND" None stamp)
           /\ w' = tick (record
                           (RequestLogError
                              (ErrorObj ("Document with id " ++ id
                                           ++ " not found")))
                           w1)
           /\ trace w'
              = (trace w1
                   ++ [RequestLogError
                         (ErrorObj ("Document with id " ++ id
                                      ++ " not found"))])%list
           /\ initialized w' = initialized w1
           /\ w' <> tick (record
                            (RequestLogError
                               (ErrorObj ("Document with id " ++ id
                                            ++ " not found")))
                            (snd (Documents.deleteDocument svc col id w1)))
       | (Threw t, w1) =>
           Api.status r = 500%Z
           /\ (exists detail stamp,
                  Api.body r
                  = Api.ErrorBody (Some ("Failed to get document: " ++ detail))
                                  "INTERNAL_ERROR" None stamp)
           /\ w' = tick (record (RequestLogError t) w1)
       end.
Proof.
  pose proof (getDocument_outcome svc col id w) as Hid.
  unfold Api.delete_document, Api.serve, bind.
  destruct (Documents.getDocument svc col id w) as [[[d|]|t] w1];
    simpl fst in *.
  - pose proof (deleteDocument_throws svc col id w1) as Hdel.
    destruct (Documents.deleteDocument svc col id w1) as [[[]|t] w2];
      simpl fst in *.
    + eexists. eexists. split; [reflexivity|]. split; reflexivity.
    + destruct (Hdel t eq_refl) as [detail ->].
      eexists. eexists. split; [reflexivity|].
      split; [reflexivity|]. split; [|reflexivity].
      eexists. eexists. reflexivity.
  - eexists. eexists. split; [reflexivity|].
    split; [reflexivity|]. split; [eexists; reflexivity|].
    split; [reflexivity|]. split; [reflexivity|]. split; [reflexivity|].
    intros E. apply (f_equal trace) in E. simpl in E.
    destruct (deleteDocument_leaves_a_trace id w1) as (e & rest & Hrest & He).
    rewrite Hrest, <- app_assoc in E. apply app_inv_head in E.
    simpl in E. injection E as E _. symmetry in E. exact (He _ E).
  - destruct Hid as [detail ->].
    eexists. eexists. split; [reflexivity|].
    split; [reflexivity|]. split; [|reflexivity].
    eexists. eexists. reflexivity.
Qed.

End RouteFacts.

Section MoreRouteFacts.

Import Js Effects Types.

Variables (rt : Documents.Runtime) (svc : Chroma.ChromaService)
          (col : Documents.Collection).

Lemma store_healthCheck_cases (w : World) :
  Documents.healthCheck svc w
  = match Chroma.heartbeat (Chroma.client svc) with
    | None => (Returned true, record StoreHeartbeat w)
    | Some e =>
        (Returned false,
         record (ConsoleError "ChromaDB health check failed:" e)
                (record StoreHeartbeat w))
    end.
Proof.
  unfold Documents.healthCheck, try_catch, bind, emit, attempt.
  now destruct (Chroma.heartbeat (Chroma.client svc)).
Qed.

(** [GET /api/documents/health] answers 200 when the heartbeat of the store
    succeeds; when it fails the handler throws a service error, which is
    answered with 500 and the code [CHROMADB_HEALTH_CHECK_ERROR].  The
    probe neither needs nor changes the initialisation of the service. *)
Theorem documents_health_answers_200_or_500 (w : World) :
  exists r w',
    Api.documents_health rt svc w = (Returned r, w')
    /\ initialized w' = initialized w
    /\ match Chroma.heartbeat (Chroma.client svc) with
       | None =>
           Api.status r = 200%Z
           /\ exists stamp,
                Api.body r = Api.HealthBody "healthy" stamp "chromadb" None
       | Some _ =>
           Api.status r = 500%Z
           /\ exists stamp,
                Api.body r
                = Api.ErrorBody (Some "ChromaDB health check failed")
                                "CHROMADB_HEALTH_CHECK_ERROR" None stamp
       end.
Proof.
  unfold Api.documents_health, Api.serve, bind.
  rewrite store_healthCheck_cases.
  destruct (Chroma.heartbeat (Chroma.client svc)) as [e|];
    eexists; eexists; (split; [reflexivity|]);
    (split; [reflexivity|]); (split; [reflexivity|]);
    eexists; reflexivity.
Qed.

Lemma llm_healthCheck_cases (invoke : Generation.Invoker)
      (llm : LLM.LLMService) (w : World) :
  Generation.healthCheck invoke llm w
  = match invoke [Generation.SystemMessage
                    (Agent.systemPrompt (LLM.agent llm));
                  Generation.HumanMessage "Hello"] with
    | inr _ => (Returned true, w)
    | inl e =>
        let wrapped := ErrorObj ("DeepSeek API error: " ++ message_of e) in
        (Returned false,
         extend [ConsoleError "Error in DeepSeek agent chat:" e;
                 ConsoleError "LLM health check failed:" wrapped] w)
    end.
Proof.
  unfold Generation.healthCheck, Generation.generate, Generation.chat,
    try_catch, bind, of_sum.
  destruct (invoke _) as [e|text]; [|reflexivity].
  unfold throw, emit. cbv beta iota zeta.
  rewrite !record_extend. f_equal. now rewrite extend_extend.
Qed.

(** [GET /api/chat/health] never fails: it sends the system prompt and the
    message [Hello] to the model and answers 200 [healthy] when the model
    answers, and 503 [unhealthy] with a fixed error text when the call
    fails, whatever the failure was. *)
Theorem chat_health_answers_200_or_503
        (invoke : Generation.Invoker) (llm : LLM.LLMService) (w : World) :
  exists r w',
    Api.chat_health rt invoke llm w = (Returned r, w')
    /\ match invoke [Generation.SystemMessage
                       (Agent.systemPrompt (LLM.agent llm));
                     Generation.HumanMessage "Hello"] with
       | inr _ =>
           Api.status r = 200%Z
           /\ exists stamp,
                Api.body r = Api.HealthBody "healthy" stamp "llm" None
       | inl _ =>
           Api.status r = 503%Z
           /\ exists stamp,
                Api.body r
                = Api.HealthBody "unhealthy" stamp "llm"
                                 (Some "LLM service health check failed")
       end.
Proof.
  unfold Api.chat_health, Api.serve, bind.
  rewrite llm_healthCheck_cases.
  destruct (invoke _) as [e|text];
    eexists; eexists; (split; [reflexivity|]);
    (split; [reflexivity|]); eexists; reflexivity.
Qed.

(** The handler of [POST /api/documents/search] on a ready collection, for
    any limit it may be called with. *)
Lemma search_documents_cases (q : string) (limit : option Z)
      (filter : option Metadata) (w : World) :
  initialized w = true ->
  Chroma.getCollection (Chroma.client svc) = None ->
  let asked := or_num limit 5 in
  exists r w',
    Api.search_documents rt svc q limit filter w = (Returned r, w')
    /\ observe Chroma.query_call w'
       = (observe Chroma.query_call w ++ [(q, asked)])%list
    /\ match Chroma.query (Chroma.client svc) q asked
                          (Chroma.where_clause filter) with
       | inr answer =>
           r = {| Api.status := 200;
                  Api.body :=
                    Api.SearchBody
                      (map (fun x => (Api.mapToResponse (document x),
                                      score x))
                           (Chroma.results_of answer))
                      q
                      (Z.of_nat (List.length (Chroma.results_of answer))) |}
       | inl e =>
           Api.status r = 500%Z
           /\ exists stamp,
                Api.body r
                = Api.ErrorBody (Some ("Search failed: " ++ message_of e))
                                "INTERNAL_ERROR" None stamp
       end.
Proof.
  intros Hready Hget asked.
  unfold Api.search_documents, Api.serve, bind.
  fold asked.
  rewrite search_cases, (ensureInitialized_ready svc w Hready), Hget.
  cbv zeta.
  destruct (Chroma.query (Chroma.client svc) q asked
                         (Chroma.where_clause filter)) as [e|answer];
    eexists; eexists; (split; [reflexivity|]); split.
  - unfold observe. simpl trace. rewrite !flat_map_app. simpl.
    now rewrite !app_nil_r.
  - split; [reflexivity|]. eexists. reflexivity.
  - unfold observe. simpl trace. rewrite !flat_map_app. simpl.
    now rewrite !app_nil_r.
  - reflexivity.
Qed.

(** [POST /api/documents/search], for a body its schema admits (a limit
    from 1 to 100, or none) and on a ready collection, asks the store once,
    for the limit of the body, or for 5 when the body has none: the handler
    gives the same answer whether or not the default of the schema has been
    filled in.  It answers 200 with one entry per search result, in order,
    [total] being their number, or 500 with the [Search failed] error. *)
Theorem search_route_defaults_to_five
        (q : string) (limit : option Z) (filter : option Metadata)
        (w : World) :
  Api.DocumentSearchSchema q limit = true ->
  initialized w = true ->
  Chroma.getCollection (Chroma.client svc) = None ->
  let asked := match limit with
               | Some n => n
               | None => 5%Z
               end in
  (1 <= asked <= 100)%Z
  /\ Api.search_documents rt svc q (Some asked) filter w
     = Api.search_documents rt svc q limit filter w
  /\ exists r w',
       Api.search_documents rt svc q limit filter w = (Returned r, w')
       /\ observe Chroma.query_call w'
          = (observe Chroma.query_call w ++ [(q, asked)])%list
       /\ match Chroma.query (Chroma.client svc) q asked
                             (Chroma.where_clause filter) with
          | inr answer =>
              r = {| Api.status := 200;
                     Api.body :=
                       Api.SearchBody
                         (map (fun x => (Api.mapToResponse (document x),
                                         score x))
                              (Chroma.results_of answer))
                         q
                         (Z.of_nat
                            (List.length (Chroma.results_of answer))) |}
          | inl e =>
              Api.status r = 500%Z
              /\ exists stamp,
                   Api.body r
                   = Api.ErrorBody (Some ("Search failed: " ++ message_of e))
                                   "INTERNAL_ERROR" None stamp
          end.
Proof.
  intros Hschema Hready Hget asked.
  assert (Hrange : (1 <= asked <= 100)%Z).
  { unfold Api.DocumentSearchSchema in Hschema.
    apply andb_prop in Hschema as [_ Hlimit]. unfold asked.
    destruct limit as [n|]; [|lia].
    apply andb_prop in Hlimit as [H1 H2]. lia. }
  assert (Hasked : or_num limit 5 = asked).
  { unfold or_num, asked. destruct limit as [n|]; [|reflexivity].
    destruct (Z.eqb_spec n 0); [simpl in Hrange; lia|reflexivity]. }
  assert (Hfilled : or_num (Some asked) 5 = asked).
  { unfold or_num. destruct (Z.eqb_spec asked 0); [lia|reflexivity]. }
  split; [exact Hrange|].
  split.
  { unfold Api.search_documents. now rewrite Hasked, Hfilled. }
  pose proof (search_documents_cases q limit filter w Hready Hget) as H.
  cbv zeta in H. rewrite Hasked in H. exact H.
Qed.

Lemma getCollectionStats_cases (w : World) :
  initialized w = true ->
  Chroma.getCollection (Chroma.client svc) = None ->
  Documents.getCollectionStats svc col w
  = let w1 := record (StoreGetCollection (Chroma.collectionName svc)) w in
    match Documents.count col with
    | inr n =>
        (Returned
           {| Documents.stats_name := Chroma.collectionName svc;
              Documents.stats_count := n;
              Documents.stats_metadata :=
                match Documents.collection_metadata col with
                | Some m => m
                | None => []
                end |}, w1)
    | inl e =>
        (Threw (ErrorObj ("Failed to get collection stats: "
                            ++ message_of e)),
         record (ConsoleError "Failed to get collection stats:" e) w1)
    end.
Proof.
  intros Hready Hget.
  unfold Documents.getCollectionStats, try_catch, bind.
  rewrite open_collection_cases, (ensureInitialized_ready svc w Hready), Hget.
  cbv zeta. unfold of_sum.
  now destruct (Documents.count col).
Qed.

Lemma listDocuments_cases (limit offset : Z) (w : World) :
  initialized w = true ->
  Chroma.getCollection (Chroma.client svc) = None ->
  Documents.listDocuments svc col limit offset w
  = let w1 := record (StoreGetCollection (Chroma.collectionName svc)) w in
    match Documents.get_page col limit offset with
    | inr answer => (Returned (Documents.documents_of answer), w1)
    | inl e =>
        (Threw (ErrorObj ("Failed to list documents: " ++ message_of e)),
         record (ConsoleError "Failed to list documents:" e) w1)
    end.
Proof.
  intros Hready Hget.
  unfold Documents.listDocuments, try_catch, bind.
  rewrite open_collection_cases, (ensureInitialized_ready svc w Hready), Hget.
  cbv zeta. unfold of_sum.
  now destruct (Documents.get_page col limit offset).
Qed.

(** [GET /api/documents] on a ready collection pages with the defaults 100
    and 0 (an offset of 0 is kept), and reports as [total] the count of the
    whole collection as the store gives it, not the number of documents on
    the page. *)
Theorem list_route_reports_the_collection_count
        (limit offset : option Z) (w : World)
        (answer : Documents.GetResult) (n : Z) :
  initialized w = true ->
  Chroma.getCollection (Chroma.client svc) = None ->
  let limit' := match limit with Some l => l | None => 100%Z end in
  let offset' := match offset with Some o => o | None => 0%Z end in
  Documents.get_page col limit' offset' = inr answer ->
  Documents.count col = inr n ->
  fst (Api.list_documents rt svc col limit offset w)
  = Returned
      {| Api.status := 200;
         Api.body :=
           Api.ListBody (map Api.mapToResponse
                             (Documents.documents_of answer))
                        n limit' offset' |}.
Proof.
  intros Hready Hget limit' offset' Hpage Hcount.
  unfold Api.list_documents, Api.serve, bind. cbv zeta.
  fold limit'. fold offset'.
  rewrite (listDocuments_cases limit' offset' w Hready Hget), Hpage.
  cbv beta iota zeta.
  rewrite (getCollectionStats_cases
             (record (StoreGetCollection (Chroma.collectionName svc)) w)
             Hready Hget), Hcount.
  reflexivity.
Qed.

End MoreRouteFacts.

Section CreateAndUpdateFacts.

Import Js Effects Types.

Variables (rt : Documents.Runtime) (svc : Chroma.ChromaService)
          (col : Documents.Collection).

(** [POST /api/documents], once the document has been added under [id],
    reads it back: it answers 201 with the document under that id, 500 with
    the code [DOCUMENT_RETRIEVAL_ERROR] when the store does not return it,
    and 500 with [INTERNAL_ERROR] when reading it back fails. *)
Theorem create_document_reads_the_document_back
        (content : string) (metadata : option Metadata) (w w1 : World)
        (id : string) :
  Documents.addDocument rt svc col content
                        (match metadata with Some m => m | None => [] end) w
  = (Returned id, w1) ->
  exists r w',
    Api.create_document rt svc col content metadata w = (Returned r, w')
    /\ match fst (Documents.getDocument svc col id w1) with
       | Returned (Some d) =>
           r = {| Api.status := 201;
                  Api.body := Api.DocumentBody (Api.mapToResponse d) |}
           /\ Api.res_id (Api.mapToResponse d) = id
       | Returned None =>
           Api.status r = 500%Z
           /\ exists stamp,
                Api.body r
                = Api.ErrorBody (Some "Failed to retrieve created document")
                                "DOCUMENT_RETRIEVAL_ERROR" None stamp
       | Threw t =>
           Api.status r = 500%Z
           /\ exists detail stamp,
                Api.body r
                = Api.ErrorBody (Some ("Failed to get document: " ++ detail))
                                "INTERNAL_ERROR" None stamp
       end.
Proof.
  intros Hadd.
  pose proof (getDocument_outcome svc col id w1) as Hid.
  unfold Api.create_document, Api.serve, bind. rewrite Hadd.
  destruct (Documents.getDocument svc col id w1) as [[[d|]|t] w2];
    simpl fst in *.
  - eexists. eexists. split; [reflexivity|].
    split; [reflexivity|]. apply Hid.
  - eexists. eexists. split; [reflexivity|].
    split; [reflexivity|]. eexists. reflexivity.
  - destruct Hid as [detail ->].
    eexists. eexists. split; [reflexivity|].
    split; [reflexivity|]. eexists. eexists. reflexivity.
Qed.

Lemma lookup_absent (m : Metadata) (key : string) :
  ~ In key (map fst m) -> Documents.lookup m key = None.
Proof.
  induction m as [|[k v] m IH]; simpl; [reflexivity|].
  intros H. destruct (String.eqb_spec k key) as [->|Hk].
  - exfalso. apply H. now left.
  - apply IH. intros Hin. apply H. now right.
Qed.

(** A key of the overlay wins over the same key underneath. *)
Lemma lookup_spread (m extra : Metadata) (key : string) :
  NoDup (map fst extra) ->
  Documents.lookup (Documents.spread m extra) key
  = match Documents.lookup extra key with
    | Some v => Some v
    | None => Documents.lookup m key
    end.
Proof.
  unfold Documents.spread. revert m.
  induction extra as [|[k v] extra IH]; intros m Hnd; simpl; [reflexivity|].
  inversion Hnd as [|? ? Hk Hrest]; subst.
  rewrite (IH _ Hrest). simpl fst. simpl snd.
  destruct (String.eqb_spec k key) as [->|Hne].
  - rewrite (lookup_absent extra key Hk).
    apply lookup_with_key_same.
  - destruct (Documents.lookup extra key); [reflexivity|].
    apply lookup_with_key_other. congruence.
Qed.

(** What [PUT /api/documents/:id] stores: the new content unless the update
    has none or an empty one, in which case the existing content stays; in
    the metadata, [updated] is the time of the update, every other key of
    the update has the update's value, and every remaining key keeps the
    value of the existing document. *)
Theorem update_overlays_the_existing_document
        (existing : VectorDocument) (new_content : option string)
        (new_metadata : Metadata) (stamp : string) :
  NoDup (map fst new_metadata) ->
  let payload :=
    Api.update_payload existing new_content (Some new_metadata) stamp in
  Documents.lookup (snd payload) "updated" = Some stamp
  /\ (forall key,
         key <> "updated" ->
         Documents.lookup (snd payload) key
         = match Documents.lookup new_metadata key with
           | Some v => Some v
           | None => Documents.lookup (doc_metadata existing) key
           end)
  /\ (forall c, new_content = Some c -> c <> "" -> fst payload = c)
  /\ (new_content = None \/ new_content = Some "" ->
      fst payload = doc_content existing)
  /\ (forall key,
         key <> "updated" ->
         Documents.lookup
           (snd (Api.update_payload existing new_content None stamp)) key
         = Documents.lookup (doc_metadata existing) key).
Proof.
  intros Hnd payload. unfold payload, Api.update_payload. simpl.
  split; [apply lookup_with_key_same|].
  split.
  { intros key Hkey.
    rewrite lookup_with_key_other by exact Hkey.
    now apply lookup_spread. }
  split.
  { intros c -> Hc. destruct c; [congruence|reflexivity]. }
  split.
  { now intros [->| ->]. }
  intros key Hkey. now rewrite lookup_with_key_other by exact Hkey.
Qed.

End CreateAndUpdateFacts.

(* ================================================================== *)
(** ** The first revision of the chat service *)

Section FirstRevisionFacts.

Import Js Effects Types.

Lemma length_append (a b : string) :
  String.length (a ++ b) = (String.length a + String.length b)%nat.
Proof. induction a as [|c a IH]; simpl; [reflexivity|now rewrite IH]. Qed.

Lemma agent_chat_cases (invoke : Generation.Invoker)
      (a : Agent.DeepSeekAgent) (msgs : list Generation.LcMessage)
      (w : World) :
  Generation.chat invoke a msgs w
  = match invoke (Generation.SystemMessage (Agent.systemPrompt a) :: msgs)
    with
    | inr text => (Returned text, w)
    | inl e =>
        (Threw (ErrorObj ("DeepSeek API error: " ++ message_of e)),
         record (ConsoleError "Error in DeepSeek agent chat:" e) w)
    end.
Proof.
  unfold Generation.chat, try_catch, of_sum.
  now destruct (invoke _).
Qed.

(** [chat] of the first revision sends the model the system prompt followed
    by the whole conversation, message for message and in order.  It returns
    the envelope around the completion, and when the model fails it throws
    [LLM service error: DeepSeek API error: <detail>]. *)
Theorem first_revision_chat_sends_the_whole_conversation
        (backends : LLMv1.Backends) (clock : nat -> Z)
        (agents : LLMv1.Agents) (request : ChatRequest) (w : World) :
  let invoke := if LLMv1.wants_reasoner request
                then LLMv1.reasoner_model backends
                else LLMv1.chat_model backends in
  let sent :=
    Generation.SystemMessage
      (Agent.systemPrompt
         (LLMv1.selected (LLMv1.primed agents request) request))
      :: LLMv1.mapToLangChainMessages (messages request) in
  map (fun m => match m with
                | Generation.SystemMessage s
                | Generation.HumanMessage s
                | Generation.AIMessage s => s
                end)
      (LLMv1.mapToLangChainMessages (messages request))
  = map content (messages request)
  /\ match invoke sent with
     | inr text =>
         LLMv1.chat backends clock agents request w
         = (Returned (LLM.envelope request (clock (clock_reads w))
                                   (clock (S (clock_reads w))) text),
            tick (tick w))
     | inl e =>
         fst (LLMv1.chat backends clock agents request w)
         = Threw (ErrorObj ("LLM service error: DeepSeek API error: "
                              ++ message_of e))
     end.
Proof.
  intros invoke sent. split.
  { unfold LLMv1.mapToLangChainMessages. rewrite map_map.
    apply map_ext. intros m. now destruct (role m). }
  unfold LLMv1.chat, try_catch, bind. cbv zeta.
  rewrite agent_chat_cases. fold invoke. fold sent.
  now destruct (invoke sent).
Qed.

Lemma served_cons (agents : LLMv1.Agents) (request : ChatRequest)
      (later : list ChatRequest) :
  LLMv1.served agents (request :: later)
  = LLMv1.served (LLMv1.primed agents request) later.
Proof. reflexivity. Qed.

(** Every request that names a model of the caller's own prepends one more
    sentence to the system prompt of the agent it selects, the reasoning
    agent when the name contains [reasoner] and the chat agent otherwise,
    and the prompt is never reset: after [n] such requests the prompt of
    that agent carries [n] copies of the sentence, and is
    [n * (23 + length of the name)] characters longer.  The other agent is
    left alone. *)
Theorem custom_model_names_pile_up_in_the_system_prompt
        (agents : LLMv1.Agents) (request : ChatRequest) (m : string)
        (n : nat) :
  LLMv1.custom_model request = Some m ->
  let after := LLMv1.served agents (repeat request n) in
  let pile :=
    Nat.iter n (fun s => "You are using model: " ++ m ++ ". " ++ s) in
  Agent.systemPrompt (LLMv1.selected after request)
  = pile (Agent.systemPrompt (LLMv1.selected agents request))
  /\ String.length (Agent.systemPrompt (LLMv1.selected after request))
     = (n * (23 + String.length m)
        + String.length
            (Agent.systemPrompt (LLMv1.selected agents request)))%nat
  /\ (LLMv1.wants_reasoner request = false ->
      Agent.systemPrompt (LLMv1.agent after)
      = pile (Agent.systemPrompt (LLMv1.agent agents))
      /\ LLMv1.r1Agent after = LLMv1.r1Agent agents)
  /\ (LLMv1.wants_reasoner request = true ->
      Agent.systemPrompt (LLMv1.r1Agent after)
      = pile (Agent.systemPrompt (LLMv1.r1Agent agents))
      /\ LLMv1.agent after = LLMv1.agent agents).
Proof.
  intros Hcustom after pile. unfold after, pile. clear after pile.
  assert (Hiter :
            forall k a,
              Agent.systemPrompt
                (LLMv1.selected (LLMv1.served a (repeat request k)) request)
              = Nat.iter k (fun s => "You are using model: " ++ m ++ ". " ++ s)
                         (Agent.systemPrompt (LLMv1.selected a request))
              /\ (if LLMv1.wants_reasoner request
                  then LLMv1.agent (LLMv1.served a (repeat request k))
                       = LLMv1.agent a
                  else LLMv1.r1Agent (LLMv1.served a (repeat request k))
                       = LLMv1.r1Agent a)).
  { induction k as [|k IH]; intros a.
    { split; [reflexivity|]. now destruct (LLMv1.wants_reasoner request). }
    change (repeat request (S k)) with (request :: repeat request k).
    rewrite served_cons. destruct (IH (LLMv1.primed a request)) as [E1 E2].
    rewrite E1. unfold LLMv1.selected in *. unfold LLMv1.primed in *.
    rewrite Hcustom in *.
    destruct (LLMv1.wants_reasoner request); rewrite E2;
      (split; [|reflexivity]); rewrite Nat.iter_succ_r; reflexivity. }
  destruct (Hiter n agents) as [E1 E2].
  split; [exact E1|].
  split.
  { rewrite E1. clear E1 E2 Hiter.
    induction n as [|n IH]; [reflexivity|].
    rewrite Nat.iter_succ, !length_append, IH. simpl String.length. lia. }
  unfold LLMv1.selected in E1.
  split; intros Hwants; rewrite Hwants in E1, E2; now split.
Qed.

End FirstRevisionFacts.

(* ================================================================== *)
(** ** Tokens and frames *)

Section TokenFacts.

Import Js Effects Types.

Lemma consume_folds {S : Type} (onToken : string -> S -> S)
      (incoming : list string) (acc : S) (w : World) :
  Agent.consume onToken incoming acc w
  = (Returned (fold_left (fun a c => onToken c a)
                         (filter truthy_string incoming) acc),
     extend (map ChunkArrived incoming) w).
Proof.
  revert acc w. induction incoming as [|chunk rest IH]; intros acc w.
  - simpl. unfold ret, extend. simpl. rewrite app_nil_r. now destruct w.
  - simpl. unfold bind, emit. rewrite IH.
    rewrite record_extend. f_equal; [|now rewrite extend_extend].
    now destruct (truthy_string chunk).
Qed.

Lemma arrivals_of_chunks (incoming : list string) :
  flat_map Sse.arrival (map ChunkArrived incoming) = incoming.
Proof.
  induction incoming as [|c rest IH]; simpl; [reflexivity|now rewrite IH].
Qed.

(** [stream] calls the model once, lets every chunk arrive, and calls
    [onToken] exactly for the chunks with a non-empty content, in the order
    of their arrival; it returns when the stream has ended, and throws
    [DeepSeek API error: <detail>] when the stream ends with an error. *)
Theorem stream_hands_over_the_nonempty_chunks_in_order
        {S : Type} (backend : Agent.Backend) (agent : Agent.DeepSeekAgent)
        (prompt : string) (onToken : string -> S -> S) (acc : S)
        (w : World) :
  let upstream := backend (Agent.systemPrompt agent) prompt in
  let result := Agent.stream backend agent prompt onToken acc w in
  match Agent.ending upstream with
  | None =>
      fst result
      = Returned (fold_left (fun a c => onToken c a)
                            (filter truthy_string (Agent.chunks upstream))
                            acc)
  | Some e =>
      fst result = Threw (ErrorObj ("DeepSeek API error: " ++ message_of e))
  end
  /\ observe Agent.model_call (snd result)
     = (observe Agent.model_call w
          ++ [(Agent.systemPrompt agent, prompt)])%list
  /\ observe Sse.arrival (snd result)
     = (observe Sse.arrival w ++ Agent.chunks upstream)%list.
Proof.
  intros upstream result. unfold result, Agent.stream, try_catch, bind, emit.
  rewrite consume_folds. fold upstream.
  rewrite record_extend, extend_extend. simpl app.
  destruct (Agent.ending upstream) as [e|]; cbv beta iota zeta;
    unfold attempt, throw, ret; cbv beta iota zeta; simpl fst; simpl snd;
    (split; [reflexivity|]);
    rewrite ?record_extend, ?observe_extend; simpl flat_map;
    rewrite ?chunks_unseen by reflexivity;
    rewrite ?arrivals_of_chunks, ?app_nil_r;
    split; reflexivity.
Qed.

End TokenFacts.

Section FrameFacts.

Import Js Effects Types.

Lemma ascii_of_append (a b : string) :
  list_ascii_of_string (a ++ b)
  = (list_ascii_of_string a ++ list_ascii_of_string b)%list.
Proof. induction a as [|c a IH]; simpl; [reflexivity|now rewrite IH]. Qed.

Lemma one_line_append (a b : string) :
  Sse.one_line (a ++ b) = Sse.one_line a && Sse.one_line b.
Proof. unfold Sse.one_line. now rewrite ascii_of_append, forallb_app. Qed.

Lemma one_line_escape_char (c : ascii) :
  Sse.one_line (Json.escape_char c) = true.
Proof.
  destruct c as [[] [] [] [] [] [] [] []]; vm_compute; reflexivity.
Qed.

Lemma one_line_escape (s : string) : Sse.one_line (Json.escape s) = true.
Proof.
  induction s as [|c s IH]; [reflexivity|].
  simpl. now rewrite one_line_append, one_line_escape_char, IH.
Qed.

Lemma one_line_quote (s : string) : Sse.one_line (Json.quote s) = true.
Proof.
  unfold Json.quote.
  now rewrite !one_line_append, one_line_escape.
Qed.

Lemma one_line_uint (d : Decimal.uint) :
  Sse.one_line (NilEmpty.string_of_uint d) = true.
Proof. induction d; simpl; auto. Qed.

Lemma one_line_num (z : Z) : Sse.one_line (num_to_string z) = true.
Proof.
  unfold num_to_string. destruct (Z.to_int z) as [d|d]; simpl.
  - apply one_line_uint.
  - apply one_line_uint.
Qed.

Lemma one_line_envelope (request : ChatRequest) (now_id now_created : Z)
      (text : string) :
  Sse.one_line
    (Json.stringify
       (Json.of_response (LLM.envelope request now_id now_created text)))
  = true.
Proof.
  rewrite envelope_json.
  rewrite !one_line_append, !one_line_quote, !one_line_num.
  reflexivity.
Qed.

Variables (env : LLM.Env) (svc : LLM.LLMService).

(** The record of a successful chat is one line: whatever the question, the
    model name and the generated text contain, the JSON text written after
    [data: ] has no character with a code below 32, so no line feed and no
    carriage return, and the two line feeds that end the frame are the only
    ones in it.  ([JSON.stringify] escapes the characters below 32 and
    leaves the others, DEL among them, as they are.) *)
Theorem chat_record_is_a_single_line (request : ChatRequest) (w : World) :
  fst (Routes.post_api_chat env svc request w) = Returned tt ->
  exists payload,
    Routes.written (snd (Routes.post_api_chat env svc request w))
    = app (Routes.written w)
          [ "data: " ++ payload ++ nl ++ nl; "data: [DONE]" ++ nl ++ nl ]
    /\ Sse.one_line payload = true
    /\ forall c,
         In c (list_ascii_of_string payload) ->
         c <> "010"%char /\ c <> "013"%char.
Proof.
  intros Hok.
  pose proof (post_api_chat_cases env svc request w) as Hcases.
  pose proof (resolve_prompt_writes_nothing
                svc request (record (WriteHead 200) w)) as Hquiet.
  cbv zeta in Hcases.
  destruct (LLM.resolve_prompt svc request (record (WriteHead 200) w))
    as [[prompt|t] w1]; simpl in Hquiet;
    [|rewrite Hcases in Hok; discriminate Hok].
  destruct (Agent.ending
              (LLM.backend env (Agent.systemPrompt (LLM.agent svc)) prompt))
    as [t|]; [rewrite Hcases in Hok; discriminate Hok|].
  eexists. split; [|split].
  - rewrite Hcases. simpl snd. unfold Routes.written in *.
    rewrite observe_extend, !observe_tick, observe_extend, Hquiet.
    rewrite record_extend, observe_extend. simpl flat_map.
    rewrite chunks_unseen by reflexivity.
    rewrite !app_nil_r. reflexivity.
  - apply one_line_envelope.
  - intros c Hin.
    pose proof (one_line_envelope
                  request (LLM.clock env (clock_reads w1))
                  (LLM.clock env (S (clock_reads w1)))
                  (Agent.generated_text
                     (LLM.backend env (Agent.systemPrompt (LLM.agent svc))
                                  prompt))) as Hline.
    unfold Sse.one_line in Hline. rewrite forallb_forall in Hline.
    specialize (Hline c Hin). apply Nat.leb_le in Hline.
    split; intros ->; vm_compute in Hline; lia.
Qed.

End FrameFacts.

(* ================================================================== *)
(** ** The further properties on the sample collaborators *)

Section MoreSamples.

Import Js Effects Types.

Lemma search_returns_the_nonempty_documents_witness :
  fst (Chroma.search Fixtures.chroma "notes" 3 None fresh)
  = Returned Sample.results
  /\ Forall (fun r => truthy_string (doc_content (document r)) = true)
            Sample.results.
Proof.
  split; [reflexivity|].
  destruct (search_returns_the_nonempty_documents
              Fixtures.chroma "notes" 3 None fresh Sample.results eq_refl)
    as (answer & _ & _ & Hall & _).
  exact Hall.
Defined.

Lemma results_keep_the_positions_of_the_answer_witness :
  exists r,
    In r (Chroma.results_of Sample.two_documents)
    /\ doc_id (document r) = "b".
Proof.
  eexists. split.
  - apply (proj2 (results_keep_the_positions_of_the_answer
                    Sample.two_documents _ _ _ _ eq_refl eq_refl eq_refl)).
    exists 1%nat, "beta". split; [reflexivity|]. split; reflexivity.
  - reflexivity.
Defined.

Lemma initialize_creates_only_a_missing_collection_witness :
  In "documents" ["documents"]
  /\ fst (Chroma.initialize Fixtures.chroma fresh) = Returned tt.
Proof.
  assert (H : In "documents" ["documents"]) by (now left).
  split; [exact H|].
  exact (proj1 (proj1 (initialize_creates_only_a_missing_collection
                         Fixtures.chroma fresh ["documents"]
                         eq_refl eq_refl) H)).
Defined.

Lemma initialization_is_not_repeated_witness :
  initialized (snd (Chroma.search Fixtures.chroma "notes" 3 None fresh))
  = true.
Proof.
  exact (proj1 (initialization_is_not_repeated
                  Fixtures.chroma "notes" 3 None fresh Sample.results
                  eq_refl)).
Defined.

Lemma search_fails_when_the_store_is_unreachable_witness :
  fst (Chroma.search Fixtures.down "notes" 3 None fresh)
  = Threw (ErrorObj
             "Search failed: ChromaDB initialization failed: ECONNREFUSED").
Proof.
  exact (proj1 (search_fails_when_the_store_is_unreachable
                  Fixtures.down "notes" 3 None fresh
                  (ErrorObj "ECONNREFUSED") eq_refl eq_refl)).
Defined.

Lemma store_operations_throw_their_own_errors_witness :
  exists detail,
    ErrorObj "Failed to get document: ChromaDB initialization failed: ECONNREFUSED"
    = ErrorObj ("Failed to get document: " ++ detail).
Proof.
  exact (proj1 (proj2 (store_operations_throw_their_own_errors
                         Fixtures.down Fixtures.collection fresh _))
               "a" eq_refl).
Defined.

Lemma listDocuments_returns_the_nonempty_documents_witness :
  exists answer,
    Documents.get_page Fixtures.collection 100 0 = inr answer
    /\ (Documents.got_documents answer = None ->
        [ {| doc_id := "a"; doc_content := "alpha"; doc_metadata := [] |};
          {| doc_id := "unknown_2"; doc_content := "beta";
             doc_metadata := [] |} ] = []).
Proof.
  destruct (listDocuments_returns_the_nonempty_documents
              Fixtures.chroma Fixtures.collection 100 0 fresh _ eq_refl)
    as (answer & Hpage & Hnone & _).
  exists answer. split; [exact Hpage|exact Hnone].
Defined.

Lemma addDocument_stamps_the_document_witness :
  exists stored,
    Documents.add Fixtures.collection
                  ["doc_1700000000123_k3j9x0q1z"] [stored] ["alpha"] = None
    /\ Documents.lookup stored "timestamp" = Some "2023-11-14T22:13:20.123Z".
Proof.
  destruct (addDocument_stamps_the_document
              Fixtures.chroma Fixtures.collection Fixtures.runtime
              "alpha" [("timestamp", "1999")] fresh
              "doc_1700000000123_k3j9x0q1z" eq_refl)
    as (stored & _ & Hadd & Hstamp & _).
  exists stored. split; [exact Hadd|exact Hstamp].
Defined.

Lemma clearCollection_forces_a_new_initialization_witness :
  initialized
    (snd (Documents.clearCollection Fixtures.chroma Fixtures.collection
                                    Sample.ready))
  = false.
Proof.
  exact (proj1 (proj2 (proj2
           (clearCollection_forces_a_new_initialization
              Fixtures.chroma Fixtures.collection Sample.ready eq_refl)))).
Defined.

Lemma clearCollection_failure_leaves_the_service_initialised_witness :
  initialized
    (snd (Documents.clearCollection Fixtures.full Fixtures.collection
                                    Sample.ready))
  = true.
Proof.
  exact (proj1 (proj2
           (clearCollection_failure_leaves_the_service_initialised
              Fixtures.full Fixtures.collection Sample.ready
              (ErrorObj "quota exceeded") eq_refl eq_refl eq_refl))).
Defined.

Lemma search_route_defaults_to_five_witness :
  exists r w',
    Api.search_documents Fixtures.runtime Fixtures.chroma "notes" None None
                         Sample.ready
    = (Returned r, w')
    /\ observe Chroma.query_call w' = [("notes", 5%Z)].
Proof.
  destruct (search_route_defaults_to_five
              Fixtures.runtime Fixtures.chroma "notes" None None
              Sample.ready eq_refl eq_refl eq_refl)
    as (_ & _ & r & w' & Hrun & Hasked & _).
  exists r, w'. split; [exact Hrun|exact Hasked].
Defined.

Lemma list_route_reports_the_collection_count_witness :
  fst (Api.list_documents Fixtures.runtime Fixtures.chroma
                          Fixtures.collection None None Sample.ready)
  = Returned
      {| Api.status := 200;
         Api.body :=
           Api.ListBody (map Api.mapToResponse
                             (Documents.documents_of Fixtures.page))
                        7 100 0 |}.
Proof.
  exact (list_route_reports_the_collection_count
           Fixtures.runtime Fixtures.chroma Fixtures.collection None None
           Sample.ready Fixtures.page 7 eq_refl eq_refl eq_refl eq_refl).
Defined.

Lemma create_document_reads_the_document_back_witness :
  exists r w',
    Api.create_document Fixtures.runtime Fixtures.chroma Fixtures.collection
                        "alpha" None fresh
    = (Returned r, w').
Proof.
  destruct (create_document_reads_the_document_back
              Fixtures.runtime Fixtures.chroma Fixtures.collection
              "alpha" None fresh _ "doc_1700000000123_k3j9x0q1z" eq_refl)
    as (r & w' & Hrun & _).
  exists r, w'. exact Hrun.
Defined.

Lemma update_overlays_the_existing_document_witness :
  NoDup (map fst [("topic", "ideas")])
  /\ Documents.lookup
       (snd (Api.update_payload Fixtures.alpha (Some "")
                                (Some [("topic", "ideas")]) "now"))
       "updated"
     = Some "now".
Proof.
  assert (H : NoDup (map fst [("topic", "ideas")])).
  { simpl. constructor; [intros []|constructor]. }
  split; [exact H|].
  exact (proj1 (update_overlays_the_existing_document
                  Fixtures.alpha (Some "") [("topic", "ideas")] "now" H)).
Defined.

Lemma custom_model_names_pile_up_in_the_system_prompt_witness :
  Agent.systemPrompt
    (LLMv1.agent (LLMv1.served LLMv1.new_agents
                               (repeat Fixtures.custom_request 2)))
  = "You are using model: gpt-4o. You are using model: gpt-4o. You are a helpful AI assistant."
  /\ LLMv1.agent (LLMv1.served LLMv1.new_agents
                               (repeat Fixtures.custom_reasoner_request 1))
     = LLMv1.agent LLMv1.new_agents
  /\ String.length
       (Agent.systemPrompt
          (LLMv1.r1Agent
             (LLMv1.served LLMv1.new_agents
                           (repeat Fixtures.custom_reasoner_request 1))))
     = (1 * (23 + 14)
        + String.length Generation.R1_SYSTEM_PROMPT)%nat.
Proof.
  split.
  - exact (proj1 (custom_model_names_pile_up_in_the_system_prompt
                    LLMv1.new_agents Fixtures.custom_request "gpt-4o" 2
                    eq_refl)).
  - pose proof (custom_model_names_pile_up_in_the_system_prompt
                  LLMv1.new_agents Fixtures.custom_reasoner_request
                  "my-reasoner-v2" 1 eq_refl) as T.
    cbv zeta in T. destruct T as (_ & Hlength & _ & Hreasoner).
    split; [exact (proj2 (Hreasoner eq_refl))|exact Hlength].
Defined.

Lemma chat_record_is_a_single_line_witness :
  fst (Routes.post_api_chat Sample.env Sample.service Sample.plain_request
                            fresh)
  = Returned tt
  /\ exists payload,
       Routes.written
         (snd (Routes.post_api_chat Sample.env Sample.service
                                    Sample.plain_request fresh))
       = [ "data: " ++ payload ++ nl ++ nl; "data: [DONE]" ++ nl ++ nl ]
       /\ Sse.one_line payload = true.
Proof.
  split; [reflexivity|].
  destruct (chat_record_is_a_single_line
              Sample.env Sample.service Sample.plain_request fresh eq_refl)
    as (payload & Hwire & Hline & _).
  exists payload. split; [exact Hwire|exact Hline].
Defined.

End MoreSamples.

Section LookupSamples.

Import Js Effects Types.

Lemma getDocument_answers_with_the_requested_id_witness :
  fst (Documents.getDocument Fixtures.chroma Fixtures.collection
                             "doc_42" Sample.ready)
  = Returned (Some {| doc_id := "doc_42";
                      doc_content := "alpha";
                      doc_metadata := [("lang", "en")] |}).
Proof.
  exact (f_equal fst
           (proj1 (getDocument_answers_with_the_requested_id
                     Fixtures.chroma Fixtures.collection "doc_42"
                     Sample.ready)
                  Sample.ready _ eq_refl eq_refl eq_refl)).
Defined.

End LookupSamples.
